(** * Memecoin-AI-Agent: the decision loop, the retrying poster and the
      market-data cache, embedded from [src/index.ts] and
      [services/chat/ChatService.js].

    The development is organised by component:
    - [JS]       the fragment of JavaScript values the code computes with
                 (numbers with NaN and infinities, truthiness, completions);
    - [Jupiter]  [JupiterPriceV2Service]: [calculateConfidenceLevel] and the
                 read/write-through [getMarketData];
    - [Twitter]  [postTweetWithRetry] and its periodic caller;
    - [Agent]    [MemeAgentInfluencer]: [analyzeMarket], the trade gate of
                 [startMarketMonitoring] and [executeTrade];
    - [Chat]     [ChatService]: the interval timer of auto mode, run on an
                 explicit event loop.
    Definitions come first; the theorems follow at the end of the file. *)

From Stdlib Require Import ZArith QArith List String Bool Lia DecimalString.
From stdpp Require Import base gmap strings list.
Import ListNotations.

Local Open Scope string_scope.
Local Open Scope list_scope.

(* ===================================================================== *)
(** ** JavaScript values                                                  *)
(* ===================================================================== *)

Module JS.

(** A JavaScript number.  A finite double is represented by the rational
    it denotes, so the relational operators below are exact; NaN and the
    two infinities are kept apart because every comparison with NaN is
    false. *)
Inductive number : Type :=
| NaN
| NegInf
| Fin (q : Q)
| PosInf.

Definition zero : number := Fin 0.

Definition ofZ (z : Z) : number := Fin (inject_Z z).

(** [a > b] *)
Definition gt (a b : number) : bool :=
  match a, b with
  | Fin x, Fin y => negb (Qle_bool x y)
  | PosInf, Fin _ | PosInf, NegInf | Fin _, NegInf => true
  | _, _ => false
  end.

(** [a < b] *)
Definition lt (a b : number) : bool := gt b a.

(** [a >= b] *)
Definition ge (a b : number) : bool :=
  match a, b with
  | Fin x, Fin y => Qle_bool y x
  | PosInf, Fin _ | PosInf, NegInf | PosInf, PosInf => true
  | Fin _, NegInf | NegInf, NegInf => true
  | _, _ => false
  end.

(** ToBoolean on numbers: [0] and [NaN] are falsy. *)
Definition truthy (a : number) : bool :=
  match a with
  | NaN => false
  | Fin q => negb (Qeq_bool q 0)
  | NegInf | PosInf => true
  end.

(** [Number(x)] for a field that is either a number or missing:
    [Number(undefined)] is [NaN]. *)
Definition Number (x : option number) : number :=
  match x with
  | Some n => n
  | None => NaN
  end.

(** [x || d] for a field that is either a number or [undefined]. *)
Definition num_or (x : option number) (d : number) : number :=
  match x with
  | Some n => if truthy n then n else d
  | None => d
  end.

(** [x || d] on strings: the empty string is falsy. *)
Definition str_or (x : option string) (d : string) : string :=
  match x with
  | Some s => if String.eqb s EmptyString then d else s
  | None => d
  end.

(** [x || false] on booleans. *)
Definition bool_or_false (x : option bool) : bool :=
  match x with
  | Some b => b
  | None => false
  end.

(** [x || []]: an array, even an empty one, is truthy. *)
Definition list_or_nil {A} (x : option (list A)) : list A :=
  match x with
  | Some l => l
  | None => []
  end.

(** The string functions of the runtime that look at the characters
    ([trim], [toLowerCase], [toUpperCase]) are modelled on ASCII text
    (every character below 128), where they are given by the tables
    below; every statement that depends on one of them assumes
    [ascii_only] of the text it is applied to. *)
Definition is_ascii (a : Ascii.ascii) : bool :=
  Nat.ltb (Ascii.nat_of_ascii a) 128.

Fixpoint ascii_only (s : string) : bool :=
  match s with
  | String a s' => is_ascii a && ascii_only s'
  | EmptyString => true
  end.

(** [String.prototype.trim] on ASCII text: the white space and line
    terminators below 128 are space, tab, LF, VT, FF and CR. *)
Definition is_space (a : Ascii.ascii) : bool :=
  let n := Ascii.nat_of_ascii a in
  Nat.eqb n 32 || (Nat.leb 9 n && Nat.leb n 13).

Fixpoint trim_start (s : string) : string :=
  match s with
  | String a s' => if is_space a then trim_start s' else s
  | EmptyString => EmptyString
  end.

Fixpoint trim_end (s : string) : string :=
  match s with
  | String a s' =>
      let r := trim_end s' in
      if is_space a && String.eqb r EmptyString then EmptyString
      else String a r
  | EmptyString => EmptyString
  end.

Definition trim (s : string) : string := trim_end (trim_start s).

(** A thrown value.  [lastError] of the retry loop starts out
    [undefined], hence the first constructor. *)
Inductive exn : Type :=
| Undefined
| Error (msg : string).

(** Completion of a call: it returns or it throws. *)
Inductive completion (A : Type) : Type :=
| Returns (a : A)
| Throws (e : exn).
Global Arguments Returns {A} a.
Global Arguments Throws {A} e.

Definition returned {A} (c : completion A) : bool :=
  match c with
  | Returns _ => true
  | Throws _ => false
  end.

End JS.

(* ===================================================================== *)
(** ** JupiterPriceV2Service: confidence buckets                          *)
(* ===================================================================== *)

Module Jupiter.
Import JS.

Record Liquidity := { usd : option number }.

Record Pair := {
  marketCap : option number;
  liquidity : option Liquidity
}.

Record DexData := { pairs : list Pair }.

Record TradeData := {
  price : option number;
  volume_24h_usd : option number;
  price_change_24h_percent : option number
}.

Inductive ConfidenceLevel := low | medium | high.

(** [dexData.pairs[0]?.liquidity?.usd] *)
Definition pair0_liquidity_usd (dexData : DexData) : option number :=
  match pairs dexData with
  | [] => None
  | p :: _ =>
      match liquidity p with
      | Some l => usd l
      | None => None
      end
  end.

(** [dexData.pairs[0]?.marketCap] *)
Definition pair0_marketCap (dexData : DexData) : option number :=
  match pairs dexData with
  | [] => None
  | p :: _ => marketCap p
  end.

Definition calculateConfidenceLevel (tradeData : TradeData) (dexData : DexData)
  : ConfidenceLevel :=
  let volume24h := Number (volume_24h_usd tradeData) in
  let liquidity := num_or (pair0_liquidity_usd dexData) zero in
  if gt volume24h (ofZ 100000) && gt liquidity (ofZ 50000) then high
  else if gt volume24h (ofZ 10000) && gt liquidity (ofZ 10000) then medium
  else low.

(** The defensive clamp the specification words: a negative value is
    replaced by [0]; everything else (NaN included, since [NaN < 0] is
    false) is left alone. *)
Definition clamp (n : number) : number :=
  if lt n zero then zero else n.

Definition normalizeTrade (t : TradeData) : TradeData :=
  {| price := option_map clamp (price t);
     volume_24h_usd := option_map clamp (volume_24h_usd t);
     price_change_24h_percent := price_change_24h_percent t |}.

Definition normalizePair (p : Pair) : Pair :=
  {| marketCap := marketCap p;
     liquidity :=
       option_map (fun l => {| usd := option_map clamp (usd l) |}) (liquidity p) |}.

Definition normalizeDex (d : DexData) : DexData :=
  {| pairs := List.map normalizePair (pairs d) |}.

(** Classification as the specification words it: clamp first, compare
    afterwards. *)
Definition calculateConfidenceLevel_clamped (t : TradeData) (d : DexData)
  : ConfidenceLevel :=
  calculateConfidenceLevel (normalizeTrade t) (normalizeDex d).

Definition negative (x : option number) : bool :=
  match x with
  | Some n => lt n zero
  | None => false
  end.

Definition with_volume (v : number) (t : TradeData) : TradeData :=
  {| price := price t;
     volume_24h_usd := Some v;
     price_change_24h_percent := price_change_24h_percent t |}.

Definition with_price (v : number) (t : TradeData) : TradeData :=
  {| price := Some v;
     volume_24h_usd := volume_24h_usd t;
     price_change_24h_percent := price_change_24h_percent t |}.

(** A snapshot with one pair, as in the specification's example. *)
Definition snapshot (volume liq : number) : TradeData * DexData :=
  ({| price := None; volume_24h_usd := Some volume;
      price_change_24h_percent := None |},
   {| pairs := [ {| marketCap := None;
                    liquidity := Some {| usd := Some liq |} |} ] |}).


(** *** The read/write-through [getMarketData] *)

(** A parsed JSON value; the object [getMarketData] assembles is one too. *)
#[warnings="-register-all"] Inductive json : Type :=
| JNull
| JNum (n : number)
| JStr (s : string)
| JObj (fields : list (string * json)).

Record TokenData := {
  tradeData : TradeData;
  dexScreenerData : DexData
}.

(** What [cache.get] resolves to: [typeof cached === 'string'] or not. *)
Inductive cached : Type :=
| CString (s : string)
| CNotString.                          (* undefined, or any other value *)

Inductive io : Type :=
| CacheGet (key : string)
| CacheSet (key value : string) (expires : Z)
| Fetch                                (* tokenProvider.getProcessedTokenData() *)
| LogFetchError (symbol : string) (e : exn).

(** [static CACHE_TTL = 300; // 5 minutes] *)
Definition CACHE_TTL : Z := 300.

Definition marketData_of (tokenData : TokenData) : json :=
  let tradeData := tradeData tokenData in
  let dexData := dexScreenerData tokenData in
  JObj [ ("price", JNum (Number (price tradeData)));
         ("volume24h", JNum (Number (volume_24h_usd tradeData)));
         ("priceChange24h", JNum (Number (price_change_24h_percent tradeData)));
         ("marketCap", JNum (num_or (pair0_marketCap dexData) zero)) ].

Section MarketData.
Context {W : Type}.

(** Collaborators: the cache behind [this.cache], the token provider and
    the JSON codec of the runtime ([None]: [JSON.parse] throws). *)
Variable cache_get : string -> W -> completion cached * W.
Variable cache_set : string -> string -> Z -> W -> completion unit * W.
Variable getProcessedTokenData : W -> completion TokenData * W.
Variable JSON_stringify : json -> string.
Variable JSON_parse : string -> option json.

(** The [catch] block: log, rethrow. *)
Definition rethrow (symbol : string) (tr : list io) (e : exn) (w : W)
  : completion json * list io * W :=
  (Throws e, tr ++ [LogFetchError symbol e], w).

Definition getMarketData (symbol : string) (w : W)
  : completion json * list io * W :=
  let cacheKey := ("marketData:" ++ symbol)%string in
  match cache_get cacheKey w with
  | (Returns (CString s), w1) =>
      match JSON_parse s with
      | Some v => (Returns v, [CacheGet cacheKey], w1)
      | None =>
          rethrow symbol [CacheGet cacheKey]
                  (Error "SyntaxError: unexpected token in JSON") w1
      end
  | (Returns CNotString, w1) =>
      match getProcessedTokenData w1 with
      | (Returns tokenData, w2) =>
          let marketData := marketData_of tokenData in
          let payload := JSON_stringify marketData in
          match cache_set cacheKey payload CACHE_TTL w2 with
          | (Returns _, w3) =>
              (Returns marketData,
               [CacheGet cacheKey; Fetch; CacheSet cacheKey payload CACHE_TTL],
               w3)
          | (Throws e, w3) =>
              rethrow symbol
                [CacheGet cacheKey; Fetch; CacheSet cacheKey payload CACHE_TTL]
                e w3
          end
      | (Throws e, w2) => rethrow symbol [CacheGet cacheKey; Fetch] e w2
      end
  | (Throws e, w1) => rethrow symbol [CacheGet cacheKey] e w1
  end.

End MarketData.

Definition is_fetch (e : io) : bool :=
  match e with Fetch => true | _ => false end.

Definition is_cache_set (e : io) : bool :=
  match e with CacheSet _ _ _ => true | _ => false end.

(** Number of upstream fetches in a trace. *)
Definition fetches (tr : list io) : nat := length (List.filter is_fetch tr).

(** *** A cache with expiry, to run the service against *)

(** Modelled from the spec: the cache behind [this.cache] ([RedisService],
    not part of the sources at hand).  An entry carries [expiresAt]; a read
    at or after [expiresAt] is a miss although the entry is still stored;
    [set] stamps [now + ttl]. *)
Record Entry := { value : string; expiresAt : Z }.

Record World := {
  now : Z;
  entries : gmap string Entry;
  upstream : completion TokenData
}.

Definition store_get (key : string) (w : World) : completion cached * World :=
  match entries w !! key with
  | Some e => if Z.ltb (now w) (expiresAt e)
              then (Returns (CString (value e)), w)
              else (Returns CNotString, w)
  | None => (Returns CNotString, w)
  end.

Definition store_set (key payload : string) (ttl : Z) (w : World)
  : completion unit * World :=
  (Returns tt,
   {| now := now w;
      entries := <[key := {| value := payload; expiresAt := now w + ttl |}]>
                   (entries w);
      upstream := upstream w |}).

Definition provider (w : World) : completion TokenData * World :=
  (upstream w, w).

(** The age of the entry stored under [key], given the TTL it was written
    with. *)
Definition age (ttl : Z) (key : string) (w : World) : option Z :=
  match entries w !! key with
  | Some e => Some (now w - (expiresAt e - ttl))%Z
  | None => None
  end.

(** A toy codec, enough to tell payloads apart. *)
Definition toy_stringify (j : json) : string :=
  match j with
  | JObj _ => "{...}"
  | _ => "null"
  end.

Definition toy_parse (s : string) : option json :=
  if String.eqb s "{...}" then Some (JObj [])
  else if String.eqb s "null" then Some JNull
  else None.

(** The service wired to the store above. *)
Definition getMarketData_on_store (symbol : string) (w : World)
  : completion json * list io * World :=
  getMarketData store_get store_set provider toy_stringify toy_parse symbol w.

Definition elona : TokenData :=
  {| tradeData := fst (snapshot (ofZ 150000) (ofZ 60000));
     dexScreenerData := snd (snapshot (ofZ 150000) (ofZ 60000)) |}.

(** The snapshot of ELONA was cached at time 0 with the 300 s TTL; it is
    now time 301 and the upstream is down. *)
Definition stale_world : World :=
  {| now := 301;
     entries := {[ "marketData:ELONA" :=
                     {| value := "{...}"; expiresAt := 300 |} ]};
     upstream := Throws (Error "ETIMEDOUT") |}.

(** Nothing cached, upstream healthy. *)
Definition cold_world : World :=
  {| now := 0; entries := ∅; upstream := Returns elona |}.

(** The cold world after one successful [getMarketData "ELONA"]. *)
Definition warm_world : World :=
  snd (store_set "marketData:ELONA" "{...}" 300 cold_world).

End Jupiter.

(* ===================================================================== *)
(** ** The retrying poster and its periodic caller                        *)
(* ===================================================================== *)

Module Twitter.
Import JS.

(** What a run does to the outside world, in order. *)
Inductive event : Type :=
| Tweet (text : string)              (* twitter.v2.tweet({ text }) *)
| Sleep (ms : Z)                     (* await new Promise(r => setTimeout(r, ms)) *)
| LogSuccess (msg : string)
| LogInfo (msg : string)
| LogAttemptFailed (attempt : nat) (e : exn)
| LogError (msg : string) (e : exn)
| UnhandledRejection (e : exn).

Definition baseWaitTime : Z := 5000.

(** The slice of [tradingService.getMarketData] the tweet scheduler reads. *)
Record MarketData := {
  price : option number;
  volume24h : option number
}.

Section Poster.
Context {W : Type}.

(** The collaborators, each a transition on the state [W] of the outside
    world that resolves or rejects. *)
Variable tweet : string -> W -> completion unit * W.
Variable llm_chat : W -> completion string * W.
Variable getMarketData : W -> completion MarketData * W.

Definition run (A : Type) : Type := (completion A * list event * W)%type.

(** The body of [for (let i = 0; i < retries; i++)], entered with
    [remaining = retries - i] iterations to go, followed by the code
    after the loop. *)
Fixpoint retry_from (remaining i : nat) (content : string)
    (lastError : exn) (w : W) : run unit :=
  match remaining with
  | O =>
      (Throws lastError,
       [LogError "Failed to post tweet after multiple attempts:" lastError],
       w)
  | S remaining' =>
      match tweet content w with
      | (Returns _, w') =>
          (Returns tt,
           [Tweet content; LogSuccess "Tweet posted successfully"], w')
      | (Throws error, w') =>
          let '(c, tr, w'') :=
            retry_from remaining' (S i) content error w' in
          (c,
           Tweet content
             :: LogAttemptFailed (i + 1) error
             :: Sleep (baseWaitTime * Z.of_nat (i + 1))
             :: tr,
           w'')
      end
  end.

Definition postTweetWithRetry (content : string) (retries : nat) (w : W)
  : run unit :=
  retry_from retries 0 content Undefined w.

(** [retries = 3] when the argument is omitted. *)
Definition default_retries : nat := 3.

(** [generateTweetContent]: one chat completion; a missing message is
    turned into an error; every error is logged and rethrown. *)
Definition generateTweetContent (w : W) : run string :=
  match llm_chat w with
  | (Returns message, w') =>
      if String.eqb message EmptyString then
        let e := Error "Failed to generate tweet content" in
        (Throws e, [LogError "Error generating tweet content:" e], w')
      else (Returns (trim message), [], w')
  | (Throws e, w') =>
      (Throws e, [LogError "Error generating tweet content:" e], w')
  end.

Definition postAITweet (w : W) : run unit :=
  match generateTweetContent w with
  | (Returns content, tr1, w1) =>
      match postTweetWithRetry content default_retries w1 with
      | (Returns _, tr2, w2) =>
          (Returns tt,
           LogInfo "Generating AI tweet..." :: tr1 ++ tr2
             ++ [LogSuccess "AI tweet posted successfully"], w2)
      | (Throws e, tr2, w2) =>
          (Throws e,
           LogInfo "Generating AI tweet..." :: tr1 ++ tr2
             ++ [LogError "Failed to post AI tweet:" e], w2)
      end
  | (Throws e, tr1, w1) =>
      (Throws e,
       LogInfo "Generating AI tweet..." :: tr1
         ++ [LogError "Failed to post AI tweet:" e], w1)
  end.

(** The callback [scheduleTweets] hands to [setInterval].
    [marketData.price.toString()] throws a TypeError on a missing
    field; the whole body sits in one try/catch that only logs. *)
Definition scheduleTweets_tick (w : W) : run unit :=
  match getMarketData w with
  | (Returns marketData, w1) =>
      match price marketData, volume24h marketData with
      | Some _, Some _ =>
          match postAITweet w1 with
          | (Returns _, tr, w2) => (Returns tt, tr, w2)
          | (Throws e, tr, w2) =>
              (Returns tt,
               tr ++ [LogError "Error in automated tweet generation:" e], w2)
          end
      | _, _ =>
          let e := Error "TypeError: cannot read properties of undefined" in
          (Returns tt,
           [LogError "Error in automated tweet generation:" e], w1)
      end
  | (Throws e, w1) =>
      (Returns tt, [LogError "Error in automated tweet generation:" e], w1)
  end.

(** [ticks] firings of the interval timer, one callback after the
    other.  A callback that rejected would leave an unhandled rejection
    behind, which ends the process; the timer itself is never cleared. *)
Fixpoint scheduleTweets_run (ticks : nat) (w : W) : list event * W :=
  match ticks with
  | O => ([], w)
  | S ticks' =>
      match scheduleTweets_tick w with
      | (Returns _, tr, w') =>
          let '(rest, w'') := scheduleTweets_run ticks' w' in
          (tr ++ rest, w'')
      | (Throws e, tr, w') => (tr ++ [UnhandledRejection e], w')
      end
  end.

End Poster.

(** Every call of the sink rejects. *)
Definition sink_down {W : Type} (tweet : string -> W -> completion unit * W)
  : Prop :=
  forall (content : string) (w : W), returned (fst (tweet content w)) = false.

(** Projections of a run. *)
Definition outcome {A W : Type} (r : completion A * list event * W)
  : completion A := fst (fst r).

Definition trace {A W : Type} (r : completion A * list event * W)
  : list event := snd (fst r).

(** Observations on a trace. *)
Definition is_tweet (e : event) : bool :=
  match e with Tweet _ => true | _ => false end.

Definition is_rejection (e : event) : bool :=
  match e with UnhandledRejection _ => true | _ => false end.

(** An unhandled rejection was raised somewhere in the trace. *)
Definition crashed (tr : list event) : bool := existsb is_rejection tr.

Definition attempts (tr : list event) : nat :=
  length (List.filter is_tweet tr).

Fixpoint delays (tr : list event) : list Z :=
  match tr with
  | [] => []
  | Sleep ms :: tr' => ms :: delays tr'
  | _ :: tr' => delays tr'
  end.

(** The delay slept between attempt [i] and attempt [i + 1] (attempts
    counted from 1): the [Sleep] events met after the [i]-th [Tweet] and
    before the next one.  [None] when there is no attempt [i + 1]. *)
Fixpoint delays_between (seen i : nat) (acc : list Z) (tr : list event)
  : option (list Z) :=
  match tr with
  | [] => None
  | Tweet _ :: tr' =>
      if Nat.eqb seen i then Some (List.rev acc)
      else delays_between (S seen) i [] tr'
  | Sleep ms :: tr' => delays_between seen i (ms :: acc) tr'
  | _ :: tr' => delays_between seen i acc tr'
  end.

Definition delay_between (i : nat) (tr : list event) : option (list Z) :=
  delays_between 0 i [] tr.

Fixpoint nondecreasing (l : list Z) : bool :=
  match l with
  | a :: ((b :: _) as l') => Z.leb a b && nondecreasing l'
  | _ => true
  end.

(** Concrete sinks used to exercise the model: the state counts the
    calls made so far. *)
Definition always_fails (text : string) (calls : nat)
  : completion unit * nat :=
  (Throws (Error "503"), S calls).

Definition fails_first (k : nat) (text : string) (calls : nat)
  : completion unit * nat :=
  (if Nat.ltb calls k then Throws (Error "503") else Returns tt, S calls).

Definition llm_ok (calls : nat) : completion string * nat :=
  (Returns "gm", calls).

Definition market_ok (calls : nat) : completion MarketData * nat :=
  (Returns {| price := Some (ofZ 1); volume24h := Some (ofZ 2) |}, calls).

End Twitter.

(* ===================================================================== *)
(** ** MemeAgentInfluencer: market analysis and the trade gate            *)
(* ===================================================================== *)

Module Agent.
Import JS.

Record Volatility := {
  currentVolatility : option number;
  averageVolatility : option number;
  adjustmentFactor : option number
}.

(** A plain JavaScript object with numeric fields; [{}] is [[]]. *)
Definition object : Type := list (string * number).

(** What [tradingService.getMarketData] resolves to. *)
Record MarketData := {
  md_price : option number;
  md_volume24h : option number;
  md_marketCap : option number;
  md_onChainActivity : option object;
  md_volatility : option Volatility
}.

(** What [aiService.analyzeMarket] resolves to; any field may be missing. *)
Record AiAnalysis := {
  ai_summary : option string;
  ai_sentiment : option string;
  ai_keyPoints : option (list string);
  ai_recommendation : option string;
  ai_shouldTrade : option bool;
  ai_confidence : option number;
  ai_action : option string;
  ai_reasons : option (list string);
  ai_riskLevel : option string
}.

Record MarketMetrics := {
  price : number;
  volume24h : number;
  marketCap : number;
  m_confidence : number;
  onChainData : object;
  volatility : number;
  momentum : number;
  strength : number
}.

Record MarketAnalysis := {
  summary : string;
  sentiment : string;
  keyPoints : list string;
  recommendation : option string;
  shouldTrade : bool;
  confidence : number;
  action : string;
  reasons : list string;
  riskLevel : string;
  metrics : MarketMetrics
}.

(** [CONFIG.SOLANA.TRADING] *)
Record TradingConfig := {
  MIN_CONFIDENCE : number;
  BASE_AMOUNT : number;
  SLIPPAGE : number
}.

Inductive event : Type :=
| GetMarketData (tokenAddress : string)
| AnalyzeMarket
| ExecuteTrade (inputToken outputToken : string) (amount slippage : number)
| ConsoleError (msg : string) (e : exn)
| LogError (msg : string) (e : exn).

(** [marketData.volatility?.field || 0] *)
Definition volatility_or_zero (md : MarketData)
    (field : Volatility -> option number) : number :=
  match md_volatility md with
  | Some v => num_or (field v) zero
  | None => zero
  end.

Definition riskLevel_of (r : option string) : string :=
  match r with
  | Some s => if String.eqb s "LOW" || String.eqb s "HIGH" then s else "MEDIUM"
  | None => "MEDIUM"
  end.

(** The object returned from the [catch] block of [analyzeMarket]. *)
Definition fallback : MarketAnalysis :=
  {| summary := "Error analyzing market";
     sentiment := "NEUTRAL";
     keyPoints := [];
     recommendation := None;
     shouldTrade := false;
     confidence := zero;
     action := "HOLD";
     reasons := ["Error analyzing market"];
     riskLevel := "MEDIUM";
     metrics := {| price := zero; volume24h := zero; marketCap := zero;
                   m_confidence := zero; onChainData := [];
                   volatility := zero; momentum := zero; strength := zero |} |}.

(** The object built on the success path of [analyzeMarket]. *)
Definition assemble (marketData : MarketData) (aiAnalysis : AiAnalysis)
  : MarketAnalysis :=
  let metrics :=
    {| price := num_or (md_price marketData) zero;
       volume24h := num_or (md_volume24h marketData) zero;
       marketCap := num_or (md_marketCap marketData) zero;
       m_confidence := num_or (ai_confidence aiAnalysis) zero;
       onChainData :=
         match md_onChainActivity marketData with
         | Some o => o
         | None => []
         end;
       volatility := volatility_or_zero marketData currentVolatility;
       momentum := volatility_or_zero marketData adjustmentFactor;
       strength := volatility_or_zero marketData averageVolatility |} in
  {| summary := str_or (ai_summary aiAnalysis) EmptyString;
     sentiment := str_or (ai_sentiment aiAnalysis) "NEUTRAL";
     keyPoints := list_or_nil (ai_keyPoints aiAnalysis);
     recommendation :=
       match ai_recommendation aiAnalysis with
       | Some s => if String.eqb s EmptyString then None else Some s
       | None => None
       end;
     shouldTrade := bool_or_false (ai_shouldTrade aiAnalysis);
     confidence := num_or (ai_confidence aiAnalysis) zero;
     action := str_or (ai_action aiAnalysis) "HOLD";
     reasons := list_or_nil (ai_reasons aiAnalysis);
     riskLevel := riskLevel_of (ai_riskLevel aiAnalysis);
     metrics := metrics |}.

Section Loop.
Context {W : Type}.

(** Collaborators.  A call may resolve to [undefined]/[null] ([None])
    or reject. *)
Variable trading_getMarketData :
  string -> W -> completion (option MarketData) * W.
Variable ai_analyzeMarket :
  MarketData -> W -> completion (option AiAnalysis) * W.
Variable trading_executeTrade :
  string -> string -> number -> number -> W -> completion unit * W.
(** IEEE-754 multiplication, used only for the trade amount. *)
Variable times : number -> number -> number.

Variable CONFIG : TradingConfig.
Variable tokenAddress : string.

Definition caught (tr : list event) (e : exn) (w : W)
  : MarketAnalysis * list event * W :=
  (fallback, tr ++ [ConsoleError "Error in market analysis:" e], w).

Definition analyzeMarket (w : W) : MarketAnalysis * list event * W :=
  match trading_getMarketData tokenAddress w with
  | (Returns (Some marketData), w1) =>
      match ai_analyzeMarket marketData w1 with
      | (Returns (Some aiAnalysis), w2) =>
          (assemble marketData aiAnalysis,
           [GetMarketData tokenAddress; AnalyzeMarket], w2)
      | (Returns None, w2) =>
          (* reading a property of undefined *)
          caught [GetMarketData tokenAddress; AnalyzeMarket]
                 (Error "TypeError: cannot read properties of undefined") w2
      | (Throws e, w2) =>
          caught [GetMarketData tokenAddress; AnalyzeMarket] e w2
      end
  | (Returns None, w1) =>
      caught [GetMarketData tokenAddress]
             (Error "Failed to fetch market data") w1
  | (Throws e, w1) => caught [GetMarketData tokenAddress] e w1
  end.

Definition calculateTradeAmount (analysis : MarketAnalysis) : number :=
  times (BASE_AMOUNT CONFIG) (confidence analysis).

Definition executeTrade (analysis : MarketAnalysis) (w : W)
  : completion unit * list event * W :=
  let isBuy := String.eqb (action analysis) "BUY" in
  let inputToken := if isBuy then "SOL" else tokenAddress in
  let outputToken := if isBuy then tokenAddress else "SOL" in
  let amount := calculateTradeAmount analysis in
  let '(c, w') :=
    trading_executeTrade inputToken outputToken amount (SLIPPAGE CONFIG) w in
  (c, [ExecuteTrade inputToken outputToken amount (SLIPPAGE CONFIG)], w').

(** [monitorMarket], the closure [startMarketMonitoring] runs once and
    then hands to [setInterval]. *)
Definition monitorMarket (w : W) : list event * W :=
  let '(analysis, tr1, w1) := analyzeMarket w in
  let tradingConfig := CONFIG in
  if shouldTrade analysis
     && gt (confidence analysis) (MIN_CONFIDENCE tradingConfig)
  then
    match executeTrade analysis w1 with
    | (Returns _, tr2, w2) => (tr1 ++ tr2, w2)
    | (Throws e, tr2, w2) =>
        (tr1 ++ tr2 ++ [LogError "Market monitoring error:" e], w2)
    end
  else (tr1, w1).

End Loop.

(** The analysis failed: the market fetch or the AI call rejected, or
    resolved to nothing usable. *)
Definition analysis_failed {W : Type}
    (trading_getMarketData : string -> W -> completion (option MarketData) * W)
    (ai_analyzeMarket : MarketData -> W -> completion (option AiAnalysis) * W)
    (tokenAddress : string) (w : W) : bool :=
  match trading_getMarketData tokenAddress w with
  | (Returns (Some marketData), w1) =>
      match ai_analyzeMarket marketData w1 with
      | (Returns (Some _), _) => false
      | _ => true
      end
  | _ => true
  end.

(** Observations on a trace. *)
Definition is_trade (e : event) : bool :=
  match e with ExecuteTrade _ _ _ _ => true | _ => false end.

Definition trades (tr : list event) : list event := List.filter is_trade tr.

Inductive Action := BUY | SELL | HOLD.

(** The action a cycle took, read off the trade sink: a swap out of SOL
    is a buy, any other swap a sell, no swap at all a hold. *)
Definition action_taken (tr : list event) : Action :=
  match trades tr with
  | ExecuteTrade inputToken _ _ _ :: _ =>
      if String.eqb inputToken "SOL" then BUY else SELL
  | _ => HOLD
  end.

(** Concrete collaborators used to exercise the model. *)
Definition market_up (momentum : number) (addr : string) (w : unit)
  : completion (option MarketData) * unit :=
  (Returns (Some {| md_price := Some (ofZ 2); md_volume24h := Some (ofZ 150000);
                    md_marketCap := Some (ofZ 1000000);
                    md_onChainActivity := None;
                    md_volatility :=
                      Some {| currentVolatility := None;
                              averageVolatility := None;
                              adjustmentFactor := Some momentum |} |}), w).

Definition market_down (addr : string) (w : unit)
  : completion (option MarketData) * unit :=
  (Throws (Error "ECONNRESET"), w).

Definition ai_says (act : string) (conf : number) (md : MarketData) (w : unit)
  : completion (option AiAnalysis) * unit :=
  (Returns (Some {| ai_summary := None; ai_sentiment := None;
                    ai_keyPoints := None; ai_recommendation := None;
                    ai_shouldTrade := Some true; ai_confidence := Some conf;
                    ai_action := Some act; ai_reasons := None;
                    ai_riskLevel := None |}), w).

Definition trade_ok (i o : string) (amount slippage : number) (w : unit)
  : completion unit * unit := (Returns tt, w).

(** Exact product of finite numbers; anything else is NaN here. *)
Definition times_exact (a b : number) : number :=
  match a, b with
  | Fin x, Fin y => Fin (x * y)
  | _, _ => NaN
  end.

Definition config_07 : TradingConfig :=
  {| MIN_CONFIDENCE := Fin (7 # 10); BASE_AMOUNT := ofZ 1; SLIPPAGE := ofZ 100 |}.

End Agent.

(* ===================================================================== *)
(** ** ChatService: the interval timer of auto mode                       *)
(* ===================================================================== *)

Module Chat.
Import JS.

Definition object : Type := list (string * number).

Record Metrics := {
  m_confidence : option string;
  m_onChainData : option object
}.

(** What [aiService.analyzeMarket] resolves to, as far as the callback
    reads it; [a_confidence] is the text [${analysis.confidence}] renders. *)
Record Analysis := {
  a_action : string;
  a_confidence : string;
  a_metrics : option Metrics
}.

(** Where a callback invocation is suspended. *)
Inductive stage : Type :=
| AwaitMetrics              (* await this.aiService.getMarketMetrics() *)
| AwaitAnalysis             (* await this.aiService.analyzeMarket(marketData) *)
| AwaitAction (serviceAnalysis : Analysis) (actionResult : string).
                            (* await this.executeAutoAction(serviceAnalysis) *)

(** The value an awaited promise settles with. *)
Inductive settled : Type :=
| MetricsSettled (r : completion (option object))
| AnalysisSettled (r : completion (option Analysis))
| ActionSettled.

(** What the event loop delivers to the service. *)
Inductive event : Type :=
| ModeChanged (newMode : string)     (* modeManager emits 'modeChanged' *)
| TimerFires (timer : nat)           (* an interval elapses *)
| Settles (cycle : nat) (v : settled)
| Pause                              (* the 'pause' command *)
| Resume                             (* the 'resume' command *)
| Stop.                              (* stop() *)

Inductive output : Type :=
| Info (msg : string)
| ErrorLog (msg detail : string)
| Console (msg : string).

Record Message := { role : string; content : string }.

Record state := {
  isRunning : bool;
  autoModeInterval : option nat;
  history : list Message;            (* calls of history.addMessage, in order *)
  timers : gset nat;                 (* interval timers armed in the runtime *)
  fresh_timer : nat;
  inflight : gmap nat stage;         (* suspended callback invocations *)
  fresh_cycle : nat;
  outputs : list output;
  exited : bool                      (* process.exit was called *)
}.

(** The service after its constructor ran. *)
Definition init : state :=
  {| isRunning := false; autoModeInterval := None; history := [];
     timers := ∅; fresh_timer := 0; inflight := ∅; fresh_cycle := 0;
     outputs := []; exited := false |}.

Definition with_interval (v : option nat) (ts : gset nat) (next : nat)
    (s : state) : state :=
  {| isRunning := isRunning s; autoModeInterval := v; history := history s;
     timers := ts; fresh_timer := next; inflight := inflight s;
     fresh_cycle := fresh_cycle s; outputs := outputs s; exited := exited s |}.

Definition with_inflight (m : gmap nat stage) (next : nat) (s : state) : state :=
  {| isRunning := isRunning s; autoModeInterval := autoModeInterval s;
     history := history s; timers := timers s; fresh_timer := fresh_timer s;
     inflight := m; fresh_cycle := next; outputs := outputs s;
     exited := exited s |}.

Definition log (o : output) (s : state) : state :=
  {| isRunning := isRunning s; autoModeInterval := autoModeInterval s;
     history := history s; timers := timers s; fresh_timer := fresh_timer s;
     inflight := inflight s; fresh_cycle := fresh_cycle s;
     outputs := outputs s ++ [o]; exited := exited s |}.

Definition addMessage (r c : string) (s : state) : state :=
  {| isRunning := isRunning s; autoModeInterval := autoModeInterval s;
     history := history s ++ [ {| role := r; content := c |} ];
     timers := timers s; fresh_timer := fresh_timer s;
     inflight := inflight s; fresh_cycle := fresh_cycle s;
     outputs := outputs s; exited := exited s |}.

Definition recordMessage (r c : string) (s : state) : state :=
  if String.eqb r "system" then log (Info c) s else addMessage r c s.

(** [if (this.autoModeInterval) clearInterval(this.autoModeInterval)],
    optionally followed by [this.autoModeInterval = null]. *)
Definition clearAutoInterval (reset : bool) (s : state) : state :=
  match autoModeInterval s with
  | Some t =>
      with_interval (if reset then None else Some t)
                    (timers s ∖ {[ t ]}) (fresh_timer s) s
  | None => s
  end.

Definition startAutoMode (s : state) : state :=
  let s1 := log (Info "Starting autonomous mode...") s in
  let s2 := clearAutoInterval false s1 in
  let t := fresh_timer s2 in
  (* this.autoModeInterval = setInterval(async () => { ... }, 10000) *)
  with_interval (Some t) (timers s2 ∪ {[ t ]}) (S t) s2.

(** The listener installed by [setupEventListeners]. *)
Definition onModeChanged (newMode : string) (s : state) : state :=
  if String.eqb newMode "auto" then startAutoMode s
  else clearAutoInterval true s.

Definition message_of (e : exn) : string :=
  match e with
  | Error msg => msg
  | Undefined => "undefined"
  end.

(** The callback returns or its [catch] has run: the invocation is over. *)
Definition finish (c : nat) (s : state) : state :=
  with_inflight (delete c (inflight s)) (fresh_cycle s) s.

Definition caught (c : nat) (e : exn) (s : state) : state :=
  finish c (log (ErrorLog "Error in auto mode:" (message_of e)) s).

Definition executeAutoAction (analysis : Analysis) (s : state) : string * state :=
  let actionResult :=
    ("Executed " ++ a_action analysis ++ " with confidence "
       ++ a_confidence analysis)%string in
  (actionResult, log (Info actionResult) s).

(** The interval elapsed: the callback is invoked and runs up to its
    first [await]. *)
Definition tick (s : state) : state :=
  with_inflight (<[fresh_cycle s := AwaitMetrics]> (inflight s))
                (S (fresh_cycle s)) s.

(** A suspended invocation is resumed with the value its promise settled
    with, and runs up to its next [await] or to its end. *)
Definition resume (c : nat) (v : settled) (s : state) : state :=
  match inflight s !! c, v with
  | Some AwaitMetrics, MetricsSettled (Returns (Some marketData)) =>
      with_inflight (<[c := AwaitAnalysis]> (inflight s)) (fresh_cycle s) s
  | Some AwaitMetrics, MetricsSettled (Returns None) =>
      finish c (log (ErrorLog "Failed to fetch market data" EmptyString) s)
  | Some AwaitMetrics, MetricsSettled (Throws e) => caught c e s
  | Some AwaitAnalysis, AnalysisSettled (Returns (Some analysis)) =>
      match a_metrics analysis with
      | None => finish c (log (ErrorLog "Failed to analyze market" EmptyString) s)
      | Some metrics =>
          if String.eqb (str_or (m_confidence metrics) EmptyString) EmptyString then
            caught c (Error "Market analysis metrics are incomplete") s
          else
            match m_onChainData metrics with
            | None => caught c (Error "Market analysis onChainData is missing") s
            | Some _ =>
                let serviceAnalysis := analysis in
                let s1 :=
                  log (Console ("Auto mode action: " ++ a_action serviceAnalysis)) s in
                let '(actionResult, s2) := executeAutoAction serviceAnalysis s1 in
                with_inflight
                  (<[c := AwaitAction serviceAnalysis actionResult]> (inflight s2))
                  (fresh_cycle s2) s2
            end
      end
  | Some AwaitAnalysis, AnalysisSettled (Returns None) =>
      finish c (log (ErrorLog "Failed to analyze market" EmptyString) s)
  | Some AwaitAnalysis, AnalysisSettled (Throws e) => caught c e s
  | Some (AwaitAction serviceAnalysis result), ActionSettled =>
      let s1 := log (Console ("Action result: " ++ result)) s in
      let s2 :=
        recordMessage "assistant"
          ("Executed action: " ++ a_action serviceAnalysis) s1 in
      let s3 := recordMessage "assistant" ("Result: " ++ result) s2 in
      finish c s3
  | _, _ => s
  end.

(** [stop()]: the timer is cleared and the process exits. *)
Definition stop (s : state) : state :=
  let s1 := clearAutoInterval true s in
  {| isRunning := false; autoModeInterval := autoModeInterval s1;
     history := history s1; timers := timers s1;
     fresh_timer := fresh_timer s1; inflight := inflight s1;
     fresh_cycle := fresh_cycle s1;
     outputs := outputs s1 ++ [Console "Goodbye! ELONA shutting down..."];
     exited := true |}.

Definition pause (s : state) : state :=
  match autoModeInterval s with
  | Some _ => log (Console "Autonomous operations paused")
                  (clearAutoInterval true s)
  | None => log (Console "Auto mode was not running") s
  end.

Definition resumeCommand (s : state) : state :=
  match autoModeInterval s with
  | None => log (Console "Autonomous operations resumed") (startAutoMode s)
  | Some _ => log (Console "Auto mode is already running") s
  end.

(** One turn of the event loop.  A timer that is not armed does not fire;
    after [process.exit] nothing runs. *)
Definition step (s : state) (ev : event) : state :=
  if exited s then s
  else
    match ev with
    | ModeChanged newMode => onModeChanged newMode s
    | TimerFires t => if bool_decide (t ∈ timers s) then tick s else s
    | Settles c v => resume c v s
    | Pause => pause s
    | Resume => resumeCommand s
    | Stop => stop s
    end.

Definition run (s : state) (evs : list event) : state :=
  List.fold_left step evs s.

(** The timers armed in the runtime are exactly the one the service holds
    a handle of, if any. *)
Definition timers_tracked (s : state) : Prop :=
  timers s = match autoModeInterval s with
             | Some t => {[ t ]}
             | None => ∅
             end.

(** Identifiers of invocations in flight are below the next fresh one. *)
Definition cycles_fresh (s : state) : Prop :=
  forall c : nat, is_Some (inflight s !! c) -> c < fresh_cycle s.

(** Number of callback invocations in flight. *)
Definition cycles_in_flight (s : state) : nat := size (inflight s).

(** Replies used to exercise the model. *)
Definition metrics_ok : settled :=
  MetricsSettled (Returns (Some [("price", ofZ 2)])).

Definition buy : Analysis :=
  {| a_action := "BUY"; a_confidence := "0.9";
     a_metrics := Some {| m_confidence := Some "high";
                          m_onChainData := Some [] |} |}.

Definition analysis_ok : settled := AnalysisSettled (Returns (Some buy)).

End Chat.

(* ===================================================================== *)
(** ** The retrying poster: how long a run takes                          *)
(* ===================================================================== *)

Module Backoff.
Import JS Twitter.

Section Sink.
Context {W : Type}.
Variable tweet : string -> W -> completion unit * W.

(** The sink is called up to [n] times in a row with the same content, each
    call on the state the previous one left: the number of rejections before
    the first call that resolves, [None] when all [n] calls reject. *)
Fixpoint failures_before_success (n : nat) (content : string) (w : W)
  : option nat :=
  match n with
  | O => None
  | S n' =>
      match tweet content w with
      | (Returns _, _) => Some 0
      | (Throws _, w') => option_map S (failures_before_success n' content w')
      end
  end.

End Sink.

(** Time spent sleeping in a run, in milliseconds. *)
Definition total_delay (tr : list event) : Z :=
  List.fold_right Z.add 0%Z (delays tr).

End Backoff.

(* ===================================================================== *)
(** ** Jupiter swaps: validation, quote, balance check, signature        *)
(* ===================================================================== *)

Module Swap.
Import JS.

(** [TOKENS] *)
Definition USDC : string := "EPjFWdd5AufqSSqeM2qN1xzybapC8G4wEGGkZwyTDt1v".
Definition SOL : string := "So11111111111111111111111111111111111111112".
Definition ELONA : string := "8hVzPgFopqEQmNNoghr5WbPY1LEjW8GzgbLRwuwHpump".

(** [a <= b] *)
Definition le (a b : number) : bool := ge b a.

(** The double the literal [0.01] denotes:
    5764607523034235 * 2^-59. *)
Definition lit_0_01 : number :=
  Fin (5764607523034235 # 576460752303423488).

Definition validateSwapAmount (amount : number) (outputMint : string) : bool :=
  if le amount zero then false
  else if String.eqb outputMint ELONA && lt amount lit_0_01 then false
  else if gt amount (ofZ 1000) then false (* Max swap amount *)
  else true.

Definition getTokenDecimals (mint : string) : Z :=
  if String.eqb mint USDC then 6
  else if String.eqb mint ELONA then 9
  else if String.eqb mint SOL then 9
  else 9.

Definition getTokenSymbol (mint : string) : string :=
  if String.eqb mint USDC then "USDC"
  else if String.eqb mint ELONA then "ELONA"
  else if String.eqb mint SOL then "SOL"
  else "UNKNOWN".

Record SwapQuote := {
  slippageBps : number;
  inAmount : string;
  outAmount : string;
  priceImpactPct : string;
  routeLabels : list string       (* routePlan.map(r => r.swapInfo.label) *)
}.

(** A [fetch] response: [text()] and [json()] may reject. *)
Record Response (A : Type) := {
  ok : bool;
  status : nat;
  text : completion string;
  json : completion A
}.
Arguments ok {A} _.
Arguments status {A} _.
Arguments text {A} _.
Arguments json {A} _.

(** The query string of the quote request. *)
Record QuoteRequest := {
  q_inputMint : string;
  q_outputMint : string;
  q_amount : string;
  q_slippageBps : Z;
  q_onlyDirectRoutes : bool;
  q_asLegacyTransaction : bool
}.

Record WalletInfo := { balance : number; address : string }.

Inductive Status := success | error | pending_confirmation.

Record SwapResult := {
  r_status : Status;
  r_signature : option string;
  r_message : option string;
  r_quote : option SwapQuote
}.

Inductive event : Type :=
| FetchQuote (req : QuoteRequest)
| GetBalance
| FetchSwap (quote : SwapQuote) (userPublicKey : string)
| SignAndSend (transaction : string)
| LogSwapQuote (amountInSol : number) (symbol route : string)
| LogError (msg : string).

Section Swapping.
Context {W : Type}.

(** The network and the wallet. *)
Variable fetch_quote : QuoteRequest -> W -> completion (Response (option SwapQuote)) * W.
Variable fetch_swap : SwapQuote -> string -> W -> completion (Response string) * W.
Variable getBalance : W -> completion (option WalletInfo) * W.
Variable signAndSendTransaction : string -> W -> completion string * W.
(** [VersionedTransaction.deserialize(Buffer.from(s, 'base64'))]; [None]
    when it throws. *)
Variable deserialize : string -> option string.
(** [(amountInSol * LAMPORTS_PER_SOL).toString()] *)
Variable lamports_text : number -> string.

Definition quote_request (amountInSol : number) (outputMint : string)
  : QuoteRequest :=
  let slippageBps := if String.eqb outputMint ELONA then 1000%Z else 50%Z in
  {| q_inputMint := SOL;
     q_outputMint := outputMint;
     q_amount := lamports_text amountInSol;
     q_slippageBps := slippageBps;
     q_onlyDirectRoutes := String.eqb outputMint ELONA;
     q_asLegacyTransaction := false |}.

Definition getSwapQuote (amountInSol : number) (outputMint : string) (w : W)
  : option SwapQuote * list event * W :=
  let req := quote_request amountInSol outputMint in
  match fetch_quote req w with
  | (Returns response, w1) =>
      if ok response then
        match json response with
        | Returns q => (q, [FetchQuote req], w1)
        | Throws _ =>
            (None, [FetchQuote req; LogError "Error getting swap quote:"], w1)
        end
      else
        match text response with
        | Returns _ =>
            (None, [FetchQuote req; LogError "Jupiter quote error:"], w1)
        | Throws _ =>
            (None, [FetchQuote req; LogError "Error getting swap quote:"], w1)
        end
  | (Throws _, w1) =>
      (None, [FetchQuote req; LogError "Error getting swap quote:"], w1)
  end.

Definition prepareSwapTransaction (quote : SwapQuote) (userPublicKey : string)
    (w : W) : option string * list event * W :=
  let failed w' :=
    (None, [FetchSwap quote userPublicKey;
            LogError "Error preparing swap transaction:"], w') in
  match fetch_swap quote userPublicKey w with
  | (Returns response, w1) =>
      if ok response then
        match json response with
        | Returns swapTransaction =>
            match deserialize swapTransaction with
            | Some transaction =>
                (Some transaction, [FetchSwap quote userPublicKey], w1)
            | None => failed w1
            end
        | Throws _ => failed w1
        end
      else
        match text response with
        | Returns _ =>
            (None, [FetchSwap quote userPublicKey; LogError "Swap API error:"], w1)
        | Throws _ => failed w1
        end
  | (Throws _, w1) => failed w1
  end.

Definition failure (message : string) (quote : option SwapQuote) : SwapResult :=
  {| r_status := error; r_signature := None; r_message := Some message;
     r_quote := quote |}.

(** The [catch] block of [swapSolToToken]. *)
Definition swap_caught (e : exn) : SwapResult :=
  failure (match e with
           | Error msg => msg
           | Undefined => "Transaction failed"
           end) None.

Definition logSwapDetails (quote : SwapQuote) (amountInSol : number)
    (outputMint : string) : event :=
  LogSwapQuote amountInSol (getTokenSymbol outputMint)
               (String.concat " → " (routeLabels quote)).

Definition swapSolToToken (amountInSol : number) (outputMint : string) (w : W)
  : SwapResult * list event * W :=
  if negb (validateSwapAmount amountInSol outputMint) then
    (failure "Invalid swap amount" None, [], w)
  else
    let '(q, tr1, w1) := getSwapQuote amountInSol outputMint w in
    match q with
    | None => (failure "Failed to get quote" None, tr1, w1)
    | Some quote =>
        match getBalance w1 with
        | (Returns walletInfo, w2) =>
            let insufficient :=
              (failure "Insufficient balance" (Some quote),
               tr1 ++ [GetBalance], w2) in
            match walletInfo with
            | None => insufficient
            | Some info =>
                if lt (balance info) amountInSol then insufficient
                else
                  let tr2 :=
                    tr1 ++ [GetBalance;
                            logSwapDetails quote amountInSol outputMint] in
                  let '(transaction, tr3, w3) :=
                    prepareSwapTransaction quote (address info) w2 in
                  match transaction with
                  | None =>
                      (failure "Failed to prepare transaction" (Some quote),
                       tr2 ++ tr3, w3)
                  | Some tx =>
                      match signAndSendTransaction tx w3 with
                      | (Returns signature, w4) =>
                          ({| r_status := success;
                              r_signature := Some signature;
                              r_message := None;
                              r_quote := Some quote |},
                           tr2 ++ tr3 ++ [SignAndSend tx], w4)
                      | (Throws e, w4) =>
                          (swap_caught e,
                           tr2 ++ tr3 ++ [SignAndSend tx;
                                          LogError "Swap error:"], w4)
                      end
                  end
            end
        | (Throws e, w2) =>
            (swap_caught e, tr1 ++ [GetBalance; LogError "Swap error:"], w2)
        end
    end.

End Swapping.

(** *** Token lookup *)

Record Extensions := { coingeckoId : string }.

(** The body of the token endpoint's reply. *)
Record TokenInfo := {
  extensions : option Extensions;
  daily_volume : number;
  symbol : string;
  name : string;
  price : number
}.

Record TokenMetadata := {
  tm_decimals : Z;
  tm_coingeckoId : string;
  tm_dailyVolume : number;
  tm_symbol : string;
  tm_name : string;
  tm_price : number
}.

Inductive lookup : Type :=
| FetchToken (mintAddress : string)
| LogLookupError (msg : string) (e : exn).

Definition newline : string := String (Ascii.ascii_of_nat 10) EmptyString.

Definition not_found (tokenMint : string) : string :=
  ("Token information for " ++ tokenMint ++ " not found.")%string.

Definition unavailable : string :=
  "Unable to fetch token information at the moment.".

Section TokenLookup.
Context {W : Type}.
Variable fetch_token : string -> W -> completion (Response TokenInfo) * W.
(** [${n}] for a number. *)
Variable number_text : number -> string.

Definition lookup_caught (mintAddress : string) (e : exn) (w : W)
  : completion (option TokenMetadata) * list lookup * W :=
  (Throws e,
   [FetchToken mintAddress;
    LogLookupError "Error fetching Jupiter token info:" e], w).

Definition getTokenInfo (mintAddress : string) (w : W)
  : completion (option TokenMetadata) * list lookup * W :=
  match fetch_token mintAddress w with
  | (Returns response, w1) =>
      if negb (ok response) then
        if Nat.eqb (status response) 404 then
          (Returns None, [FetchToken mintAddress], w1)
        else
          lookup_caught mintAddress
            (Error ("HTTP error! status: "
                      ++ NilZero.string_of_uint (Nat.to_uint (status response))))
            w1
      else
        match json response with
        | Returns data =>
            match extensions data with
            | Some ext =>
                (Returns (Some {| tm_decimals := 9;
                                  tm_coingeckoId := coingeckoId ext;
                                  tm_dailyVolume := daily_volume data;
                                  tm_symbol := symbol data;
                                  tm_name := name data;
                                  tm_price := price data |}),
                 [FetchToken mintAddress], w1)
            | None =>
                lookup_caught mintAddress
                  (Error "TypeError: cannot read properties of undefined") w1
            end
        | Throws e => lookup_caught mintAddress e w1
        end
  | (Throws e, w1) => lookup_caught mintAddress e w1
  end.

Definition fetchTokenInfo (tokenMint : string) (w : W)
  : string * list lookup * W :=
  match getTokenInfo tokenMint w with
  | (Returns None, tr, w1) => (not_found tokenMint, tr, w1)
  | (Returns (Some tokenInfo), tr, w1) =>
      (("Token: " ++ tokenMint ++ newline
          ++ "Coingecko ID: " ++ tm_coingeckoId tokenInfo ++ newline
          ++ "Daily Volume: " ++ number_text (tm_dailyVolume tokenInfo))%string,
       tr, w1)
  | (Throws e, tr, w1) =>
      (unavailable, tr ++ [LogLookupError "Error fetching token info:" e], w1)
  end.

End TokenLookup.

(** The endpoint answered with a status that is not 2xx. *)
Definition http_failure {W : Type}
    (fetch_token : string -> W -> completion (Response TokenInfo) * W)
    (mint : string) (w : W) : option nat :=
  match fetch_token mint w with
  | (Returns response, _) =>
      if ok response then None else Some (status response)
  | (Throws _, _) => None
  end.

Definition token_missing (mint : string) (w : unit)
  : completion (Response TokenInfo) * unit :=
  (Returns {| ok := false; status := 404; text := Returns "Not Found";
              json := Throws (Error "SyntaxError") |}, w).

Definition is_signature (e : event) : bool :=
  match e with SignAndSend _ => true | _ => false end.

(** The transactions handed to the wallet for signing. *)
Definition signatures (tr : list event) : list event :=
  List.filter is_signature tr.

(** A network and a wallet to run a swap against: the state is unused. *)
Definition quote_ok (req : QuoteRequest) (w : unit)
  : completion (Response (option SwapQuote)) * unit :=
  let q := {| slippageBps := ofZ (q_slippageBps req); inAmount := q_amount req;
              outAmount := "42"; priceImpactPct := "0.1";
              routeLabels := ["Raydium"; "Orca"] |} in
  (Returns {| ok := true; status := 200; text := Returns EmptyString;
              json := Returns (Some q) |}, w).

Definition swap_ok (q : SwapQuote) (pk : string) (w : unit)
  : completion (Response string) * unit :=
  (Returns {| ok := true; status := 200; text := Returns EmptyString;
              json := Returns "AQID" |}, w).

Definition wallet_with (sol : number) (w : unit)
  : completion (option WalletInfo) * unit :=
  (Returns (Some {| balance := sol; address := "wallet" |}), w).

Definition sign_ok (tx : string) (w : unit) : completion string * unit :=
  (Returns "5sig", w).

End Swap.

(* ===================================================================== *)
(** ** Start-up: environment check, redacted logging, mode selection      *)
(* ===================================================================== *)

Module Startup.
Import JS.

(** [process.env]: a variable is missing or bound to a string.  Strings
    are taken to be ASCII throughout this module. *)
Abbreviation environment := (gmap string string).

(** [process.env[key]] is truthy: bound, and not to the empty string. *)
Definition is_set (env : environment) (key : string) : bool :=
  match env !! key with
  | Some v => negb (String.eqb v EmptyString)
  | None => false
  end.

Definition requiredEnvVars : list string :=
  [ "GROQ_API_KEY"; "HELIUS_API_KEY"; "TWITTER_API_KEY"; "TWITTER_API_SECRET";
    "TWITTER_ACCESS_TOKEN"; "TWITTER_ACCESS_SECRET"; "TWITTER_BEARER_TOKEN";
    "OAUTH_CLIENT_ID"; "OAUTH_CLIENT_SECRET" ].

(** [requiredEnvVars.filter(key => !process.env[key])] *)
Definition missing (env : environment) : list string :=
  List.filter (fun key => negb (is_set env key)) requiredEnvVars.

Definition validateEnvironment (env : environment) : completion unit :=
  match missing env with
  | [] => Returns tt
  | _ :: _ =>
      Throws (Error ("Missing required environment variables: "
                       ++ String.concat ", " (missing env)))
  end.

(** [value.slice(-4)]: from index [max (length - 4) 0] to the end. *)
Definition slice_last4 (value : string) : string :=
  substring (String.length value - 4) 4 value.

(** [value ? '****' + value.slice(-4) : 'Not set'] *)
Definition redact (value : option string) : string :=
  match value with
  | Some v =>
      if String.eqb v EmptyString then "Not set"
      else ("****" ++ slice_last4 v)%string
  | None => "Not set"
  end.

Definition loggedEnvVars : list string :=
  [ "TWITTER_API_KEY"; "TWITTER_API_SECRET"; "TWITTER_ACCESS_TOKEN";
    "TWITTER_ACCESS_SECRET"; "TWITTER_BEARER_TOKEN"; "OAUTH_CLIENT_ID";
    "OAUTH_CLIENT_SECRET" ].

(** [CONFIG.SOLANA], as far as it is logged. *)
Record SolanaConfig := { NETWORK : string; RPC_URL : string; PUBLIC_KEY : string }.

Inductive logged : Type :=
| ConfigurationLoaded (network rpcUrl pubkey : string)
| Line (text : string).

Definition logConfiguration (CONFIG : SolanaConfig) (env : environment)
  : list logged :=
  ConfigurationLoaded (NETWORK CONFIG) (RPC_URL CONFIG) (PUBLIC_KEY CONFIG)
    :: List.map (fun key => Line (key ++ ": " ++ redact (env !! key))%string)
                loggedEnvVars.

(** All that the log can depend on for one variable. *)
Definition visible (value : option string) : option string :=
  match value with
  | Some v => if String.eqb v EmptyString then None else Some (slice_last4 v)
  | None => None
  end.

(** *** Mode selection *)

Inductive Mode := chat | auto.

(** [toLowerCase] and [toUpperCase] on ASCII text: the letters A-Z and
    a-z are the only characters below 128 with a case mapping. *)
Definition lower (a : Ascii.ascii) : Ascii.ascii :=
  let n := Ascii.nat_of_ascii a in
  if Nat.leb 65 n && Nat.leb n 90 then Ascii.ascii_of_nat (n + 32) else a.

Fixpoint toLowerCase (s : string) : string :=
  match s with
  | EmptyString => EmptyString
  | String a s' => String (lower a) (toLowerCase s')
  end.

Definition upper (a : Ascii.ascii) : Ascii.ascii :=
  let n := Ascii.nat_of_ascii a in
  if Nat.leb 97 n && Nat.leb n 122 then Ascii.ascii_of_nat (n - 32) else a.

Fixpoint toUpperCase (s : string) : string :=
  match s with
  | EmptyString => EmptyString
  | String a s' => String (upper a) (toUpperCase s')
  end.

(** The branch [handleChoice] takes on one chunk of input; [None] is the
    re-prompt. *)
Definition choice_of (choice : string) : option Mode :=
  let normalizedChoice := toLowerCase (trim choice) in
  if String.eqb normalizedChoice "1" || String.eqb normalizedChoice "chat"
  then Some chat
  else if String.eqb normalizedChoice "2" || String.eqb normalizedChoice "auto"
  then Some auto
  else None.

Inductive prompt : Type :=
| Info (msg : string)
| Warn (msg : string)
| Stdout (text : string).

Definition nl : string := String (Ascii.ascii_of_nat 10) EmptyString.

Definition ask : prompt :=
  Stdout (nl ++ "Choose a mode (enter number or name): ")%string.

(** [handleChoice] on the chunks stdin delivers, one [once('data')]
    listener at a time.  [None]: the promise is still pending when the
    input runs out. *)
Fixpoint handleChoice (inputs : list string) : option Mode * list prompt :=
  match inputs with
  | [] => (None, [])
  | choice :: rest =>
      match choice_of choice with
      | Some mode => (Some mode, [])
      | None =>
          let '(mode, out) := handleChoice rest in
          (mode,
           Warn "Invalid choice. Please choose 1 (chat) or 2 (auto)."
             :: ask :: out)
      end
  end.

Definition selectMode (inputs : list string) : option Mode * list prompt :=
  let '(mode, out) := handleChoice inputs in
  (mode,
   Info (nl ++ "Available modes:")%string
     :: Info "1. chat    - Interactive chat mode"
     :: Info "2. auto    - Autonomous action mode" :: ask :: out).

Definition is_warning (p : prompt) : bool :=
  match p with Warn _ => true | _ => false end.

Definition warnings (out : list prompt) : nat :=
  length (List.filter is_warning out).

End Startup.

(* ===================================================================== *)
(** ** MemeAgentInfluencer: commands and the mention stream               *)
(* ===================================================================== *)

Module Commands.
Import JS.

Definition isNaN (n : number) : bool :=
  match n with NaN => true | _ => false end.

(** The shape every analysis handed on by [Agent.analyzeMarket] has. *)
Definition well_formed (a : Agent.MarketAnalysis) : Prop :=
  In (Agent.riskLevel a) ["LOW"; "MEDIUM"; "HIGH"] /\
  isNaN (Agent.confidence a) = false /\
  Agent.m_confidence (Agent.metrics a) = Agent.confidence a /\
  Agent.action a <> EmptyString /\ Agent.sentiment a <> EmptyString /\
  isNaN (Agent.price (Agent.metrics a)) = false /\
  isNaN (Agent.volume24h (Agent.metrics a)) = false /\
  isNaN (Agent.marketCap (Agent.metrics a)) = false /\
  isNaN (Agent.volatility (Agent.metrics a)) = false /\
  isNaN (Agent.momentum (Agent.metrics a)) = false /\
  isNaN (Agent.strength (Agent.metrics a)) = false.

Record AgentCommand := { c_type : string; c_raw : string }.

Record CommandContext := {
  platform : string;
  channelId : string;
  messageId : string;
  author : string
}.

(** What [tradingService.getMarketData] resolves to, as the 'stats' command
    reads it. *)
Record Stats := { volume24h : number; marketCap : number }.

Inductive event : Type :=
| SendMessage (platform messageId text : string)
| Reply (text tweetId : string)
| LogError (msg : string) (e : exn).

Definition apology : string :=
  "Sorry, there was an error processing your command.".

Definition newline : string := String (Ascii.ascii_of_nat 10) EmptyString.

Section Handlers.
Context {W : Type}.
Variable getTokenPrice : W -> completion number * W.
Variable getMarketData : W -> completion (option Stats) * W.
Variable generateResponse : string -> string -> string -> W -> completion string * W.
Variable sendMessage : string -> string -> string -> W -> completion unit * W.
Variable analyzeSentiment : string -> W -> completion number * W.
Variable reply : string -> string -> W -> completion unit * W.
(** [${n}] for a number. *)
Variable number_text : number -> string.

Definition generateCommandResponse (command : AgentCommand)
    (context : CommandContext) (w : W) : completion string * W :=
  if String.eqb (c_type command) "price" then
    match getTokenPrice w with
    | (Returns price, w1) =>
        (Returns ("Current price: " ++ number_text price ++ " SOL")%string, w1)
    | (Throws e, w1) => (Throws e, w1)
    end
  else if String.eqb (c_type command) "stats" then
    match getMarketData w with
    | (Returns (Some metrics), w1) =>
        (Returns ("24h Volume: " ++ number_text (volume24h metrics) ++ newline
                    ++ "Market Cap: " ++ number_text (marketCap metrics))%string,
         w1)
    | (Returns None, w1) =>
        (Throws (Error "TypeError: cannot read properties of undefined"), w1)
    | (Throws e, w1) => (Throws e, w1)
    end
  else
    generateResponse (c_raw command) (platform context) (author context) w.

(** The [catch] block of [handleCommand]: log, then send the apology; a
    failure of that send is not caught. *)
Definition apologise (context : CommandContext) (tr : list event) (e : exn)
    (w : W) : completion unit * list event * W :=
  let tr' :=
    tr ++ [LogError "Command handling error:" e;
           SendMessage (platform context) (messageId context) apology] in
  match sendMessage (platform context) (messageId context) apology w with
  | (Returns _, w') => (Returns tt, tr', w')
  | (Throws e', w') => (Throws e', tr', w')
  end.

Definition handleCommand (command : AgentCommand) (context : CommandContext)
    (w : W) : completion unit * list event * W :=
  match generateCommandResponse command context w with
  | (Returns response, w1) =>
      match sendMessage (platform context) (messageId context) response w1 with
      | (Returns _, w2) =>
          (Returns tt,
           [SendMessage (platform context) (messageId context) response], w2)
      | (Throws e, w2) =>
          apologise context
            [SendMessage (platform context) (messageId context) response] e w2
      end
  | (Throws e, w1) => apologise context [] e w1
  end.

(** The ['data'] listener of [setupTwitterStream]. *)
Definition onTweet (text tweetId : string) (author_id : option string) (w : W)
  : list event * W :=
  match analyzeSentiment text w with
  | (Returns sentiment, w1) =>
      if gt sentiment (Fin (1 # 2)) then
        match generateResponse text "twitter" (str_or author_id "unknown") w1 with
        | (Returns response, w2) =>
            match reply response tweetId w2 with
            | (Returns _, w3) => ([Reply response tweetId], w3)
            | (Throws e, w3) =>
                ([Reply response tweetId; LogError "Error handling tweet:" e], w3)
            end
        | (Throws e, w2) => ([LogError "Error handling tweet:" e], w2)
        end
      else ([], w1)
  | (Throws e, w1) => ([LogError "Error handling tweet:" e], w1)
  end.

End Handlers.

Definition is_send (e : event) : bool :=
  match e with SendMessage _ _ _ => true | _ => false end.

Definition sends (tr : list event) : list event := List.filter is_send tr.

Definition is_reply (e : event) : bool :=
  match e with Reply _ _ => true | _ => false end.

Definition replies (tr : list event) : list event := List.filter is_reply tr.

(** Collaborators to run the handlers against. *)
Definition price_down (w : unit) : completion number * unit :=
  (Throws (Error "ETIMEDOUT"), w).

Definition no_stats (w : unit) : completion (option Stats) * unit :=
  (Returns None, w).

Definition echo (content pf auth : string) (w : unit) : completion string * unit :=
  (Returns content, w).

Definition send_ok (pf mid text : string) (w : unit) : completion unit * unit :=
  (Returns tt, w).

Definition sentiment_is (s : number) (text : string) (w : unit)
  : completion number * unit := (Returns s, w).

Definition reply_ok (text tweetId : string) (w : unit) : completion unit * unit :=
  (Returns tt, w).

Definition discord : CommandContext :=
  {| platform := "discord"; channelId := "c1"; messageId := "m1";
     author := "user#1" |}.

End Commands.

(* ===================================================================== *)
(** ** JupiterPriceV2Service: market metrics and token info               *)
(* ===================================================================== *)

Module Metrics.
Import JS Jupiter.

Record Volatility := {
  currentVolatility : number;
  averageVolatility : number;
  adjustmentFactor : number
}.

Record OnChainActivity := {
  transactions : number;
  swaps : number;
  uniqueTraders : number
}.

(** The object [getMarketMetrics] builds. *)
Record MarketMetrics := {
  price : number;
  volume24h : number;
  priceChange24h : number;
  marketCap : number;
  confidenceLevel : ConfidenceLevel;
  holders_total : number;
  holders_top : list string;
  onChainActivity : OnChainActivity;
  lastUpdate : number;
  tokenAddress : string;
  topHolders : list string;
  volatility : Volatility;
  liquidity : option number
}.

Definition marketMetrics_of (tokenData : TokenData) : MarketMetrics :=
  let tradeData := tradeData tokenData in
  let dexData := dexScreenerData tokenData in
  {| price := Number (Jupiter.price tradeData);
     volume24h := Number (volume_24h_usd tradeData);
     priceChange24h := Number (price_change_24h_percent tradeData);
     marketCap := num_or (pair0_marketCap dexData) zero;
     confidenceLevel := calculateConfidenceLevel tradeData dexData;
     holders_total := zero;
     holders_top := [];
     onChainActivity :=
       {| transactions := zero; swaps := zero; uniqueTraders := zero |};
     lastUpdate := zero;
     tokenAddress := EmptyString;
     topHolders := [];
     volatility :=
       {| currentVolatility := zero; averageVolatility := zero;
          adjustmentFactor := zero |};
     liquidity := None |}.

Record TokenCodex := {
  cx_id : string;
  cx_symbol : string;
  cx_name : string;
  cx_address : option string;
  cx_blueCheckmark : bool
}.

Record TokenInfo := {
  ti_id : string;
  ti_symbol : string;
  ti_name : string;
  ti_price : number;
  ti_volume24h : number;
  ti_marketCap : number;
  ti_address : string;
  ti_verified : bool
}.

Section Service.
Context {W : Type}.
Variable cache_get : string -> W -> completion cached * W.
Variable cache_set : string -> string -> Z -> W -> completion unit * W.
Variable getProcessedTokenData : W -> completion TokenData * W.
(** [tokenData.tokenCodex]; [None] when the provider has none. *)
Variable tokenCodex : TokenData -> option TokenCodex.
(** [JSON.stringify] and [JSON.parse] at the types of the two getters
    ([None]: [JSON.parse] throws). *)
Variable stringify_metrics : MarketMetrics -> string.
Variable parse_metrics : string -> option MarketMetrics.
Variable stringify_info : TokenInfo -> string.
Variable parse_info : string -> option (option TokenInfo).

Definition rethrow {A : Type} (symbol : string) (tr : list io) (e : exn) (w : W)
  : completion A * list io * W :=
  (Throws e, tr ++ [LogFetchError symbol e], w).

Definition getMarketMetrics (symbol : string) (w : W)
  : completion MarketMetrics * list io * W :=
  let cacheKey := ("metrics:" ++ symbol)%string in
  match cache_get cacheKey w with
  | (Returns (CString s), w1) =>
      match parse_metrics s with
      | Some v => (Returns v, [CacheGet cacheKey], w1)
      | None =>
          rethrow symbol [CacheGet cacheKey]
                  (Error "SyntaxError: unexpected token in JSON") w1
      end
  | (Returns CNotString, w1) =>
      match getProcessedTokenData w1 with
      | (Returns tokenData, w2) =>
          let marketMetrics := marketMetrics_of tokenData in
          let payload := stringify_metrics marketMetrics in
          match cache_set cacheKey payload CACHE_TTL w2 with
          | (Returns _, w3) =>
              (Returns marketMetrics,
               [CacheGet cacheKey; Fetch; CacheSet cacheKey payload CACHE_TTL],
               w3)
          | (Throws e, w3) =>
              rethrow symbol
                [CacheGet cacheKey; Fetch; CacheSet cacheKey payload CACHE_TTL]
                e w3
          end
      | (Throws e, w2) => rethrow symbol [CacheGet cacheKey; Fetch] e w2
      end
  | (Throws e, w1) => rethrow symbol [CacheGet cacheKey] e w1
  end.

(** [getTokenInfo]: [null] when the token has no codex entry or no
    address. *)
Definition getTokenInfo (symbol : string) (w : W)
  : completion (option TokenInfo) * list io * W :=
  let cacheKey := ("tokenInfo:" ++ symbol)%string in
  match cache_get cacheKey w with
  | (Returns (CString s), w1) =>
      match parse_info s with
      | Some v => (Returns v, [CacheGet cacheKey], w1)
      | None =>
          rethrow symbol [CacheGet cacheKey]
                  (Error "SyntaxError: unexpected token in JSON") w1
      end
  | (Returns CNotString, w1) =>
      match getProcessedTokenData w1 with
      | (Returns tokenData, w2) =>
          match tokenCodex tokenData with
          | Some codex =>
              match cx_address codex with
              | Some addr =>
                  if String.eqb addr EmptyString then
                    (Returns None, [CacheGet cacheKey; Fetch], w2)
                  else
                    let tokenInfo :=
                      {| ti_id := cx_id codex;
                         ti_symbol := cx_symbol codex;
                         ti_name := cx_name codex;
                         ti_price := Number (Jupiter.price (tradeData tokenData));
                         ti_volume24h :=
                           Number (volume_24h_usd (tradeData tokenData));
                         ti_marketCap :=
                           num_or (pair0_marketCap (dexScreenerData tokenData))
                                  zero;
                         ti_address := addr;
                         ti_verified := cx_blueCheckmark codex |} in
                    let payload := stringify_info tokenInfo in
                    match cache_set cacheKey payload CACHE_TTL w2 with
                    | (Returns _, w3) =>
                        (Returns (Some tokenInfo),
                         [CacheGet cacheKey; Fetch;
                          CacheSet cacheKey payload CACHE_TTL], w3)
                    | (Throws e, w3) =>
                        rethrow symbol
                          [CacheGet cacheKey; Fetch;
                           CacheSet cacheKey payload CACHE_TTL] e w3
                    end
              | None => (Returns None, [CacheGet cacheKey; Fetch], w2)
              end
          | None => (Returns None, [CacheGet cacheKey; Fetch], w2)
          end
      | (Throws e, w2) => rethrow symbol [CacheGet cacheKey; Fetch] e w2
      end
  | (Throws e, w1) => rethrow symbol [CacheGet cacheKey] e w1
  end.

End Service.

(** The cache keys a trace reads or writes. *)
Fixpoint keys (tr : list io) : list string :=
  match tr with
  | [] => []
  | CacheGet k :: tr' => k :: keys tr'
  | CacheSet k _ _ :: tr' => k :: keys tr'
  | _ :: tr' => keys tr'
  end.

End Metrics.

(* ===================================================================== *)
(** ** ChatService: terminal input and the chat commands                  *)
(* ===================================================================== *)

Module ChatInput.
Import JS.

Inductive effect : Type :=
| AddMessage (role content : string)       (* history.addMessage *)
| Print (text : string)                    (* console.log *)
| LogError (msg : string) (e : exn)
| StopService                              (* this.stop() *)
| ProviderFetch                            (* this.tokenProvider.getProcessedTokenData() *)
| Service (io : Jupiter.io)                (* inside jupiterService.getMarketMetrics *)
| PostTweet (content : string).            (* twitterService.postTweetWithRetry *)

Definition nl : string := String (Ascii.ascii_of_nat 10) EmptyString.

(** What [ChatService.getMarketData] returns on success. *)
Record MarketView := {
  price : number;
  volume24h : number;
  priceChange24h : number;
  marketCap : number
}.

(** The argument of [aiService.generateMarketTweet]. *)
Record TweetData := {
  topic : string;
  price_text : string;
  volume_text : string;
  priceChange_text : string
}.

Section Terminal.
Context {W : Type}.

(** [commandHandler.handleCommand]: [false] when the line is no command. *)
Variable handleCommand : string -> W -> completion bool * W.
Variable generateResponse : string -> W -> completion string * W.
(** [this.tokenProvider], which the caller may have left out. *)
Variable tokenProvider :
  option ((string -> W -> W) * (W -> completion Jupiter.TokenData * W)).
(** [this.jupiterService.getMarketMetrics] *)
Variable getMarketMetrics :
  string -> W -> completion Metrics.MarketMetrics * list Jupiter.io * W.
Variable generateMarketTweet_ai : TweetData -> W -> completion string * W.
Variable postTweetWithRetry : string -> W -> completion unit * W.
Variable number_text : number -> string.

Definition recordMessage (role content : string) : list effect :=
  if String.eqb role "system" then [] else [AddMessage role content].

Definition processInput (input : string) (w : W) : list effect * W :=
  let failed e w' :=
    ([LogError "Error processing input:" e;
      Print (nl ++ "Error processing your input. Please try again.")%string],
     w') in
  match handleCommand input w with
  | (Returns commandResult, w1) =>
      if commandResult then ([], w1)
      else
        match generateResponse input w1 with
        | (Returns response, w2) =>
            if String.eqb response EmptyString then
              (recordMessage "user" input
                 ++ [Print (nl ++ "Sorry, there was an error. Please try again.")%string],
               w2)
            else
              (recordMessage "user" input
                 ++ recordMessage "assistant" response
                 ++ [Print (nl ++ "ELONA: " ++ response)%string], w2)
        | (Throws e, w2) =>
            let '(tr, w3) := failed e w2 in
            (recordMessage "user" input ++ tr, w3)
        end
  | (Throws e, w1) => failed e w1
  end.

(** The ['line'] listener installed by [start]. *)
Definition onLine (isRunning : bool) (input : string) (w : W)
  : list effect * W :=
  if negb isRunning then ([], w)
  else
    let trimmedInput := trim input in
    if String.eqb (Startup.toLowerCase trimmedInput) "exit"
    then ([StopService], w)
    else processInput trimmedInput w.

Definition getMarketData (symbol : string) (w : W)
  : option MarketView * list effect * W :=
  let failed tr e w' :=
    (None,
     tr ++ [LogError ("Failed to fetch market data for " ++ symbol ++ ":") e],
     w') in
  match tokenProvider with
  | None =>
      failed [] (Error "TypeError: cannot read properties of undefined") w
  | Some (setTokenAddress, getProcessedTokenData) =>
      match getProcessedTokenData (setTokenAddress symbol w) with
      | (Returns _, w1) =>
          match getMarketMetrics symbol w1 with
          | (Returns marketMetrics, tr, w2) =>
              (Some {| price := Metrics.price marketMetrics;
                       volume24h := Metrics.volume24h marketMetrics;
                       priceChange24h := Metrics.priceChange24h marketMetrics;
                       marketCap := Metrics.marketCap marketMetrics |},
               ProviderFetch :: List.map Service tr, w2)
          | (Throws e, tr, w2) =>
              failed (ProviderFetch :: List.map Service tr) e w2
          end
      | (Throws e, w1) => failed [ProviderFetch] e w1
      end
  end.

Definition generateMarketTweet (data : TweetData) (w : W)
  : option string * list effect * W :=
  match generateMarketTweet_ai data w with
  | (Returns tweetContent, w1) => (Some tweetContent, [], w1)
  | (Throws e, w1) => (None, [LogError "Error generating market tweet:" e], w1)
  end.

Definition generateMarketDataTweet (symbol : string) (w : W)
  : option string * list effect * W :=
  match getMarketData symbol w with
  | (None, tr, w1) => (None, tr, w1)
  | (Some marketData, tr, w1) =>
      let tweetData :=
        {| topic := symbol;
           price_text := number_text (price marketData);
           volume_text := number_text (volume24h marketData);
           priceChange_text :=
             str_or (Some (number_text (priceChange24h marketData))) "0" |} in
      let '(content, tr2, w2) := generateMarketTweet tweetData w1 in
      (content, tr ++ tr2, w2)
  end.

(** The [execute] of the chat command ['tweet']; [args[0]] may be
    missing. *)
Definition tweetCommand (args : list string) (w : W) : list effect * W :=
  match args with
  | [] => ([Print "Please provide a token symbol"], w)
  | arg :: _ =>
      let symbol := Startup.toUpperCase arg in
      if String.eqb symbol EmptyString then
        ([Print "Please provide a token symbol"], w)
      else
        match generateMarketDataTweet symbol w with
        | (None, tr, w1) =>
            (tr ++ [Print "Failed to generate tweet content"], w1)
        | (Some tweetContent, tr, w1) =>
            match postTweetWithRetry tweetContent w1 with
            | (Returns _, w2) =>
                (tr ++ [PostTweet tweetContent;
                        Print "Tweet posted successfully!"], w2)
            | (Throws _, w2) =>
                (tr ++ [PostTweet tweetContent; Print "Error posting tweet"], w2)
            end
        end
  end.

End Terminal.

Definition is_message (e : effect) : bool :=
  match e with AddMessage _ _ => true | _ => false end.

(** The messages a run adds to the history, in order. *)
Definition recorded (tr : list effect) : list effect :=
  List.filter is_message tr.

Definition is_post (e : effect) : bool :=
  match e with PostTweet _ => true | _ => false end.

Definition posts (tr : list effect) : list effect := List.filter is_post tr.

Definition is_provider_fetch (e : effect) : bool :=
  match e with ProviderFetch => true | _ => false end.

(** Collaborators to run the terminal against. *)
Definition not_a_command (input : string) (w : unit) : completion bool * unit :=
  (Returns false, w).

Definition answer (text : string) (input : string) (w : unit)
  : completion string * unit := (Returns text, w).

Definition metrics_down (symbol : string) (w : unit)
  : completion Metrics.MarketMetrics * list Jupiter.io * unit :=
  (Throws (Error "ETIMEDOUT"), [Jupiter.CacheGet ("metrics:" ++ symbol)%string], w).

Definition tweet_ai (data : TweetData) (w : unit) : completion string * unit :=
  (Returns (topic data), w).

Definition poster_ok (content : string) (w : unit) : completion unit * unit :=
  (Returns tt, w).

Definition provider_ok
  : (string -> unit -> unit) * (unit -> completion Jupiter.TokenData * unit) :=
  (fun symbol w => w, fun w => (Returns Jupiter.elona, w)).

Definition metrics_cached (symbol : string) (w : unit)
  : completion Metrics.MarketMetrics * list Jupiter.io * unit :=
  (Returns (Metrics.marketMetrics_of Jupiter.elona),
   [Jupiter.CacheGet ("metrics:" ++ symbol)%string], w).

End ChatInput.

(* ===================================================================== *)
(** ** ChatService: what a suspended cycle carries                        *)
(* ===================================================================== *)

Module ChatInvariants.
Import JS Chat.

(** The text [executeAutoAction] returns for an analysis. *)
Definition result_text (a : Analysis) : string :=
  ("Executed " ++ a_action a ++ " with confidence " ++ a_confidence a)%string.

(** Every invocation suspended on [executeAutoAction] carries the result
    text of its own analysis. *)
Definition results_match (s : state) : Prop :=
  forall c a r, inflight s !! c = Some (AwaitAction a r) -> r = result_text a.

(** The two messages a completed cycle records. *)
Definition cycle_messages (a : Analysis) : list Message :=
  [ {| role := "assistant";
       content := ("Executed action: " ++ a_action a)%string |};
    {| role := "assistant";
       content := ("Result: " ++ result_text a)%string |} ].

End ChatInvariants.

(* ===================================================================== *)
(** ** ChatService: the terminal and the auto loop on one history         *)
(* ===================================================================== *)

Module ChatSession.
Import JS Chat.

(** Where an invocation of the ['line'] listener is suspended, inside
    [processInput]; it carries [trimmedInput]. *)
Inductive line_stage : Type :=
| AwaitCommand (input : string)
                   (* await this.commandHandler.handleCommand(input) *)
| AwaitResponse (input : string).
                   (* await this.aiService.generateResponse({...}) *)

Definition stage_input (st : line_stage) : string :=
  match st with
  | AwaitCommand input | AwaitResponse input => input
  end.

Inductive line_settled : Type :=
| CommandSettled (r : completion bool)
| ResponseSettled (r : completion string).

(** What the event loop delivers to the service once the terminal is part
    of the picture. *)
Inductive event : Type :=
| Loop (ev : Chat.event)            (* what the auto loop is delivered *)
| Start (welcomeMessage : option string)
                                    (* start(), with the current mode's
                                       config?.welcomeMessage *)
| Line (input : string)             (* readline emits 'line' *)
| LineSettles (id : nat) (v : line_settled).

Record state := {
  service : Chat.state;
  listeners : nat;                  (* 'line' listeners installed by start() *)
  lines : gmap nat line_stage;      (* suspended invocations of the listener *)
  fresh_line : nat
}.

Definition init : state :=
  {| service := Chat.init; listeners := 0; lines := ∅; fresh_line := 0 |}.

Definition with_service (c : Chat.state) (s : state) : state :=
  {| service := c; listeners := listeners s; lines := lines s;
     fresh_line := fresh_line s |}.

Definition with_lines (m : gmap nat line_stage) (next : nat) (s : state)
  : state :=
  {| service := service s; listeners := listeners s; lines := m;
     fresh_line := next |}.

Definition nl : string := String (Ascii.ascii_of_nat 10) EmptyString.

(** [this.isRunning = true] *)
Definition running (c : Chat.state) : Chat.state :=
  {| isRunning := true; autoModeInterval := autoModeInterval c;
     history := history c; timers := timers c; fresh_timer := fresh_timer c;
     inflight := inflight c; fresh_cycle := fresh_cycle c;
     outputs := outputs c; exited := exited c |}.

(** [start()].  What [this.modeManager.start()] sets off arrives as [Loop]
    events; so do the ['close'] and [SIGINT] handlers installed here, which
    call [stop()]. *)
Definition start (welcomeMessage : option string) (s : state) : state :=
  let c1 := running (service s) in
  let c2 :=
    match welcomeMessage with
    | Some msg =>
        if String.eqb msg EmptyString then c1
        else log (Console (nl ++ msg)%string) c1
    | None => c1
    end in
  {| service := c2; listeners := S (listeners s); lines := lines s;
     fresh_line := fresh_line s |}.

(** One invocation of the ['line'] listener, up to its first [await]. *)
Definition listener (input : string) (s : state) : state :=
  if exited (service s) then s
  else if negb (isRunning (service s)) then s
  else
    let trimmedInput := trim input in
    if String.eqb (Startup.toLowerCase trimmedInput) "exit"
    then with_service (Chat.stop (service s)) s
    else with_lines (<[fresh_line s := AwaitCommand trimmedInput]> (lines s))
                    (S (fresh_line s)) s.

(** [processInput] returns or its [catch] has run. *)
Definition finish (id : nat) (s : state) : state :=
  with_lines (delete id (lines s)) (fresh_line s) s.

Definition failed (id : nat) (e : exn) (s : state) : state :=
  let c1 := log (ErrorLog "Error processing input:" (message_of e)) (service s) in
  let c2 :=
    log (Console (nl ++ "Error processing your input. Please try again.")%string)
        c1 in
  finish id (with_service c2 s).

(** A suspended invocation of the listener is resumed with the value its
    promise settled with. *)
Definition resumeLine (id : nat) (v : line_settled) (s : state) : state :=
  match lines s !! id, v with
  | Some (AwaitCommand input), CommandSettled (Returns commandResult) =>
      if commandResult then finish id s
      else
        let c1 := Chat.recordMessage "user" input (service s) in
        with_lines (<[id := AwaitResponse input]> (lines s)) (fresh_line s)
                   (with_service c1 s)
  | Some (AwaitCommand input), CommandSettled (Throws e) => failed id e s
  | Some (AwaitResponse input), ResponseSettled (Returns response) =>
      if String.eqb response EmptyString then
        finish id
          (with_service
             (log (Console (nl ++ "Sorry, there was an error. Please try again.")%string)
                  (service s)) s)
      else
        let c1 := Chat.recordMessage "assistant" response (service s) in
        let c2 := log (Console (nl ++ "ELONA: " ++ response)%string) c1 in
        finish id (with_service c2 s)
  | Some (AwaitResponse input), ResponseSettled (Throws e) => failed id e s
  | _, _ => s
  end.

(** One turn of the event loop; after [process.exit] nothing runs. *)
Definition step (s : state) (ev : event) : state :=
  if exited (service s) then s
  else
    match ev with
    | Loop ev' => with_service (Chat.step (service s) ev') s
    | Start welcomeMessage => start welcomeMessage s
    | Line input => Nat.iter (listeners s) (listener input) s
    | LineSettles id v => resumeLine id v s
    end.

Definition run (s : state) (evs : list event) : state :=
  List.fold_left step evs s.

(** The lines delivered are ASCII text. *)
Definition ascii_event (ev : event) : bool :=
  match ev with
  | Line input => ascii_only input
  | _ => true
  end.

(** Every suspended invocation of the listener carries the trimmed text
    of a line that was delivered. *)
Definition lines_traced (evs : list event) (s : state) : Prop :=
  forall id st, lines s !! id = Some st ->
    exists raw, In (Line raw) evs /\ stage_input st = trim raw.

(** What every reachable state of the session satisfies. *)
Definition session_inv (evs : list event) (s : state) : Prop :=
  ChatInvariants.results_match (service s) /\ lines_traced evs s.

End ChatSession.

(* ===================================================================== *)
(** ** Twitter set-up and posting with media                              *)
(* ===================================================================== *)

Module Media.
Import JS.

(** [requiredCredentials] of [verifyAndInitialize], each with the
    environment variable [twitterConfig] reads it from. *)
Definition requiredCredentials : list (string * string) :=
  [ ("username", "TWITTER_USERNAME"); ("password", "TWITTER_PASSWORD");
    ("email", "TWITTER_EMAIL"); ("apiKey", "TWITTER_API_KEY");
    ("apiSecret", "TWITTER_API_SECRET");
    ("accessToken", "TWITTER_ACCESS_TOKEN");
    ("accessSecret", "TWITTER_ACCESS_SECRET");
    ("bearerToken", "TWITTER_BEARER_TOKEN") ].

(** The [forEach] over [requiredCredentials]: it throws at the first key
    whose value is falsy, and the [catch] of [verifyAndInitialize] wraps the
    message. *)
Fixpoint checkCredentials_from (keys : list (string * string))
    (env : gmap string string) : completion unit :=
  match keys with
  | [] => Returns tt
  | (key, var) :: keys' =>
      if Startup.is_set env var then checkCredentials_from keys' env
      else Throws (Error ("Failed to initialize Twitter: "
                            ++ "Missing required Twitter credential: " ++ key))
  end.

Definition checkCredentials (env : gmap string string) : completion unit :=
  checkCredentials_from requiredCredentials env.

Inductive event : Type :=
| UploadMedia (url : string)
| TweetV2 (text : string) (media_ids : option (list string))
| LogInfo (msg : string)
| LogSuccess (msg tweetId : string)
| LogError (msg : string) (e : exn).

Section Posting.
Context {W : Type}.
Variable uploadMedia : string -> W -> completion string * W.
Variable tweet : string -> option (list string) -> W -> completion string * W.
(** [Promise.all] rejects with the rejection that settles first; which one
    that is among several is up to the network. *)
Variable first_rejected : list exn -> exn.

(** [mediaUrls.map(url => this.twitter.v1.uploadMedia(url))]: the calls
    are made one after the other, each logged here as it is made; what a
    call settles with does not decide whether the next one is made. *)
Fixpoint uploadAll (urls : list string) (w : W)
  : list (completion string) * list event * W :=
  match urls with
  | [] => ([], [], w)
  | url :: urls' =>
      let '(c, w1) := uploadMedia url w in
      let '(cs, tr, w2) := uploadAll urls' w1 in
      (c :: cs, UploadMedia url :: tr, w2)
  end.

Fixpoint resolved (cs : list (completion string)) : list string :=
  match cs with
  | [] => []
  | Returns mediaId :: cs' => mediaId :: resolved cs'
  | Throws _ :: cs' => resolved cs'
  end.

Fixpoint rejected (cs : list (completion string)) : list exn :=
  match cs with
  | [] => []
  | Returns _ :: cs' => rejected cs'
  | Throws e :: cs' => e :: rejected cs'
  end.

Definition postTweet (content : string) (mediaUrls : option (list string))
    (w : W) : completion unit * list event * W :=
  let urls := list_or_nil mediaUrls in
  let '(cs, uploading, w1) := uploadAll urls w in
  let start := LogInfo "Preparing to post tweet..." :: uploading in
  match rejected cs with
  | _ :: _ =>
      let e := first_rejected (rejected cs) in
      (Throws e, start ++ [LogError "Failed to post tweet:" e], w1)
  | [] =>
      let mediaIds := resolved cs in
      let media :=
        match mediaIds with
        | [] => None
        | _ :: _ => Some (firstn 4 mediaIds)
        end in
      match tweet content media w1 with
      | (Returns tweetId, w2) =>
          (Returns tt,
           start ++ [TweetV2 content media;
                     LogSuccess "Tweet posted successfully:" tweetId], w2)
      | (Throws e, w2) =>
          (Throws e,
           start ++ [TweetV2 content media; LogError "Failed to post tweet:" e],
           w2)
      end
  end.

End Posting.

Definition is_upload (e : event) : bool :=
  match e with UploadMedia _ => true | _ => false end.

Definition uploads (tr : list event) : list event := List.filter is_upload tr.

Definition is_tweet (e : event) : bool :=
  match e with TweetV2 _ _ => true | _ => false end.

Definition tweets (tr : list event) : list event := List.filter is_tweet tr.

(** Collaborators to run [postTweet] against. *)
Definition upload_ok (url : string) (w : unit) : completion string * unit :=
  (Returns ("id:" ++ url)%string, w).

Definition upload_unless (bad url : string) (w : unit)
  : completion string * unit :=
  (if String.eqb url bad then Throws (Error "413") else Returns url, w).

Definition tweet_ok (text : string) (media : option (list string)) (w : unit)
  : completion string * unit := (Returns "1", w).

Definition head_or_undefined (es : list exn) : exn :=
  match es with
  | e :: _ => e
  | [] => Undefined
  end.

End Media.

(* ===================================================================== *)
(** * Theorems                                                            *)
(* ===================================================================== *)

Section NumberFacts.
Import JS.

Lemma gt_Fin (x y : Q) : gt (Fin x) (Fin y) = true <-> (y < x)%Q.
Proof.
  unfold gt. rewrite negb_true_iff. split.
  - intros H. apply Qnot_le_lt. intros Hle.
    apply Qle_bool_iff in Hle. congruence.
  - intros H. destruct (Qle_bool x y) eqn:E; [|reflexivity].
    apply Qle_bool_iff in E. exfalso. eapply Qlt_not_le; eauto.
Qed.

Lemma gt_Fin_false (x y : Q) : gt (Fin x) (Fin y) = false <-> (x <= y)%Q.
Proof.
  unfold gt. rewrite negb_false_iff. apply Qle_bool_iff.
Qed.

Lemma ge_Fin (x y : Q) : ge (Fin x) (Fin y) = true <-> (y <= x)%Q.
Proof. unfold ge. apply Qle_bool_iff. Qed.

(** [>] implies [>=], NaN and infinities included. *)
Lemma gt_ge (a b : number) : gt a b = true -> ge a b = true.
Proof.
  destruct a, b; simpl; try congruence; try reflexivity.
  intros H. apply (proj1 (gt_Fin _ _)) in H.
  apply Qle_bool_iff. apply Qlt_le_weak. exact H.
Qed.

(** [<] excludes [>]. *)
Lemma lt_not_gt (a b : number) : lt a b = true -> gt a b = false.
Proof.
  unfold lt. destruct a, b; simpl; try congruence; try reflexivity.
  intros H. apply (proj1 (gt_Fin _ _)) in H.
  apply negb_false_iff. apply Qle_bool_iff. apply Qlt_le_weak. exact H.
Qed.

(** [<] excludes [>=]. *)
Lemma lt_not_ge (a b : number) : lt a b = true -> ge a b = false.
Proof.
  unfold lt. destruct a, b; simpl; try congruence; try reflexivity.
  intros H. apply (proj1 (gt_Fin _ _)) in H.
  destruct (Qle_bool q0 q) eqn:E; [|reflexivity].
  apply Qle_bool_iff in E. exfalso. eapply Qlt_not_le; eauto.
Qed.

(** Nothing below zero exceeds a non-negative threshold. *)
Lemma negative_not_gt (n : number) (t : Z) :
  (0 <= t)%Z -> lt n zero = true -> gt n (ofZ t) = false.
Proof.
  intros Ht. unfold lt, zero, ofZ.
  destruct n; simpl; try congruence; try reflexivity.
  intros H. apply (proj1 (gt_Fin _ _)) in H.
  apply negb_false_iff. apply Qle_bool_iff.
  apply Qle_trans with (y := 0%Q); [apply Qlt_le_weak; exact H|].
  change 0%Q with (inject_Z 0). rewrite <- Zle_Qle. exact Ht.
Qed.

(** Clamping never changes the outcome of a comparison against a
    non-negative threshold. *)
Lemma gt_clamp (n : number) (t : Z) :
  (0 <= t)%Z -> gt (Jupiter.clamp n) (ofZ t) = gt n (ofZ t).
Proof.
  intros Ht. unfold Jupiter.clamp.
  destruct (lt n zero) eqn:E; [|reflexivity].
  rewrite (negative_not_gt n t Ht E).
  apply gt_Fin_false. change 0%Q with (inject_Z 0).
  rewrite <- Zle_Qle. exact Ht.
Qed.

End NumberFacts.

Section ConfidenceLevel.
Import JS Jupiter.

Lemma num_or_gt (l : Q) (k : Z) :
  (0 <= k)%Z ->
  gt (num_or (Some (Fin l)) zero) (ofZ k) = true <-> (inject_Z k < l)%Q.
Proof.
  intros Hk. unfold num_or, truthy, zero.
  destruct (Qeq_bool l 0) eqn:E; simpl negb; cbv iota.
  - apply Qeq_bool_iff in E. unfold ofZ. rewrite gt_Fin. rewrite E. tauto.
  - unfold ofZ. apply gt_Fin.
Qed.

Lemma num_or_clamp_gt (x : option number) (k : Z) :
  (0 <= k)%Z ->
  gt (num_or (option_map clamp x) zero) (ofZ k) = gt (num_or x zero) (ofZ k).
Proof.
  intros Hk. destruct x as [n|]; [|reflexivity].
  unfold option_map, num_or, clamp. destruct (lt n zero) eqn:E.
  - change (truthy zero) with false. cbv iota.
    destruct (truthy n); [|reflexivity].
    rewrite (negative_not_gt n k Hk E).
    apply gt_Fin_false. change 0%Q with (inject_Z 0).
    rewrite <- Zle_Qle. exact Hk.
  - reflexivity.
Qed.

Lemma pair0_liquidity_normalize (d : DexData) :
  pair0_liquidity_usd (normalizeDex d) = option_map clamp (pair0_liquidity_usd d).
Proof.
  unfold pair0_liquidity_usd, normalizeDex. simpl.
  destruct (pairs d) as [|p ps]; [reflexivity|]. simpl.
  destruct (liquidity p); reflexivity.
Qed.

Lemma Number_clamp_gt (x : option number) (k : Z) :
  (0 <= k)%Z ->
  gt (Number (option_map clamp x)) (ofZ k) = gt (Number x) (ofZ k).
Proof.
  intros Hk. destruct x as [n|]; [|reflexivity]. simpl. apply gt_clamp, Hk.
Qed.

(** The classifier cannot tell a clamped input from the original one:
    every threshold is positive and every comparison is a strict [>]. *)
Lemma calculateConfidenceLevel_clamp_invariant (t : TradeData) (d : DexData) :
  calculateConfidenceLevel t d = calculateConfidenceLevel_clamped t d.
Proof.
  unfold calculateConfidenceLevel_clamped, calculateConfidenceLevel.
  cbv zeta. rewrite pair0_liquidity_normalize.
  unfold normalizeTrade; simpl volume_24h_usd.
  rewrite !Number_clamp_gt, !num_or_clamp_gt by lia.
  reflexivity.
Qed.

Lemma negative_volume_low (t : TradeData) (d : DexData) :
  negative (volume_24h_usd t) = true -> calculateConfidenceLevel t d = low.
Proof.
  unfold negative, calculateConfidenceLevel.
  destruct (volume_24h_usd t) as [n|]; [|discriminate].
  intros H. cbv zeta. simpl Number.
  rewrite !(negative_not_gt n) by (lia || assumption). reflexivity.
Qed.

(** C2: for non-negative volume and liquidity the level is [high] exactly
    when volume > 100000 and liquidity > 50000, otherwise [medium] exactly
    when volume > 10000 and liquidity > 10000, otherwise [low]. *)
Theorem C2_confidence_level_thresholds
    (t : TradeData) (d : DexData) (v l : Q)
    (Hvol : volume_24h_usd t = Some (Fin v))
    (Hliq : pair0_liquidity_usd d = Some (Fin l))
    (Hv : (0 <= v)%Q) (Hl : (0 <= l)%Q) :
  let c := calculateConfidenceLevel t d in
  let hi := (100000 < v)%Q /\ (50000 < l)%Q in
  let mid := (10000 < v)%Q /\ (10000 < l)%Q in
  (c = high <-> hi) /\
  (c = medium <-> ~ hi /\ mid) /\
  (c = low <-> ~ hi /\ ~ mid).
Proof.
  cbv zeta. unfold calculateConfidenceLevel. cbv zeta.
  rewrite Hvol, Hliq. simpl Number.
  pose proof (gt_Fin v (inject_Z 100000)) as V1.
  pose proof (gt_Fin v (inject_Z 10000)) as V2.
  pose proof (num_or_gt l 50000 ltac:(lia)) as L1.
  pose proof (num_or_gt l 10000 ltac:(lia)) as L2.
  change (inject_Z 100000) with 100000%Q in *.
  change (inject_Z 50000) with 50000%Q in *.
  change (inject_Z 10000) with 10000%Q in *.
  unfold ofZ in *.
  change (inject_Z 100000) with 100000%Q in *.
  change (inject_Z 50000) with 50000%Q in *.
  change (inject_Z 10000) with 10000%Q in *.
  destruct (gt (Fin v) (Fin 100000)), (gt (Fin v) (Fin 10000)),
    (gt (num_or (Some (Fin l)) zero) (Fin 50000)),
    (gt (num_or (Some (Fin l)) zero) (Fin 10000));
    simpl; intuition congruence.
Qed.

(** The specification's example, obtained from the theorem:
    [{volume24h: 150000, liquidity: 60000}] is [high]. *)
Lemma C2_witness_150000_60000 :
  calculateConfidenceLevel (fst (snapshot (ofZ 150000) (ofZ 60000)))
                           (snd (snapshot (ofZ 150000) (ofZ 60000))) = high.
Proof.
  apply (C2_confidence_level_thresholds
           (fst (snapshot (ofZ 150000) (ofZ 60000)))
           (snd (snapshot (ofZ 150000) (ofZ 60000)))
           150000 60000 eq_refl eq_refl).
  - discriminate.
  - discriminate.
  - split; reflexivity.
Defined.

Lemma negative_liquidity_low (t : TradeData) (d : DexData) :
  negative (pair0_liquidity_usd d) = true -> calculateConfidenceLevel t d = low.
Proof.
  unfold negative, calculateConfidenceLevel.
  destruct (pair0_liquidity_usd d) as [n|]; [|discriminate].
  intros H. cbv zeta. unfold num_or.
  assert (Hn : forall k, (0 <= k)%Z ->
             gt (if truthy n then n else zero) (ofZ k) = false).
  { intros k Hk. destruct (truthy n); [apply negative_not_gt; assumption|].
    apply gt_Fin_false. change 0%Q with (inject_Z 0).
    rewrite <- Zle_Qle. exact Hk. }
  rewrite !Hn by lia. rewrite !andb_false_r. reflexivity.
Qed.

(** C9, amended: the classifier normalises nothing.  It compares the raw
    volume and the raw liquidity with a strict [>] against positive
    thresholds, so a negative volume or a negative liquidity gives [low],
    and replacing negative values by zero would not change any level.  It
    never reads the price: whatever the price is, negative included, the
    level is the one the volume and the liquidity give.  The metrics
    [getMarketMetrics] builds carry the price and the volume as they came,
    next to that level. *)
Theorem C9_negative_volume_low_price_not_read (t : TradeData) (d : DexData) :
  (negative (volume_24h_usd t) = true \/ negative (pair0_liquidity_usd d) = true ->
     calculateConfidenceLevel t d = low) /\
  calculateConfidenceLevel t d = calculateConfidenceLevel_clamped t d /\
  (forall p : number,
     calculateConfidenceLevel (with_price p t) d = calculateConfidenceLevel t d /\
     let m := Metrics.marketMetrics_of
                {| tradeData := with_price p t; dexScreenerData := d |} in
     Metrics.price m = p /\
     Metrics.volume24h m = Number (volume_24h_usd t) /\
     Metrics.confidenceLevel m = calculateConfidenceLevel t d).
Proof.
  split; [|split].
  - intros [H|H]; [apply negative_volume_low, H|apply negative_liquidity_low, H].
  - apply calculateConfidenceLevel_clamp_invariant.
  - intros p. split; [reflexivity|]. cbv zeta.
    unfold Metrics.marketMetrics_of. simpl. repeat split.
Qed.

(** C9 as stated fails: with price [-1], volume 150000 and liquidity 60000
    the input has a negative price, yet the level is [high], not [low],
    and the metrics carry the price [-1], not [0]. *)
Lemma C9_counterexample_negative_price_high :
  let t := with_price (ofZ (-1)) (fst (snapshot (ofZ 150000) (ofZ 60000))) in
  let d := snd (snapshot (ofZ 150000) (ofZ 60000)) in
  let m := Metrics.marketMetrics_of {| tradeData := t; dexScreenerData := d |} in
  negative (price t) = true /\
  calculateConfidenceLevel t d = high /\
  ~ calculateConfidenceLevel t d = low /\
  Metrics.price m = ofZ (-1) /\
  ~ Metrics.price m = zero.
Proof.
  cbv zeta. split; [reflexivity|]. split; [reflexivity|].
  split; [discriminate|]. split; [reflexivity|]. discriminate.
Qed.

(** The amended statement at a negative volume ([-5], liquidity 60000:
    [low]) and at the negative price of the counterexample (the level of
    the same input without a price). *)
Lemma C9_witness_negative_volume :
  let t := with_volume (ofZ (-5)) (fst (snapshot zero (ofZ 60000))) in
  let d := snd (snapshot zero (ofZ 60000)) in
  let t' := fst (snapshot (ofZ 150000) (ofZ 60000)) in
  calculateConfidenceLevel t d = low /\
  calculateConfidenceLevel (with_price (ofZ (-1)) t') d
  = calculateConfidenceLevel t' d.
Proof.
  cbv zeta.
  pose proof (C9_negative_volume_low_price_not_read
                (with_volume (ofZ (-5)) (fst (snapshot zero (ofZ 60000))))
                (snd (snapshot zero (ofZ 60000)))) as [H1 _].
  pose proof (C9_negative_volume_low_price_not_read
                (fst (snapshot (ofZ 150000) (ofZ 60000)))
                (snd (snapshot zero (ofZ 60000)))) as [_ [_ H3]].
  split; [apply H1; left; reflexivity|].
  exact (proj1 (H3 (ofZ (-1)))).
Defined.

End ConfidenceLevel.

Section RetryingPoster.
Import JS Twitter.
Context {W : Type}.
Variable tweet : string -> W -> completion unit * W.

Local Ltac step_tweet content w :=
  destruct (tweet content w) as [[[]|error] w'] eqn:Etweet.

Lemma retry_from_attempts (n i : nat) (content : string) (e : exn) (w : W) :
  attempts (trace (retry_from tweet n i content e w)) <= n.
Proof.
  revert i e w. induction n as [|n IH]; intros i e w; simpl.
  - unfold attempts. simpl. lia.
  - step_tweet content w.
    + unfold attempts. simpl. lia.
    + specialize (IH (S i) error w').
      destruct (retry_from tweet n (S i) content error w') as [[c tr] w''].
      unfold attempts, trace in *. simpl in *. lia.
Qed.

Lemma retry_from_delays (n i : nat) (content : string) (e : exn) (w : W) :
  let tr := trace (retry_from tweet n i content e w) in
  delays tr =
    List.map (fun k => baseWaitTime * Z.of_nat k)%Z
             (List.seq (S i) (length (delays tr))).
Proof.
  revert i e w. induction n as [|n IH]; intros i e w; simpl.
  - reflexivity.
  - step_tweet content w.
    + reflexivity.
    + specialize (IH (S i) error w'). cbv zeta in IH.
      destruct (retry_from tweet n (S i) content error w') as [[c tr] w''].
      unfold trace in *. simpl in *.
      replace (i + 1) with (S i) by lia. f_equal. exact IH.
Qed.

Lemma retry_from_delays_between (n i : nat) (content : string) (e : exn) (w : W) :
  forall (seen target : nat) (acc ds : list Z),
    delays_between seen target acc
      (trace (retry_from tweet n i content e w)) = Some ds ->
    (target = seen /\ ds = List.rev acc) \/
    (seen < target /\
     ds = [(baseWaitTime * Z.of_nat (i + (target - seen)))%Z]).
Proof.
  revert i e w. induction n as [|n IH]; intros i e w seen target acc ds; simpl.
  - unfold trace. simpl. discriminate.
  - step_tweet content w.
    + unfold trace. simpl.
      destruct (Nat.eqb_spec seen target) as [->|Hne].
      * intros [= <-]. left. split; reflexivity.
      * discriminate.
    + specialize (IH (S i) error w').
      destruct (retry_from tweet n (S i) content error w') as [[c tr] w''].
      unfold trace in *. simpl in *.
      destruct (Nat.eqb_spec seen target) as [->|Hne].
      * intros [= <-]. left. split; reflexivity.
      * intros H. apply IH in H. right.
        destruct H as [[-> ->]|[Hlt ->]].
        -- split; [lia|]. simpl. do 3 f_equal. lia.
        -- split; [lia|]. do 3 f_equal. lia.
Qed.

Lemma nondecreasing_linear (a m : nat) :
  nondecreasing
    (List.map (fun k => baseWaitTime * Z.of_nat k)%Z (List.seq a m)) = true.
Proof.
  revert a. induction m as [|m IH]; intros a; [reflexivity|].
  simpl. destruct m as [|m]; [reflexivity|].
  specialize (IH (S a)). simpl in *. rewrite IH.
  rewrite andb_true_r. apply Z.leb_le. unfold baseWaitTime. lia.
Qed.

(** C3: with retry limit [retries] the poster makes at most [retries]
    attempts; the delay slept between attempt [i] and attempt [i + 1] is
    [baseWaitTime * i] with [baseWaitTime] = 5000 ms; the delays never
    decrease. *)
Theorem C3_bounded_attempts_linear_backoff
    (content : string) (retries : nat) (w : W) :
  let tr := trace (postTweetWithRetry tweet content retries w) in
  attempts tr <= retries /\
  (forall (i : nat) (ds : list Z),
      1 <= i -> delay_between i tr = Some ds ->
      ds = [(baseWaitTime * Z.of_nat i)%Z]) /\
  nondecreasing (delays tr) = true /\
  baseWaitTime = 5000%Z /\ default_retries = 3.
Proof.
  cbv zeta. unfold postTweetWithRetry. split; [|split; [|split]].
  - apply retry_from_attempts.
  - intros i ds Hi H. unfold delay_between in H.
    apply retry_from_delays_between in H.
    destruct H as [[-> _]|[_ ->]]; [lia|].
    do 3 f_equal. lia.
  - rewrite retry_from_delays. apply nondecreasing_linear.
  - split; reflexivity.
Qed.

End RetryingPoster.

(** The theorem at three consecutive failures with the default limit:
    three attempts, 5 s between the first two and 10 s between the last
    two. *)
Lemma C3_witness_three_failures :
  let tr := Twitter.trace
              (Twitter.postTweetWithRetry Twitter.always_fails "gm" 3 0) in
  Twitter.attempts tr <= 3 /\
  (exists ds, Twitter.delay_between 1 tr = Some ds /\ ds = [5000%Z]) /\
  (exists ds, Twitter.delay_between 2 tr = Some ds /\ ds = [10000%Z]) /\
  Twitter.nondecreasing (Twitter.delays tr) = true.
Proof.
  cbv zeta.
  pose proof (C3_bounded_attempts_linear_backoff
                Twitter.always_fails "gm" 3 0) as [Ha [Hd [Hn _]]].
  split; [exact Ha|]. split; [|split; [|exact Hn]].
  - eexists. split; [reflexivity|]. apply (Hd 1); [lia|reflexivity].
  - eexists. split; [reflexivity|]. apply (Hd 2); [lia|reflexivity].
Defined.

Section ExhaustedRetries.
Import JS Twitter.
Context {W : Type}.
Variable tweet : string -> W -> completion unit * W.
Variable llm_chat : W -> completion string * W.
Variable getMarketData : W -> completion MarketData * W.

Lemma retry_from_exhausted (n i : nat) (content : string) (e0 : exn) (w : W) :
  sink_down tweet ->
  let r := retry_from tweet n i content e0 w in
  attempts (trace r) = n /\
  exists e, outcome r = Throws e /\
            (n = 0 -> e = e0) /\
            (1 <= n -> In (LogAttemptFailed (i + n) e) (trace r)).
Proof.
  intros Hdown. revert i e0 w.
  induction n as [|n IH]; intros i e0 w; simpl.
  - split; [reflexivity|]. exists e0.
    split; [reflexivity|]. split; [reflexivity|lia].
  - pose proof (Hdown content w) as Hd.
    destruct (tweet content w) as [[[]|error] w'] eqn:Etweet;
      [discriminate Hd|].
    specialize (IH (S i) error w'). cbv zeta in IH.
    destruct (retry_from tweet n (S i) content error w') as [[c tr] w''].
    unfold attempts, trace, outcome in *. simpl in *.
    destruct IH as [Hatt [e [Hout [Hzero Hin]]]].
    split; [lia|]. exists e. split; [exact Hout|].
    split; [discriminate|].
    intros _. destruct n as [|n].
    + rewrite (Hzero eq_refl). right. left. f_equal; lia.
    + right. right. right.
      replace (i + S (S n)) with (S (i + S n)) by lia.
      apply Hin. lia.
Qed.

Lemma scheduleTweets_tick_returns (w : W) :
  exists tr w',
    scheduleTweets_tick tweet llm_chat getMarketData w = (Returns tt, tr, w').
Proof.
  unfold scheduleTweets_tick.
  destruct (getMarketData w) as [[md|e] w1]; [|eauto].
  destruct (price md), (volume24h md); eauto.
  destruct (postAITweet tweet llm_chat w1) as [[[[]|e] tr] w2]; eauto.
Qed.

Lemma retry_from_not_crashed (n i : nat) (content : string) (e : exn) (w : W) :
  crashed (trace (retry_from tweet n i content e w)) = false.
Proof.
  revert i e w. induction n as [|n IH]; intros i e w; simpl; [reflexivity|].
  destruct (tweet content w) as [[[]|error] w']; [reflexivity|].
  specialize (IH (S i) error w').
  destruct (retry_from tweet n (S i) content error w') as [[c tr] w''].
  exact IH.
Qed.

Lemma generateTweetContent_not_crashed (w : W) :
  crashed (trace (generateTweetContent llm_chat w)) = false.
Proof.
  unfold generateTweetContent.
  destruct (llm_chat w) as [[m|e] w']; [|reflexivity].
  destruct (String.eqb m EmptyString); reflexivity.
Qed.

Lemma postAITweet_not_crashed (w : W) :
  crashed (trace (postAITweet tweet llm_chat w)) = false.
Proof.
  unfold postAITweet.
  pose proof (generateTweetContent_not_crashed w) as Hg.
  destruct (generateTweetContent llm_chat w) as [[[content|e] tr1] w1];
    unfold trace in Hg; simpl in Hg.
  - unfold postTweetWithRetry.
    pose proof (retry_from_not_crashed default_retries 0 content Undefined w1)
      as Hr.
    destruct (retry_from tweet default_retries 0 content Undefined w1)
      as [[[[]|e] tr2] w2];
      unfold trace, crashed in *; simpl in *;
      rewrite !existsb_app, Hg, Hr; reflexivity.
  - unfold trace, crashed in *; simpl in *.
    rewrite existsb_app, Hg. reflexivity.
Qed.

Lemma scheduleTweets_tick_not_crashed (w : W) :
  crashed (trace (scheduleTweets_tick tweet llm_chat getMarketData w)) = false.
Proof.
  unfold scheduleTweets_tick.
  destruct (getMarketData w) as [[md|e] w1]; [|reflexivity].
  destruct (price md), (volume24h md); try reflexivity.
  pose proof (postAITweet_not_crashed w1) as Hp.
  destruct (postAITweet tweet llm_chat w1) as [[[[]|e] tr] w2];
    unfold trace, crashed in *; simpl in *; [exact Hp|].
  rewrite existsb_app, Hp. reflexivity.
Qed.

Lemma scheduleTweets_run_not_crashed (ticks : nat) (w : W) :
  crashed (fst (scheduleTweets_run tweet llm_chat getMarketData ticks w)) = false.
Proof.
  revert w. induction ticks as [|k IH]; intros w; simpl; [reflexivity|].
  pose proof (scheduleTweets_tick_not_crashed w) as Ht.
  destruct (scheduleTweets_tick_returns w) as [tr [w' Etick]].
  rewrite Etick in *. specialize (IH w').
  destruct (scheduleTweets_run tweet llm_chat getMarketData k w') as [rest w''].
  unfold trace, crashed in *. simpl in *.
  rewrite existsb_app, Ht, IH. reflexivity.
Qed.

(** C4 (amended): when every attempt fails, [postTweetWithRetry] makes
    exactly [retries] attempts and then rethrows the last error; it
    returns no result value.  The periodic caller contains the error: the
    callback of [scheduleTweets] always returns, no rejection escapes,
    and the run continues with the next tick. *)
Theorem C4_exhausted_retries_rethrown_and_contained
    (content : string) (retries : nat) (w : W) (Hdown : sink_down tweet) :
  let r := postTweetWithRetry tweet content retries w in
  attempts (trace r) = retries /\
  (exists e, outcome r = Throws e /\
             (1 <= retries -> In (LogAttemptFailed retries e) (trace r))) /\
  (forall (ticks : nat) (w0 : W),
      exists tr w1,
        scheduleTweets_tick tweet llm_chat getMarketData w0
          = (Returns tt, tr, w1) /\
        fst (scheduleTweets_run tweet llm_chat getMarketData (S ticks) w0)
          = tr ++ fst (scheduleTweets_run tweet llm_chat getMarketData ticks w1) /\
        crashed
          (fst (scheduleTweets_run tweet llm_chat getMarketData (S ticks) w0))
          = false).
Proof.
  cbv zeta. unfold postTweetWithRetry.
  destruct (retry_from_exhausted retries 0 content Undefined w Hdown)
    as [Hatt [e [Hout [_ Hin]]]].
  split; [exact Hatt|]. split.
  - exists e. split; [exact Hout|]. exact Hin.
  - intros ticks w0.
    destruct (scheduleTweets_tick_returns w0) as [tr [w1 Etick]].
    exists tr, w1. split; [exact Etick|]. split.
    + simpl. rewrite Etick.
      destruct (scheduleTweets_run tweet llm_chat getMarketData ticks w1).
      reflexivity.
    + apply scheduleTweets_run_not_crashed.
Qed.

End ExhaustedRetries.

(** C4 as stated fails: after three consecutive sink failures with the
    default limit the poster has made three attempts and throws; no
    result value is returned. *)
Lemma C4_counterexample_three_failures_throw :
  let r := Twitter.postTweetWithRetry Twitter.always_fails "gm" 3 0 in
  Twitter.attempts (Twitter.trace r) = 3 /\
  Twitter.outcome r = JS.Throws (JS.Error "503") /\
  ~ (exists result, Twitter.outcome r = JS.Returns result).
Proof.
  cbv zeta. split; [reflexivity|]. split; [reflexivity|].
  intros [result H]. discriminate H.
Qed.

(** The amended statement at the same input, followed by two ticks of the
    tweet scheduler over the failing sink: six attempts, no crash. *)
Lemma C4_witness_three_failures :
  let r := Twitter.postTweetWithRetry Twitter.always_fails "gm" 3 0 in
  Twitter.attempts (Twitter.trace r) = 3 /\
  (exists e, Twitter.outcome r = JS.Throws e) /\
  Twitter.attempts
    (fst (Twitter.scheduleTweets_run Twitter.always_fails Twitter.llm_ok
            Twitter.market_ok 2 0)) = 6 /\
  Twitter.crashed
    (fst (Twitter.scheduleTweets_run Twitter.always_fails Twitter.llm_ok
            Twitter.market_ok 2 0)) = false.
Proof.
  cbv zeta.
  assert (Hdown : Twitter.sink_down Twitter.always_fails) by (intros c w; reflexivity).
  pose proof (C4_exhausted_retries_rethrown_and_contained
                Twitter.always_fails Twitter.llm_ok Twitter.market_ok
                "gm" 3 0 Hdown) as [Ha [[e [He _]] Hrun]].
  split; [exact Ha|]. split; [exists e; exact He|].
  destruct (Hrun 1 0) as [tr [w1 [_ [_ Hc]]]].
  split; [reflexivity|exact Hc].
Defined.

Section TradeGate.
Import JS Agent.
Context {W : Type}.
Variable trading_getMarketData :
  string -> W -> completion (option MarketData) * W.
Variable ai_analyzeMarket :
  MarketData -> W -> completion (option AiAnalysis) * W.
Variable trading_executeTrade :
  string -> string -> number -> number -> W -> completion unit * W.
Variable times : number -> number -> number.
Variable CONFIG : TradingConfig.
Variable tokenAddress : string.

Local Abbreviation analyze := (analyzeMarket trading_getMarketData ai_analyzeMarket tokenAddress).
Local Abbreviation monitor :=
  (monitorMarket trading_getMarketData ai_analyzeMarket trading_executeTrade
                 times CONFIG tokenAddress).

Lemma analyzeMarket_no_trade (w : W) :
  trades (snd (fst (analyze w))) = [].
Proof.
  unfold analyzeMarket, caught.
  destruct (trading_getMarketData tokenAddress w) as [[[md|]|e] w1];
    try reflexivity.
  destruct (ai_analyzeMarket md w1) as [[[ai|]|e] w2]; reflexivity.
Qed.

Lemma trades_app (a b : list event) : trades (a ++ b) = trades a ++ trades b.
Proof. unfold trades. apply List.filter_app. Qed.

(** The gate, as the monitor evaluates it. *)
Lemma monitorMarket_trades (w : W) :
  let a := fst (fst (analyze w)) in
  let tr := fst (monitor w) in
  if shouldTrade a && gt (confidence a) (MIN_CONFIDENCE CONFIG)
  then exists i o amt sl, trades tr = [ExecuteTrade i o amt sl]
  else trades tr = [].
Proof.
  cbv zeta. unfold monitorMarket.
  pose proof (analyzeMarket_no_trade w) as Hno.
  destruct (analyze w) as [[a tr1] w1]. simpl in Hno. simpl fst.
  destruct (shouldTrade a && gt (confidence a) (MIN_CONFIDENCE CONFIG)).
  - unfold executeTrade. cbv zeta.
    destruct (trading_executeTrade _ _ _ _ w1) as [[[]|e] w2]; simpl fst;
      rewrite !trades_app, Hno; simpl; eauto.
  - exact Hno.
Qed.

(** C1: in the monitoring loop a trade is executed only if the
    confidence of the analysis is at least MIN_CONFIDENCE; when the
    confidence is below MIN_CONFIDENCE the cycle holds and the trade
    sink is not contacted, whatever the momentum. *)
Theorem C1_trade_only_above_min_confidence (w : W) :
  let a := fst (fst (analyze w)) in
  let tr := fst (monitor w) in
  (action_taken tr <> HOLD -> ge (confidence a) (MIN_CONFIDENCE CONFIG) = true) /\
  (lt (confidence a) (MIN_CONFIDENCE CONFIG) = true ->
     action_taken tr = HOLD /\ trades tr = []).
Proof.
  cbv zeta. pose proof (monitorMarket_trades w) as H. cbv zeta in H.
  destruct (shouldTrade (fst (fst (analyze w)))
            && gt (confidence (fst (fst (analyze w)))) (MIN_CONFIDENCE CONFIG))
    eqn:Egate.
  - apply andb_true_iff in Egate. destruct Egate as [_ Hgt]. split.
    + intros _. apply gt_ge, Hgt.
    + intros Hlt. apply lt_not_gt in Hlt. congruence.
  - unfold action_taken. rewrite H. split; [congruence|]. intros _. split; reflexivity.
Qed.

Lemma analyzeMarket_failed (w : W) :
  analysis_failed trading_getMarketData ai_analyzeMarket tokenAddress w = true ->
  fst (fst (analyze w)) = fallback.
Proof.
  unfold analysis_failed, analyzeMarket, caught.
  destruct (trading_getMarketData tokenAddress w) as [[[md|]|e] w1];
    try reflexivity.
  destruct (ai_analyzeMarket md w1) as [[[ai|]|e] w2];
    try reflexivity; discriminate.
Qed.

(** C10: whenever fetching the market data or running the AI analysis
    fails, [analyzeMarket] still returns: it yields the fallback analysis
    with [shouldTrade = false], [confidence = 0], [action = 'HOLD'],
    [riskLevel = 'MEDIUM'] and all-zero metrics, and the monitoring cycle
    built on it executes no trade. *)
Theorem C10_analysis_failure_yields_fallback (w : W)
    (Hfail : analysis_failed trading_getMarketData ai_analyzeMarket
                             tokenAddress w = true) :
  let a := fst (fst (analyze w)) in
  a = fallback /\
  shouldTrade a = false /\ confidence a = zero /\
  action a = "HOLD" /\ riskLevel a = "MEDIUM" /\
  metrics a = {| price := zero; volume24h := zero; marketCap := zero;
                 m_confidence := zero; onChainData := [];
                 volatility := zero; momentum := zero; strength := zero |} /\
  trades (fst (monitor w)) = [].
Proof.
  cbv zeta. pose proof (analyzeMarket_failed w Hfail) as Hfb.
  rewrite Hfb. repeat (split; [reflexivity|]).
  pose proof (monitorMarket_trades w) as H. cbv zeta in H.
  rewrite Hfb in H. exact H.
Qed.

End TradeGate.

(** The specification's example: confidence 0.4 against MIN_CONFIDENCE 0.7
    holds, with the AI asking to buy, for a positive and for a negative
    momentum alike. *)
Lemma C1_witness_confidence_04 :
  let run m :=
    fst (Agent.monitorMarket (Agent.market_up m)
           (Agent.ai_says "BUY" (JS.Fin (4 # 10))) Agent.trade_ok
           Agent.times_exact Agent.config_07 "ELONA" tt) in
  (Agent.action_taken (run (JS.ofZ 1)) = Agent.HOLD /\
   Agent.trades (run (JS.ofZ 1)) = []) /\
  (Agent.action_taken (run (JS.ofZ (-1))) = Agent.HOLD /\
   Agent.trades (run (JS.ofZ (-1))) = []).
Proof.
  cbv zeta. split.
  - apply (C1_trade_only_above_min_confidence
             (Agent.market_up (JS.ofZ 1))
             (Agent.ai_says "BUY" (JS.Fin (4 # 10))) Agent.trade_ok
             Agent.times_exact Agent.config_07 "ELONA" tt).
    reflexivity.
  - apply (C1_trade_only_above_min_confidence
             (Agent.market_up (JS.ofZ (-1)))
             (Agent.ai_says "BUY" (JS.Fin (4 # 10))) Agent.trade_ok
             Agent.times_exact Agent.config_07 "ELONA" tt).
    reflexivity.
Defined.

(** A confident analysis does reach the trade sink, so the gate is not
    vacuous. *)
Example monitorMarket_trades_at_09 :
  Agent.action_taken
    (fst (Agent.monitorMarket (Agent.market_up (JS.ofZ 1))
            (Agent.ai_says "BUY" (JS.Fin (9 # 10))) Agent.trade_ok
            Agent.times_exact Agent.config_07 "ELONA" tt)) = Agent.BUY.
Proof. reflexivity. Qed.

(** The market feed is down: the fallback comes back and nothing is traded. *)
Lemma C10_witness_market_down :
  fst (fst (Agent.analyzeMarket Agent.market_down
              (Agent.ai_says "BUY" (JS.Fin (9 # 10))) "ELONA" tt))
    = Agent.fallback /\
  Agent.trades
    (fst (Agent.monitorMarket Agent.market_down
            (Agent.ai_says "BUY" (JS.Fin (9 # 10))) Agent.trade_ok
            Agent.times_exact Agent.config_07 "ELONA" tt)) = [].
Proof.
  pose proof (C10_analysis_failure_yields_fallback
                Agent.market_down (Agent.ai_says "BUY" (JS.Fin (9 # 10)))
                Agent.trade_ok Agent.times_exact Agent.config_07 "ELONA" tt
                eq_refl) as [H [_ [_ [_ [_ [_ Ht]]]]]].
  split; [exact H|exact Ht].
Defined.

Section MarketDataCache.
Import JS Jupiter.
Context {W : Type}.
Variable cache_get : string -> W -> completion cached * W.
Variable cache_set : string -> string -> Z -> W -> completion unit * W.
Variable getProcessedTokenData : W -> completion TokenData * W.
Variable JSON_stringify : json -> string.
Variable JSON_parse : string -> option json.

Local Abbreviation getMarketData' :=
  (getMarketData cache_get cache_set getProcessedTokenData
                 JSON_stringify JSON_parse).

(** C8: [getMarketData] is read/write-through.  On a hit under
    [marketData:<symbol>] it returns the parsed cached string and makes no
    upstream fetch; on a miss it fetches once, stores the serialised result
    under the same key with the fixed 300 s TTL and returns the result. *)
Theorem C8_getMarketData_read_write_through (symbol : string) (w : W) :
  let key := ("marketData:" ++ symbol)%string in
  (forall s v w1,
      cache_get key w = (Returns (CString s), w1) ->
      JSON_parse s = Some v ->
      getMarketData' symbol w = (Returns v, [CacheGet key], w1) /\
      fetches [CacheGet key] = 0) /\
  (forall w1 tokenData w2 w3,
      cache_get key w = (Returns CNotString, w1) ->
      getProcessedTokenData w1 = (Returns tokenData, w2) ->
      cache_set key (JSON_stringify (marketData_of tokenData)) 300 w2
        = (Returns tt, w3) ->
      getMarketData' symbol w
        = (Returns (marketData_of tokenData),
           [CacheGet key; Fetch;
            CacheSet key (JSON_stringify (marketData_of tokenData)) 300],
           w3)) /\
  CACHE_TTL = 300%Z.
Proof.
  cbv zeta. split; [|split; [|reflexivity]].
  - intros s v w1 Hget Hparse. unfold getMarketData.
    cbv zeta. rewrite Hget, Hparse. split; reflexivity.
  - intros w1 tokenData w2 w3 Hget Hfetch Hset. unfold getMarketData.
    cbv zeta. rewrite Hget, Hfetch. unfold CACHE_TTL. rewrite Hset.
    reflexivity.
Qed.

(** C7 (amended): when the live fetch fails after a cache miss,
    [getMarketData] logs the error and rethrows it.  Nothing is served
    from the cache and nothing is written to it, whatever was stored
    earlier and however old it is. *)
Theorem C7_fetch_failure_is_rethrown (symbol : string) (w w1 w2 : W) (e : exn)
    (Hmiss : cache_get ("marketData:" ++ symbol)%string w
             = (Returns CNotString, w1))
    (Hdown : getProcessedTokenData w1 = (Throws e, w2)) :
  let r := getMarketData' symbol w in
  fst (fst r) = Throws e /\
  snd (fst r) = [CacheGet ("marketData:" ++ symbol)%string; Fetch;
                 LogFetchError symbol e] /\
  List.filter is_cache_set (snd (fst r)) = [] /\
  snd r = w2.
Proof.
  cbv zeta. unfold getMarketData. cbv zeta. rewrite Hmiss, Hdown.
  unfold rethrow. simpl. repeat split; reflexivity.
Qed.

End MarketDataCache.

(** C7 as stated fails: a snapshot of ELONA cached 301 s ago (expired one
    second ago, well inside a ceiling of twice the 300 s TTL) is still in
    the store, the live fetch fails, and the call throws instead of
    returning the stale snapshot. *)
Lemma C7_counterexample_stale_snapshot_not_served :
  let r := Jupiter.getMarketData_on_store "ELONA" Jupiter.stale_world in
  Jupiter.entries Jupiter.stale_world !! "marketData:ELONA"
    = Some {| Jupiter.value := "{...}"; Jupiter.expiresAt := 300 |} /\
  Jupiter.age 300 "marketData:ELONA" Jupiter.stale_world = Some 301%Z /\
  (301 <= 2 * 300)%Z /\
  fst (fst r) = JS.Throws (JS.Error "ETIMEDOUT") /\
  ~ (exists snapshot, fst (fst r) = JS.Returns snapshot).
Proof.
  cbv zeta. split; [reflexivity|]. split; [reflexivity|]. split; [lia|].
  split; [reflexivity|]. intros [snapshot H]. vm_compute in H. discriminate H.
Qed.

Lemma C7_witness_stale_world :
  let r := Jupiter.getMarketData_on_store "ELONA" Jupiter.stale_world in
  fst (fst r) = JS.Throws (JS.Error "ETIMEDOUT") /\
  snd r = Jupiter.stale_world.
Proof.
  cbv zeta.
  pose proof (C7_fetch_failure_is_rethrown
                Jupiter.store_get Jupiter.store_set Jupiter.provider
                Jupiter.toy_stringify Jupiter.toy_parse
                "ELONA" Jupiter.stale_world Jupiter.stale_world
                Jupiter.stale_world (JS.Error "ETIMEDOUT")
                eq_refl eq_refl) as [H1 [_ [_ H2]]].
  split; [exact H1|exact H2].
Defined.

(** The first call on a cold cache fetches once and stores the payload
    with expiry [0 + 300]; a second call within the TTL is answered from
    the cache without a fetch. *)
Lemma C8_witness_cold_then_warm :
  Jupiter.getMarketData_on_store "ELONA" Jupiter.cold_world
    = (JS.Returns (Jupiter.marketData_of Jupiter.elona),
       [Jupiter.CacheGet "marketData:ELONA"; Jupiter.Fetch;
        Jupiter.CacheSet "marketData:ELONA" "{...}" 300],
       Jupiter.warm_world) /\
  Jupiter.getMarketData_on_store "ELONA" Jupiter.warm_world
    = (JS.Returns (Jupiter.JObj []), [Jupiter.CacheGet "marketData:ELONA"],
       Jupiter.warm_world) /\
  Jupiter.fetches [Jupiter.CacheGet "marketData:ELONA"] = 0.
Proof.
  pose proof (C8_getMarketData_read_write_through
                Jupiter.store_get Jupiter.store_set Jupiter.provider
                Jupiter.toy_stringify Jupiter.toy_parse
                "ELONA" Jupiter.cold_world) as [_ [Hmiss _]].
  pose proof (C8_getMarketData_read_write_through
                Jupiter.store_get Jupiter.store_set Jupiter.provider
                Jupiter.toy_stringify Jupiter.toy_parse
                "ELONA" Jupiter.warm_world) as [Hhit _].
  split.
  - exact (Hmiss Jupiter.cold_world Jupiter.elona Jupiter.cold_world
                 Jupiter.warm_world eq_refl eq_refl eq_refl).
  - exact (Hhit "{...}" (Jupiter.JObj []) Jupiter.warm_world eq_refl eq_refl).
Defined.

Section AutoModeLoop.
Import JS Chat.

Lemma clearAutoInterval_tracked (reset : bool) (s : state) :
  timers_tracked s ->
  timers (clearAutoInterval reset s) = ∅ /\
  (reset = true -> autoModeInterval (clearAutoInterval reset s) = None).
Proof.
  unfold timers_tracked, clearAutoInterval. intros H.
  destruct (autoModeInterval s) as [t|] eqn:E; simpl.
  - rewrite H. split; [apply difference_diag_L|]. intros ->. reflexivity.
  - rewrite E. split; [exact H|]. reflexivity.
Qed.

Lemma startAutoMode_tracked (s : state) :
  timers_tracked s -> timers_tracked (startAutoMode s).
Proof.
  intros H. unfold startAutoMode. cbv zeta.
  assert (Hlog : timers_tracked (log (Info "Starting autonomous mode...") s))
    by exact H.
  destruct (clearAutoInterval_tracked false _ Hlog) as [Hc _].
  unfold timers_tracked. simpl. rewrite Hc. apply (left_id_L ∅ (∪)).
Qed.

Lemma onModeChanged_tracked (newMode : string) (s : state) :
  timers_tracked s -> timers_tracked (onModeChanged newMode s).
Proof.
  intros H. unfold onModeChanged. destruct (String.eqb newMode "auto").
  - apply startAutoMode_tracked, H.
  - destruct (clearAutoInterval_tracked true s H) as [Hc Hn].
    unfold timers_tracked. rewrite Hc, (Hn eq_refl). reflexivity.
Qed.

Lemma resume_timers (c : nat) (v : settled) (s : state) :
  timers (resume c v s) = timers s /\
  autoModeInterval (resume c v s) = autoModeInterval s.
Proof.
  unfold resume, caught, finish, executeAutoAction, recordMessage.
  repeat case_match; simpl; split; reflexivity.
Qed.

Lemma step_tracked (s : state) (ev : event) :
  timers_tracked s -> timers_tracked (step s ev).
Proof.
  intros H. unfold step. destruct (exited s); [exact H|].
  destruct ev as [newMode|t|c v| | |].
  - apply onModeChanged_tracked, H.
  - case_bool_decide; exact H.
  - unfold timers_tracked. destruct (resume_timers c v s) as [-> ->]. exact H.
  - unfold pause. destruct (autoModeInterval s) eqn:E; [|exact H].
    destruct (clearAutoInterval_tracked true s H) as [Hc Hn].
    unfold timers_tracked. simpl. rewrite Hc, (Hn eq_refl). reflexivity.
  - unfold resumeCommand. destruct (autoModeInterval s) eqn:E; [exact H|].
    apply (startAutoMode_tracked s H).
  - destruct (clearAutoInterval_tracked true s H) as [Hc Hn].
    unfold timers_tracked, stop. simpl. rewrite Hc, (Hn eq_refl). reflexivity.
Qed.

Lemma with_inflight_insert_fresh (c : nat) (st : stage) (s : state) :
  cycles_fresh s -> is_Some (inflight s !! c) ->
  cycles_fresh (with_inflight (<[c := st]> (inflight s)) (fresh_cycle s) s).
Proof.
  intros H Hc c' Hc'. simpl in *.
  destruct (decide (c = c')) as [<-|Hne]; [apply H, Hc|].
  rewrite lookup_insert_ne in Hc' by exact Hne. apply H, Hc'.
Qed.

Lemma finish_fresh (c : nat) (s : state) :
  cycles_fresh s -> cycles_fresh (finish c s).
Proof.
  intros H c' Hc'. unfold finish in Hc'. simpl in *.
  destruct (decide (c = c')) as [<-|Hne].
  - rewrite lookup_delete_eq in Hc'. destruct Hc' as [x Hx]. discriminate.
  - rewrite lookup_delete_ne in Hc' by exact Hne. apply H, Hc'.
Qed.

Lemma resume_fresh (c : nat) (v : settled) (s : state) :
  cycles_fresh s -> cycles_fresh (resume c v s).
Proof.
  intros H. unfold resume, caught, executeAutoAction, recordMessage.
  destruct (inflight s !! c) as [st|] eqn:E; [|exact H].
  assert (Hsome : is_Some (inflight s !! c)) by (rewrite E; eauto).
  repeat case_match; subst;
    first [ exact H
          | apply finish_fresh; exact H
          | apply (with_inflight_insert_fresh c _ _ H Hsome)
          | idtac ].
  all: try (apply (with_inflight_insert_fresh c _ (log _ (log _ s)));
            [exact H|exact Hsome]).
Qed.

Lemma tick_fresh (s : state) : cycles_fresh s -> cycles_fresh (tick s).
Proof.
  intros H c Hc. unfold tick in Hc. simpl in *.
  destruct (decide (fresh_cycle s = c)) as [<-|Hne]; [lia|].
  rewrite lookup_insert_ne in Hc by exact Hne.
  specialize (H c Hc). lia.
Qed.

Lemma step_fresh (s : state) (ev : event) :
  cycles_fresh s -> cycles_fresh (step s ev).
Proof.
  intros H. unfold step. destruct (exited s); [exact H|].
  destruct ev as [newMode|t|c v| | |].
  - unfold onModeChanged, startAutoMode, clearAutoInterval.
    repeat case_match; exact H.
  - case_bool_decide; [apply tick_fresh, H|exact H].
  - apply resume_fresh, H.
  - unfold pause, clearAutoInterval. repeat case_match; exact H.
  - unfold resumeCommand, startAutoMode, clearAutoInterval.
    repeat case_match; exact H.
  - unfold stop, clearAutoInterval. repeat case_match; exact H.
Qed.

Lemma run_invariant (evs : list event) (s : state) :
  timers_tracked s -> cycles_fresh s ->
  timers_tracked (run s evs) /\ cycles_fresh (run s evs).
Proof.
  revert s. induction evs as [|ev evs IH]; intros s Ht Hf; [split; assumption|].
  simpl. apply IH; [apply step_tracked, Ht|apply step_fresh, Hf].
Qed.

Lemma init_invariant : timers_tracked init /\ cycles_fresh init.
Proof.
  split; [reflexivity|]. intros c [x Hx]. simpl in Hx.
  rewrite lookup_empty in Hx. discriminate.
Qed.

Lemma tick_one_more (s : state) :
  cycles_fresh s -> cycles_in_flight (tick s) = S (cycles_in_flight s).
Proof.
  intros H. unfold cycles_in_flight, tick. simpl.
  apply map_size_insert_None.
  destruct (inflight s !! fresh_cycle s) eqn:E; [|reflexivity].
  assert (fresh_cycle s < fresh_cycle s) by (apply H; rewrite E; eauto). lia.
Qed.

Lemma run_exited (evs : list event) (s : state) :
  exited s = true -> run s evs = s.
Proof.
  intros H. induction evs as [|ev evs IH]; [reflexivity|].
  simpl. replace (step s ev) with s; [exact IH|].
  unfold step. rewrite H. reflexivity.
Qed.

End AutoModeLoop.

Section AutoModeClaims.
Import JS Chat.

(** C5 (amended): the service keeps at most one interval timer armed, the
    one it holds the handle of; a tick of that timer always starts a new
    callback invocation, also while earlier ones are still in flight
    (nothing is skipped, nothing is queued); a timer that is not armed
    does nothing. *)
Theorem C5_one_timer_every_tick_starts_a_cycle (evs : list event) (t : nat) :
  let s := run init evs in
  (timers s = ∅ \/
   exists t0, timers s = {[ t0 ]} /\ autoModeInterval s = Some t0) /\
  (exited s = false -> t ∈ timers s ->
     cycles_in_flight (step s (TimerFires t)) = S (cycles_in_flight s)) /\
  (t ∉ timers s -> step s (TimerFires t) = s).
Proof.
  cbv zeta.
  destruct init_invariant as [Ht0 Hf0].
  destruct (run_invariant evs init Ht0 Hf0) as [Ht Hf].
  split; [|split].
  - unfold timers_tracked in Ht.
    destruct (autoModeInterval (run init evs)) as [t0|]; eauto.
  - intros Hex Hin. unfold step. rewrite Hex.
    rewrite bool_decide_eq_true_2 by exact Hin.
    apply tick_one_more, Hf.
  - intros Hnot. unfold step. destruct (exited (run init evs)); [reflexivity|].
    rewrite bool_decide_eq_false_2 by exact Hnot. reflexivity.
Qed.

(** C6 (amended): [stop()] ends the process, so nothing is recorded after
    it.  A mode change away from auto only clears the interval timer: no
    further invocation starts, but an invocation already in flight runs to
    its end and its result is recorded. *)
Theorem C6_in_flight_cycle_still_records (evs : list event) (newMode : string) :
  let s := run init evs in
  (forall later, history (run (step s Stop) later) = history s) /\
  (exited s = false -> newMode <> "auto" ->
     let s' := step s (ModeChanged newMode) in
     timers s' = ∅ /\
     (forall t, step s' (TimerFires t) = s') /\
     (forall c a r,
         inflight s !! c = Some (AwaitAction a r) ->
         history (step s' (Settles c ActionSettled))
         = history s
             ++ [ {| role := "assistant";
                     content := ("Executed action: " ++ a_action a)%string |};
                  {| role := "assistant";
                     content := ("Result: " ++ r)%string |} ])).
Proof.
  cbv zeta.
  destruct init_invariant as [Ht0 Hf0].
  destruct (run_invariant evs init Ht0 Hf0) as [Ht Hf].
  set (s := run init evs) in *. split.
  - intros later. rewrite run_exited.
    + unfold step. destruct (exited s); [reflexivity|].
      unfold stop, clearAutoInterval. simpl.
      destruct (autoModeInterval s); reflexivity.
    + unfold step. destruct (exited s) eqn:E; [exact E|reflexivity].
  - intros Hex Hmode.
    assert (Hstep : step s (ModeChanged newMode) = clearAutoInterval true s).
    { unfold step, onModeChanged. rewrite Hex.
      destruct (String.eqb_spec newMode "auto"); [contradiction|reflexivity]. }
    rewrite Hstep.
    destruct (clearAutoInterval_tracked true s Ht) as [Hc _].
    assert (Hsame : exited (clearAutoInterval true s) = false
                    /\ inflight (clearAutoInterval true s) = inflight s
                    /\ history (clearAutoInterval true s) = history s).
    { unfold clearAutoInterval. destruct (autoModeInterval s); simpl; auto. }
    destruct Hsame as [Hex' [Hinf Hhist]].
    split; [exact Hc|]. split.
    + intros t. unfold step. rewrite Hex', Hc.
      rewrite bool_decide_eq_false_2; [reflexivity|]. apply not_elem_of_empty.
    + intros c a r Hc0. unfold step. rewrite Hex'.
      unfold resume. rewrite Hinf, Hc0. simpl. rewrite Hhist, <- app_assoc.
      reflexivity.
Qed.

End AutoModeClaims.

(** C5 as stated fails: auto mode is entered, the timer fires and the
    callback is suspended on its first await; the timer fires again and a
    second invocation starts next to the first. *)
Lemma C5_counterexample_overlapping_cycles :
  let s1 := Chat.run Chat.init [Chat.ModeChanged "auto"; Chat.TimerFires 0] in
  let s2 := Chat.step s1 (Chat.TimerFires 0) in
  Chat.cycles_in_flight s1 = 1 /\
  Chat.cycles_in_flight s2 = 2 /\
  Chat.inflight s2 !! 0 = Some Chat.AwaitMetrics /\
  Chat.inflight s2 !! 1 = Some Chat.AwaitMetrics /\
  s2 <> s1.
Proof.
  cbv zeta. split; [reflexivity|]. split; [reflexivity|].
  split; [reflexivity|]. split; [reflexivity|].
  intros H. apply (f_equal Chat.cycles_in_flight) in H.
  vm_compute in H. discriminate H.
Qed.

Lemma C5_witness_second_tick :
  let s1 := Chat.run Chat.init [Chat.ModeChanged "auto"; Chat.TimerFires 0] in
  Chat.timers s1 = {[ 0 ]} /\
  Chat.cycles_in_flight (Chat.step s1 (Chat.TimerFires 0))
    = S (Chat.cycles_in_flight s1) /\
  Chat.step s1 (Chat.TimerFires 7) = s1.
Proof.
  cbv zeta.
  pose proof (C5_one_timer_every_tick_starts_a_cycle
                [Chat.ModeChanged "auto"; Chat.TimerFires 0] 0) as [_ [H _]].
  pose proof (C5_one_timer_every_tick_starts_a_cycle
                [Chat.ModeChanged "auto"; Chat.TimerFires 0] 7) as [_ [_ H7]].
  assert (E : Chat.timers
                (Chat.run Chat.init [Chat.ModeChanged "auto"; Chat.TimerFires 0])
              = {[ 0 ]}) by reflexivity.
  split; [exact E|]. split.
  - apply H; [reflexivity|]. rewrite E. apply elem_of_singleton_2. reflexivity.
  - apply H7. rewrite E. intros Hin. apply elem_of_singleton_1 in Hin.
    discriminate Hin.
Defined.

(** C6 as stated fails: a cycle starts in auto mode, the mode changes to
    chat while the cycle awaits the market metrics, the awaited calls
    settle afterwards, and the result of the cycle is recorded. *)
Lemma C6_counterexample_recorded_after_mode_change :
  let before :=
    Chat.run Chat.init
      [Chat.ModeChanged "auto"; Chat.TimerFires 0; Chat.ModeChanged "chat"] in
  let after :=
    Chat.run before
      [Chat.Settles 0 Chat.metrics_ok; Chat.Settles 0 Chat.analysis_ok;
       Chat.Settles 0 Chat.ActionSettled] in
  Chat.autoModeInterval before = None /\
  Chat.cycles_in_flight before = 1 /\
  Chat.history before = [] /\
  Chat.history after
  = [ {| Chat.role := "assistant"; Chat.content := "Executed action: BUY" |};
      {| Chat.role := "assistant";
         Chat.content := "Result: Executed BUY with confidence 0.9" |} ].
Proof.
  cbv zeta. repeat split; reflexivity.
Qed.

Lemma C6_witness_mode_change_then_settle :
  let s :=
    Chat.run Chat.init
      [Chat.ModeChanged "auto"; Chat.TimerFires 0;
       Chat.Settles 0 Chat.metrics_ok; Chat.Settles 0 Chat.analysis_ok] in
  let s' := Chat.step s (Chat.ModeChanged "chat") in
  Chat.timers s' = ∅ /\
  Chat.step s' (Chat.TimerFires 0) = s' /\
  Chat.history (Chat.step s' (Chat.Settles 0 Chat.ActionSettled))
  = [ {| Chat.role := "assistant"; Chat.content := "Executed action: BUY" |};
      {| Chat.role := "assistant";
         Chat.content := "Result: Executed BUY with confidence 0.9" |} ] /\
  Chat.history (Chat.run (Chat.step s Chat.Stop)
                  [Chat.Settles 0 Chat.ActionSettled]) = [].
Proof.
  cbv zeta.
  pose proof (C6_in_flight_cycle_still_records
                [Chat.ModeChanged "auto"; Chat.TimerFires 0;
                 Chat.Settles 0 Chat.metrics_ok; Chat.Settles 0 Chat.analysis_ok]
                "chat") as [Hstop Hmode].
  destruct (Hmode eq_refl ltac:(discriminate)) as [Ht [Hno Hrec]].
  split; [exact Ht|]. split; [apply Hno|]. split.
  - apply (Hrec 0 Chat.buy "Executed BUY with confidence 0.9"). reflexivity.
  - apply Hstop.
Defined.

(* ===================================================================== *)
(** ** Further properties of the retrying poster                          *)
(* ===================================================================== *)

Section BackoffBudget.
Import JS Twitter Backoff.
Context {W : Type}.
Variable tweet : string -> W -> completion unit * W.
Variable llm_chat : W -> completion string * W.
Variable getMarketData : W -> completion MarketData * W.

Lemma sum_linear_seq (a m : nat) :
  (2 * List.fold_right Z.add 0
         (List.map (fun k => baseWaitTime * Z.of_nat k) (List.seq a m))
   = baseWaitTime * Z.of_nat m * (2 * Z.of_nat a + Z.of_nat m - 1))%Z.
Proof.
  revert a. induction m as [|m IH]; intros a.
  - simpl. lia.
  - cbn [List.seq List.map List.fold_right].
    rewrite Z.mul_add_distr_l, (IH (S a)). unfold baseWaitTime. lia.
Qed.

Lemma retry_from_run (n i : nat) (content : string) (e0 : exn) (w : W) :
  let r := retry_from tweet n i content e0 w in
  match failures_before_success tweet n content w with
  | Some f =>
      f < n /\ outcome r = Returns tt /\ attempts (trace r) = S f /\
      delays (trace r)
      = List.map (fun k => baseWaitTime * Z.of_nat k)%Z (List.seq (S i) f)
  | None =>
      (exists e, outcome r = Throws e /\ (n = 0 -> e = e0)) /\
      attempts (trace r) = n /\
      delays (trace r)
      = List.map (fun k => baseWaitTime * Z.of_nat k)%Z (List.seq (S i) n)
  end.
Proof.
  revert i e0 w. induction n as [|n IH]; intros i e0 w; simpl.
  - split; [exists e0; split; [reflexivity|reflexivity]|]. split; reflexivity.
  - destruct (tweet content w) as [[[]|error] w'] eqn:Etweet.
    + unfold outcome, trace, attempts. simpl.
      split; [lia|]. repeat split; reflexivity.
    + specialize (IH (S i) error w'). cbv zeta in IH.
      destruct (retry_from tweet n (S i) content error w') as [[c tr] w''].
      unfold outcome, trace, attempts in *. simpl in *.
      replace (i + 1) with (S i) by lia.
      destruct (failures_before_success tweet n content w') as [f|]; simpl.
      * destruct IH as [Hlt [Hout [Hatt Hdel]]].
        split; [lia|]. split; [exact Hout|]. split; [lia|].
        f_equal. exact Hdel.
      * destruct IH as [[e [Hout _]] [Hatt Hdel]].
        split; [exists e; split; [exact Hout|discriminate]|].
        split; [lia|]. f_equal. exact Hdel.
Qed.

(** X1: what a run of [postTweetWithRetry] costs.  If the sink first
    resolves after [f] rejections ([f < retries]) the poster returns after
    exactly [f + 1] attempts, having slept 5000 * (1 + ... + f) ms; if all
    [retries] calls reject it throws after exactly [retries] attempts,
    having slept 5000 * (1 + ... + retries) ms, and with [retries = 0] it
    throws [undefined] without a single attempt. *)
Theorem postTweetWithRetry_attempts_and_total_delay
    (content : string) (retries : nat) (w : W) :
  let r := postTweetWithRetry tweet content retries w in
  match failures_before_success tweet retries content w with
  | Some f =>
      f < retries /\ outcome r = Returns tt /\
      attempts (trace r) = S f /\
      (2 * total_delay (trace r) = 5000 * Z.of_nat f * (Z.of_nat f + 1))%Z
  | None =>
      (exists e, outcome r = Throws e /\ (retries = 0 -> e = Undefined)) /\
      attempts (trace r) = retries /\
      (2 * total_delay (trace r)
       = 5000 * Z.of_nat retries * (Z.of_nat retries + 1))%Z
  end.
Proof.
  cbv zeta. unfold postTweetWithRetry, total_delay.
  pose proof (retry_from_run retries 0 content Undefined w) as H.
  cbv zeta in H.
  destruct (failures_before_success tweet retries content w) as [f|].
  - destruct H as [Hlt [Hout [Hatt Hdel]]].
    split; [exact Hlt|]. split; [exact Hout|]. split; [exact Hatt|].
    rewrite Hdel, sum_linear_seq. unfold baseWaitTime. lia.
  - destruct H as [Hex [Hatt Hdel]].
    split; [exact Hex|]. split; [exact Hatt|].
    rewrite Hdel, sum_linear_seq. unfold baseWaitTime. lia.
Qed.

Lemma generateTweetContent_trace_no_tweet (w : W) :
  attempts (trace (generateTweetContent llm_chat w)) = 0.
Proof.
  unfold generateTweetContent.
  destruct (llm_chat w) as [[m|e] w']; [|reflexivity].
  destruct (String.eqb m EmptyString); reflexivity.
Qed.


End BackoffBudget.


(* ===================================================================== *)
(** ** Jupiter swaps                                                      *)
(* ===================================================================== *)

Section SwapSafety.
Import JS Swap.

(** X3: [validateSwapAmount] accepts exactly NaN and the finite amounts
    [a] with [0 < a <= 1000] that, when the output is ELONA, are not below
    the literal 0.01.  In particular NaN passes every check, and both
    infinities are refused. *)
Theorem validateSwapAmount_accepts_iff (amount : number) (outputMint : string) :
  validateSwapAmount amount outputMint = true <->
  amount = NaN \/
  exists a : Q,
    amount = Fin a /\ (0 < a)%Q /\ (a <= 1000)%Q /\
    (outputMint = ELONA -> (5764607523034235 # 576460752303423488 <= a)%Q).
Proof.
  unfold validateSwapAmount, le, lt, lit_0_01, zero, ofZ.
  destruct amount as [| |a|]; simpl.
  - rewrite andb_false_r. split; [intros _; left; reflexivity|reflexivity].
  - split; [discriminate|]. intros [H|[a [H _]]]; discriminate H.
  - change (inject_Z 1000) with 1000%Q.
    destruct (Qle_bool a 0) eqn:E0.
    + split; [discriminate|]. intros [H|[b [Hb [Hpos _]]]]; [discriminate H|].
      injection Hb as <-. apply Qle_bool_iff in E0.
      exfalso. eapply Qlt_not_le; eauto.
    + assert (Hpos : (0 < a)%Q).
      { apply Qnot_le_lt. intros Hle. apply Qle_bool_iff in Hle. congruence. }
      destruct (String.eqb_spec outputMint ELONA) as [Hm|Hm]; simpl.
      * destruct (Qle_bool (5764607523034235 # 576460752303423488) a) eqn:E1;
          simpl.
        -- apply Qle_bool_iff in E1.
           destruct (Qle_bool a 1000) eqn:E2; simpl.
           ++ apply Qle_bool_iff in E2. split; [|reflexivity].
              intros _. right. exists a. auto.
           ++ split; [discriminate|].
              intros [H|[b [Hb [_ [Hle _]]]]]; [discriminate H|].
              injection Hb as <-. apply Qle_bool_iff in Hle. congruence.
        -- split; [discriminate|].
           intros [H|[b [Hb [_ [_ Hmin]]]]]; [discriminate H|].
           injection Hb as <-. specialize (Hmin Hm).
           apply Qle_bool_iff in Hmin. congruence.
      * destruct (Qle_bool a 1000) eqn:E2; simpl.
        -- apply Qle_bool_iff in E2. split; [|reflexivity].
           intros _. right. exists a. repeat split; auto. contradiction.
        -- split; [discriminate|].
           intros [H|[b [Hb [_ [Hle _]]]]]; [discriminate H|].
           injection Hb as <-. apply Qle_bool_iff in Hle. congruence.
  - rewrite andb_false_r. split; [discriminate|].
    intros [H|[a [H _]]]; discriminate H.
Qed.

Context {W : Type}.
Variable fetch_quote : QuoteRequest -> W -> completion (Response (option SwapQuote)) * W.
Variable fetch_swap : SwapQuote -> string -> W -> completion (Response string) * W.
Variable getBalance : W -> completion (option WalletInfo) * W.
Variable signAndSendTransaction : string -> W -> completion string * W.
Variable deserialize : string -> option string.
Variable lamports_text : number -> string.

Local Abbreviation quote' := (getSwapQuote fetch_quote lamports_text).
Local Abbreviation swap' :=
  (swapSolToToken fetch_quote fetch_swap getBalance signAndSendTransaction
                  deserialize lamports_text).

Lemma getSwapQuote_trace (amount : number) (mint : string) (w : W) :
  signatures (snd (fst (quote' amount mint w))) = [] /\
  exists rest,
    snd (fst (quote' amount mint w))
    = FetchQuote (quote_request lamports_text amount mint) :: rest.
Proof.
  unfold getSwapQuote. cbv zeta.
  destruct (fetch_quote _ w) as [[response|e] w1]; [|split; eauto].
  destruct (ok response).
  - destruct (json response); split; eauto.
  - destruct (text response); split; eauto.
Qed.

Lemma prepareSwapTransaction_no_signature (q : SwapQuote) (pk : string) (w : W) :
  signatures (snd (fst (prepareSwapTransaction fetch_swap deserialize q pk w))) = [].
Proof.
  unfold prepareSwapTransaction. cbv zeta.
  destruct (fetch_swap q pk w) as [[response|e] w1]; [|reflexivity].
  destruct (ok response).
  - destruct (json response) as [t|e]; [|reflexivity].
    destruct (deserialize t); reflexivity.
  - destruct (text response); reflexivity.
Qed.

Lemma signatures_app (a b : list event) :
  signatures (a ++ b) = signatures a ++ signatures b.
Proof. unfold signatures. apply List.filter_app. Qed.

(** X4: [swapSolToToken] hands at most one transaction to the wallet, and
    only after the amount passed validation, a quote was obtained and the
    wallet balance was read and is not below the amount; it reports success
    exactly when that signature came back.  An amount that fails validation
    is refused before any network or wallet call is made.  Every quote is
    requested from SOL, with slippage 1000 bps and direct routes only for
    ELONA, and 50 bps otherwise. *)
Theorem swapSolToToken_signs_only_when_valid_and_funded
    (amount : number) (mint : string) (w : W) :
  let r := swap' amount mint w in
  let tr := snd (fst r) in
  length (signatures tr) <= 1 /\
  (signatures tr <> [] ->
     validateSwapAmount amount mint = true /\
     exists quote info w2,
       fst (fst (quote' amount mint w)) = Some quote /\
       getBalance (snd (quote' amount mint w)) = (Returns (Some info), w2) /\
       lt (balance info) amount = false) /\
  (r_status (fst (fst r)) = success <->
     signatures tr <> [] /\ exists sig, r_signature (fst (fst r)) = Some sig) /\
  (validateSwapAmount amount mint = false ->
     tr = [] /\ snd r = w /\
     r_message (fst (fst r)) = Some "Invalid swap amount") /\
  (forall req, In (FetchQuote req) tr ->
     q_inputMint req = SOL /\ q_outputMint req = mint /\
     q_slippageBps req = (if String.eqb mint ELONA then 1000 else 50)%Z /\
     q_onlyDirectRoutes req = String.eqb mint ELONA).
Proof.
  cbv zeta. unfold swapSolToToken.
  destruct (validateSwapAmount amount mint) eqn:Evalid; simpl negb; cbv iota.
  2:{ simpl. split; [lia|]. split; [congruence|]. split.
      - split; [discriminate|]. intros [H _]. congruence.
      - split; [auto|]. intros req []. }
  pose proof (getSwapQuote_trace amount mint w) as [Hq0 [rest Hq1]].
  destruct (quote' amount mint w) as [[q tr1] w1] eqn:Equote.
  simpl in Hq0, Hq1.
  assert (Hreq : forall tail req,
             In (FetchQuote req) (tr1 ++ tail) ->
             (forall x, In x tail -> x <> FetchQuote req) ->
             req = quote_request lamports_text amount mint).
  { intros tail req Hin Htail. apply in_app_or in Hin.
    destruct Hin as [Hin|Hin]; [|exfalso; eapply Htail; eauto].
    rewrite Hq1 in Hin. destruct Hin as [Heq|Hin]; [congruence|].
    assert (Hrest : forall x, In x rest -> exists m, x = LogError m).
    { clear -Equote Hq1. unfold getSwapQuote in Equote. cbv zeta in Equote.
      destruct (fetch_quote _ w) as [[response|e] w0].
      - destruct (ok response).
        + destruct (json response); injection Equote as _ <- _;
            injection Hq1 as <-; intros x Hx; simpl in Hx;
            intuition (subst; eauto).
        + destruct (text response); injection Equote as _ <- _;
            injection Hq1 as <-; intros x Hx; simpl in Hx;
            intuition (subst; eauto).
      - injection Equote as _ <- _. injection Hq1 as <-.
        intros x Hx; simpl in Hx; intuition (subst; eauto). }
    destruct (Hrest _ Hin) as [m Hm]. discriminate Hm. }
  assert (Hparams : forall req,
             req = quote_request lamports_text amount mint ->
             q_inputMint req = SOL /\ q_outputMint req = mint /\
             q_slippageBps req = (if String.eqb mint ELONA then 1000 else 50)%Z /\
             q_onlyDirectRoutes req = String.eqb mint ELONA).
  { intros req ->. repeat split; reflexivity. }
  destruct q as [quote|].
  2:{ simpl. rewrite Hq0. simpl. split; [lia|]. split; [congruence|]. split.
      - split; [discriminate|]. intros [H _]. congruence.
      - split; [discriminate|]. intros req Hin. apply Hparams.
        apply (Hreq [] req); [rewrite app_nil_r; exact Hin|].
        intros x []. }
  destruct (getBalance w1) as [[walletInfo|e] w2] eqn:Ebal.
  2:{ simpl. rewrite signatures_app, Hq0. simpl. split; [lia|].
      split; [congruence|]. split.
      - split; [destruct e; discriminate|]. intros [H _]. congruence.
      - split; [discriminate|]. intros req Hin. apply Hparams.
        apply (Hreq _ req Hin).
        intros x [<-|[<-|[]]]; discriminate. }
  cbv zeta.
  destruct walletInfo as [info|].
  2:{ simpl. rewrite signatures_app, Hq0. simpl. split; [lia|].
      split; [congruence|]. split.
      - split; [discriminate|]. intros [H _]. congruence.
      - split; [discriminate|]. intros req Hin. apply Hparams.
        apply (Hreq _ req Hin).
        intros x [<-|[]]; discriminate. }
  destruct (lt (balance info) amount) eqn:Efunds.
  { simpl. rewrite signatures_app, Hq0. simpl. split; [lia|].
    split; [congruence|]. split.
    - split; [discriminate|]. intros [H _]. congruence.
    - split; [discriminate|]. intros req Hin. apply Hparams.
      apply (Hreq _ req Hin).
      intros x [<-|[]]; discriminate. }
  pose proof (prepareSwapTransaction_no_signature quote (address info) w2) as Hp.
  assert (Hp3 : forall x,
             In x (snd (fst (prepareSwapTransaction fetch_swap deserialize
                                quote (address info) w2))) ->
             forall req, x <> FetchQuote req).
  { unfold prepareSwapTransaction. cbv zeta.
    destruct (fetch_swap quote (address info) w2) as [[response|e] w3'].
    - destruct (ok response).
      + destruct (json response) as [t|e].
        * destruct (deserialize t); intros x Hx req; simpl in Hx;
            intuition (subst; discriminate).
        * intros x Hx req; simpl in Hx; intuition (subst; discriminate).
      + destruct (text response); intros x Hx req; simpl in Hx;
          intuition (subst; discriminate).
    - intros x Hx req; simpl in Hx; intuition (subst; discriminate). }
  destruct (prepareSwapTransaction fetch_swap deserialize quote (address info) w2)
    as [[transaction tr3] w3].
  simpl in Hp, Hp3.
  assert (Hknown : exists quote0 info0 w0,
             Some quote = Some quote0 /\
             getBalance w1 = (Returns (Some info0), w0) /\
             lt (balance info0) amount = false)
    by (exists quote, info, w2; auto).
  destruct transaction as [tx|].
  2:{ simpl. rewrite !signatures_app, Hq0, Hp. simpl. split; [lia|].
      split; [congruence|]. split.
      - split; [discriminate|]. intros [H _]. congruence.
      - split; [discriminate|]. intros req Hin. apply Hparams.
        rewrite <- app_assoc in Hin.
        apply (Hreq _ req Hin).
        intros x Hx. simpl in Hx.
        destruct Hx as [<-|[<-|Hx]]; try discriminate. apply Hp3, Hx. }
  destruct (signAndSendTransaction tx w3) as [[sig|e] w4]; simpl;
    rewrite !signatures_app, Hq0, Hp; simpl.
  - split; [lia|]. split; [intros _; split; [reflexivity|exact Hknown]|]. split.
    + split; [|reflexivity]. intros _. split; [discriminate|eauto].
    + split; [discriminate|]. intros req Hin. apply Hparams.
      rewrite <- app_assoc in Hin.
      apply (Hreq _ req Hin).
      intros x Hx. simpl in Hx.
      destruct Hx as [<-|[<-|Hx]]; try discriminate.
      apply in_app_or in Hx. destruct Hx as [Hx|[<-|[]]];
        [apply Hp3, Hx|discriminate].
  - split; [lia|]. split; [intros _; split; [reflexivity|exact Hknown]|]. split.
    + split; [destruct e; discriminate|]. intros [_ [sig0 H]].
      destruct e; discriminate H.
    + split; [discriminate|]. intros req Hin. apply Hparams.
      rewrite <- app_assoc in Hin.
      apply (Hreq _ req Hin).
      intros x Hx. simpl in Hx.
      destruct Hx as [<-|[<-|Hx]]; try discriminate.
      apply in_app_or in Hx. destruct Hx as [Hx|[<-|[<-|[]]]];
        [apply Hp3, Hx|discriminate|discriminate].
Qed.

End SwapSafety.

Lemma validateSwapAmount_accepts_iff_witness :
  Swap.validateSwapAmount (JS.ofZ 1) Swap.ELONA = true /\
  Swap.validateSwapAmount (JS.Fin (1 # 1000)) Swap.ELONA = false /\
  Swap.validateSwapAmount (JS.Fin (1 # 1000)) Swap.USDC = true /\
  Swap.validateSwapAmount JS.NaN Swap.ELONA = true.
Proof.
  split; [|split; [|split]].
  - apply validateSwapAmount_accepts_iff. right. exists 1%Q.
    repeat split; try reflexivity; discriminate.
  - destruct (Swap.validateSwapAmount (JS.Fin (1 # 1000)) Swap.ELONA) eqn:E;
      [|reflexivity].
    apply validateSwapAmount_accepts_iff in E.
    destruct E as [E|[a [Ha [_ [_ Hmin]]]]]; [discriminate E|].
    injection Ha as <-. specialize (Hmin eq_refl).
    exfalso. apply Hmin. reflexivity.
  - apply validateSwapAmount_accepts_iff. right. exists (1 # 1000)%Q.
    repeat split; try reflexivity; discriminate.
  - apply validateSwapAmount_accepts_iff. left. reflexivity.
Defined.

Lemma swapSolToToken_signs_only_when_valid_and_funded_witness :
  let run sol amount :=
    Swap.swapSolToToken Swap.quote_ok Swap.swap_ok (Swap.wallet_with sol)
      Swap.sign_ok (fun s => Some s) (fun _ => "1000000000")
      amount Swap.ELONA tt in
  (Swap.r_status (fst (fst (run (JS.ofZ 5) (JS.ofZ 1)))) = Swap.success /\
   length (Swap.signatures (snd (fst (run (JS.ofZ 5) (JS.ofZ 1))))) = 1) /\
  Swap.signatures (snd (fst (run (JS.ofZ 5) (JS.ofZ 7)))) = [] /\
  snd (fst (run (JS.ofZ 5) (JS.ofZ 0))) = [].
Proof.
  cbv zeta.
  pose proof (swapSolToToken_signs_only_when_valid_and_funded
                Swap.quote_ok Swap.swap_ok (Swap.wallet_with (JS.ofZ 5))
                Swap.sign_ok (fun s => Some s) (fun _ => "1000000000")
                (JS.ofZ 1) Swap.ELONA tt) as [H1 [_ [H3 _]]].
  pose proof (swapSolToToken_signs_only_when_valid_and_funded
                Swap.quote_ok Swap.swap_ok (Swap.wallet_with (JS.ofZ 5))
                Swap.sign_ok (fun s => Some s) (fun _ => "1000000000")
                (JS.ofZ 7) Swap.ELONA tt) as [_ [H7 _]].
  pose proof (swapSolToToken_signs_only_when_valid_and_funded
                Swap.quote_ok Swap.swap_ok (Swap.wallet_with (JS.ofZ 5))
                Swap.sign_ok (fun s => Some s) (fun _ => "1000000000")
                (JS.ofZ 0) Swap.ELONA tt) as [_ [_ [_ [H0 _]]]].
  split; [split|split].
  - apply H3. split; [discriminate|]. eexists. reflexivity.
  - reflexivity.
  - match goal with |- ?sigs = [] => destruct sigs as [|s l] eqn:E end;
      [reflexivity|].
    destruct (H7 ltac:(discriminate))
      as [_ [q [info [w2 [_ [Hb Hlt]]]]]].
    injection Hb as <- _. discriminate Hlt.
  - apply (H0 eq_refl).
Defined.

Section TokenLookupFacts.
Import JS Swap.
Context {W : Type}.
Variable fetch_token : string -> W -> completion (Response TokenInfo) * W.
Variable number_text : number -> string.

(** X5: [getTokenInfo] answers [null] exactly when the token endpoint
    replied 404; any other non-2xx status is thrown as an error, and every
    metadata record it returns has 9 decimals.  [fetchTokenInfo] never
    throws: it reports "not found" exactly on a 404 and "unable to fetch"
    exactly when [getTokenInfo] threw. *)
Theorem getTokenInfo_null_iff_404 (mint : string) (w : W) :
  let r := getTokenInfo fetch_token mint w in
  let msg := fst (fst (fetchTokenInfo fetch_token number_text mint w)) in
  (fst (fst r) = Returns None <-> http_failure fetch_token mint w = Some 404) /\
  (forall code, http_failure fetch_token mint w = Some code -> code <> 404 ->
     fst (fst r)
     = Throws (Error ("HTTP error! status: "
                        ++ NilZero.string_of_uint (Nat.to_uint code)))) /\
  (forall meta, fst (fst r) = Returns (Some meta) -> tm_decimals meta = 9%Z) /\
  (msg = not_found mint <-> http_failure fetch_token mint w = Some 404) /\
  (msg = unavailable <-> returned (fst (fst r)) = false).
Proof.
  cbv zeta. unfold fetchTokenInfo, getTokenInfo, http_failure, lookup_caught.
  destruct (fetch_token mint w) as [[response|e] w1]; simpl.
  - destruct (ok response); simpl.
    + destruct (json response) as [data|e]; simpl.
      * destruct (extensions data) as [ext|]; simpl;
          repeat split; try discriminate; try congruence;
          try (intros meta [= <-]; reflexivity).
      * repeat split; try discriminate; try congruence.
    + destruct (Nat.eqb_spec (status response) 404) as [E|E]; simpl.
      * rewrite E. repeat split; try discriminate; try congruence.
      * repeat split; try discriminate; try congruence;
          try (intros code [= <-] _; reflexivity).
  - repeat split; try discriminate; try congruence.
Qed.

End TokenLookupFacts.

Lemma getTokenInfo_null_iff_404_witness :
  fst (fst (Swap.getTokenInfo Swap.token_missing "mint" tt)) = JS.Returns None /\
  fst (fst (Swap.fetchTokenInfo Swap.token_missing (fun _ => "0") "mint" tt))
  = "Token information for mint not found.".
Proof.
  pose proof (getTokenInfo_null_iff_404 Swap.token_missing (fun _ => "0")
                "mint" tt) as [H1 [_ [_ [H4 _]]]].
  split; [apply H1; reflexivity|apply H4; reflexivity].
Defined.

(* ===================================================================== *)
(** ** Start-up                                                           *)
(* ===================================================================== *)

Section StartupFacts.
Import JS Startup.

(** X6: [validateEnvironment] returns normally exactly when each of the
    nine required variables is bound to a non-empty string; otherwise it
    throws one error whose message lists precisely the required variables
    that are unset, in declaration order. *)
Theorem validateEnvironment_passes_iff (env : gmap string string) :
  (validateEnvironment env = Returns tt <->
   forall key, In key requiredEnvVars ->
     exists v, env !! key = Some v /\ v <> EmptyString) /\
  (validateEnvironment env <> Returns tt ->
   validateEnvironment env
   = Throws (Error ("Missing required environment variables: "
                      ++ String.concat ", " (missing env)))) /\
  (forall key, In key (missing env) <->
     In key requiredEnvVars /\ is_set env key = false).
Proof.
  assert (Hmiss : forall key, In key (missing env) <->
                    In key requiredEnvVars /\ is_set env key = false).
  { intros key. unfold missing. rewrite List.filter_In, negb_true_iff.
    reflexivity. }
  assert (Hset : forall key, is_set env key = true <->
                   exists v, env !! key = Some v /\ v <> EmptyString).
  { intros key. unfold is_set. destruct (env !! key) as [v|].
    - destruct (String.eqb_spec v EmptyString) as [->|Hne]; simpl.
      + split; [discriminate|]. intros [v' [[= <-] Hv]]. contradiction.
      + split; [eauto|reflexivity].
    - split; [discriminate|]. intros [v [H _]]. discriminate H. }
  split; [|split; [|exact Hmiss]].
  - unfold validateEnvironment. destruct (missing env) as [|k l] eqn:E.
    + split; [|reflexivity]. intros _ key Hin. apply Hset.
      destruct (is_set env key) eqn:Ek; [reflexivity|].
      destruct (proj2 (Hmiss key) (conj Hin Ek)).
    + split; [discriminate|]. intros Hall.
      destruct (proj1 (Hmiss k) (or_introl eq_refl)) as [Hin Hunset].
      apply Hall, Hset in Hin. congruence.
  - unfold validateEnvironment. destruct (missing env); [congruence|reflexivity].
Qed.

Lemma substring_all (s : string) (m : nat) :
  String.length s <= m -> substring 0 m s = s.
Proof.
  revert m. induction s as [|c s IH]; intros m Hlen.
  - destruct m; reflexivity.
  - destruct m as [|m]; simpl in *; [lia|]. rewrite IH by lia. reflexivity.
Qed.

Lemma substring_suffix (s : string) (n m : nat) :
  n <= String.length s -> String.length s <= n + m ->
  exists p, s = (p ++ substring n m s)%string /\ String.length p = n.
Proof.
  revert n. induction s as [|c s IH]; intros n Hn Hm.
  - simpl in Hn. assert (n = 0) as -> by lia.
    exists EmptyString. destruct m; split; reflexivity.
  - destruct n as [|n].
    + exists EmptyString. rewrite substring_all by exact Hm. split; reflexivity.
    + simpl in *. destruct (IH n ltac:(lia) ltac:(lia)) as [p [Hp Hlen]].
      exists (String c p). split; [rewrite Hp at 1; reflexivity|simpl; lia].
Qed.

Lemma substring_length_le (s : string) (n m : nat) :
  String.length (substring n m s) <= Nat.min m (String.length s - n).
Proof.
  revert n m. induction s as [|c s IH]; intros n m.
  - destruct n, m; simpl; lia.
  - destruct n as [|n].
    + destruct m as [|m]; simpl; [lia|]. specialize (IH 0 m).
      rewrite Nat.sub_0_r in IH. lia.
    + simpl. apply IH.
Qed.

Lemma string_length_append (a b : string) :
  String.length (a ++ b)%string = String.length a + String.length b.
Proof.
  induction a as [|c a IH]; [reflexivity|].
  change (S (String.length (a ++ b)%string) = S (String.length a) + String.length b).
  rewrite IH. reflexivity.
Qed.

Lemma slice_last4_spec (v : string) :
  String.length (slice_last4 v) = Nat.min 4 (String.length v) /\
  exists p, v = (p ++ slice_last4 v)%string.
Proof.
  unfold slice_last4.
  destruct (substring_suffix v (String.length v - 4) 4 ltac:(lia) ltac:(lia))
    as [p [Hp Hlen]].
  split; [|exists p; exact Hp].
  apply (f_equal String.length) in Hp.
  rewrite string_length_append, Hlen in Hp. lia.
Qed.

(** X7: the environment lines of [logConfiguration] show at most the last
    four characters of a secret.  A set variable is logged as ["****"]
    followed by a suffix of its value of length [min 4 (length value)], so a
    value of four characters or fewer is logged in full; an unset or empty
    one as ["Not set"]; and two environments that agree on those suffixes
    produce the same log. *)
Theorem logConfiguration_shows_last_four_only
    (CONFIG : SolanaConfig) (env env' : gmap string string) :
  (forall key v, env !! key = Some v -> v <> EmptyString ->
     exists shown prefix,
       redact (env !! key) = ("****" ++ shown)%string /\
       v = (prefix ++ shown)%string /\
       String.length shown = Nat.min 4 (String.length v) /\
       (String.length v <= 4 -> shown = v)) /\
  (forall key, is_set env key = false -> redact (env !! key) = "Not set") /\
  ((forall key, In key loggedEnvVars ->
      visible (env !! key) = visible (env' !! key)) ->
   logConfiguration CONFIG env = logConfiguration CONFIG env').
Proof.
  split; [|split].
  - intros key v Hv Hne. rewrite Hv. unfold redact.
    destruct (String.eqb_spec v EmptyString) as [->|_]; [contradiction|].
    destruct (slice_last4_spec v) as [Hlen [p Hp]].
    exists (slice_last4 v), p. repeat split; auto.
    intros Hshort. unfold slice_last4.
    replace (String.length v - 4) with 0 by lia.
    apply substring_all, Hshort.
  - intros key. unfold is_set, redact. destruct (env !! key) as [v|]; [|reflexivity].
    destruct (String.eqb v EmptyString); [reflexivity|discriminate].
  - intros Hsame. unfold logConfiguration. f_equal.
    apply List.map_ext_in. intros key Hin. specialize (Hsame key Hin).
    unfold visible, redact in *.
    destruct (env !! key) as [v|], (env' !! key) as [v'|];
      repeat match goal with
             | H : context [String.eqb ?x EmptyString] |- _ =>
                 destruct (String.eqb x EmptyString)
             end;
      try discriminate; try reflexivity.
    injection Hsame as ->. reflexivity.
Qed.

Lemma handleChoice_skips_invalid (bad rest : list string) :
  Forall (fun c => choice_of c = None) bad ->
  fst (handleChoice (bad ++ rest)) = fst (handleChoice rest) /\
  warnings (snd (handleChoice (bad ++ rest)))
  = length bad + warnings (snd (handleChoice rest)).
Proof.
  induction 1 as [|c bad Hc _ IH]; [split; reflexivity|].
  simpl. rewrite Hc. destruct IH as [IH1 IH2].
  destruct (handleChoice (bad ++ rest)) as [mode out]. simpl in *.
  unfold warnings in *. simpl. split; [exact IH1|]. lia.
Qed.

(** X8: on chunks of ASCII text, [selectMode] resolves with the mode of
    the first chunk of input that, trimmed and lower-cased, is ["1"],
    ["chat"], ["2"] or ["auto"].  Every chunk before it gets one warning
    and a new prompt; nothing after it is read; while no chunk is valid the
    promise stays pending. *)
Theorem selectMode_first_valid_choice (bad : list string) :
  Forall (fun c => JS.ascii_only c = true) bad ->
  Forall (fun c => choice_of c = None) bad ->
  (forall good rest mode,
      JS.ascii_only good = true ->
      choice_of good = Some mode ->
      fst (selectMode (bad ++ good :: rest)) = Some mode /\
      warnings (snd (selectMode (bad ++ good :: rest))) = length bad) /\
  fst (selectMode bad) = None /\
  warnings (snd (selectMode bad)) = length bad.
Proof.
  intros _ Hbad. split.
  - intros good rest mode _ Hgood.
    destruct (handleChoice_skips_invalid bad (good :: rest) Hbad) as [H1 H2].
    unfold selectMode.
    destruct (handleChoice (bad ++ good :: rest)) as [m out]. simpl in *.
    rewrite Hgood in H1, H2. simpl in *. split; [exact H1|].
    unfold warnings in *. simpl in *. lia.
  - destruct (handleChoice_skips_invalid bad [] Hbad) as [H1 H2].
    rewrite app_nil_r in H1, H2. unfold selectMode.
    destruct (handleChoice bad) as [m out]. simpl in *.
    split; [exact H1|]. unfold warnings in *. simpl in *. lia.
Qed.

End StartupFacts.

Lemma validateEnvironment_passes_iff_witness :
  Startup.validateEnvironment ∅
  = JS.Throws
      (JS.Error
         ("Missing required environment variables: "
            ++ String.concat ", " Startup.requiredEnvVars)).
Proof.
  pose proof (validateEnvironment_passes_iff ∅) as [_ [H _]].
  rewrite H; [reflexivity|]. discriminate.
Defined.

Lemma logConfiguration_shows_last_four_only_witness :
  Startup.redact (({[ "TWITTER_API_KEY" := "abc" ]} : gmap string string)
                    !! "TWITTER_API_KEY") = "****abc" /\
  Startup.logConfiguration
    {| Startup.NETWORK := "mainnet"; Startup.RPC_URL := "rpc";
       Startup.PUBLIC_KEY := "pk" |}
    {[ "TWITTER_API_KEY" := "secret-1234" ]}
  = Startup.logConfiguration
      {| Startup.NETWORK := "mainnet"; Startup.RPC_URL := "rpc";
         Startup.PUBLIC_KEY := "pk" |}
      {[ "TWITTER_API_KEY" := "other-secret-1234" ]}.
Proof.
  pose proof (logConfiguration_shows_last_four_only
                {| Startup.NETWORK := "mainnet"; Startup.RPC_URL := "rpc";
                   Startup.PUBLIC_KEY := "pk" |}
                {[ "TWITTER_API_KEY" := "abc" ]}
                {[ "TWITTER_API_KEY" := "abc" ]}) as [H1 _].
  pose proof (logConfiguration_shows_last_four_only
                {| Startup.NETWORK := "mainnet"; Startup.RPC_URL := "rpc";
                   Startup.PUBLIC_KEY := "pk" |}
                {[ "TWITTER_API_KEY" := "secret-1234" ]}
                {[ "TWITTER_API_KEY" := "other-secret-1234" ]}) as [_ [_ H3]].
  split.
  - destruct (H1 "TWITTER_API_KEY" "abc" eq_refl ltac:(discriminate))
      as [shown [prefix [Hr [_ [_ Hfull]]]]].
    rewrite Hr, (Hfull ltac:(simpl; lia)). reflexivity.
  - apply H3. intros key Hin. simpl in Hin.
    repeat (destruct Hin as [<-|Hin]; [reflexivity|]). destruct Hin.
Defined.

Lemma selectMode_first_valid_choice_witness :
  fst (Startup.selectMode ["3"; "  Chat "; "auto"]) = Some Startup.chat /\
  Startup.warnings (snd (Startup.selectMode ["3"; "  Chat "; "auto"])) = 1.
Proof.
  assert (Hbad : Forall (fun c => Startup.choice_of c = None) ["3"])
    by (constructor; [reflexivity|constructor]).
  assert (Hascii : Forall (fun c => JS.ascii_only c = true) ["3"])
    by (constructor; [reflexivity|constructor]).
  destruct (selectMode_first_valid_choice ["3"] Hascii Hbad) as [H _].
  exact (H "  Chat " ["auto"] Startup.chat eq_refl eq_refl).
Defined.

(* ===================================================================== *)
(** ** The agent: analysis output, trade direction, commands, mentions    *)
(* ===================================================================== *)

Section AnalysisOutput.
Import JS Agent Commands.
Context {W : Type}.
Variable trading_getMarketData :
  string -> W -> completion (option MarketData) * W.
Variable ai_analyzeMarket :
  MarketData -> W -> completion (option AiAnalysis) * W.
Variable trading_executeTrade :
  string -> string -> number -> number -> W -> completion unit * W.
Variable times : number -> number -> number.
Variable CONFIG : TradingConfig.
Variable tokenAddress : string.

Lemma num_or_zero_not_nan (x : option number) : isNaN (num_or x zero) = false.
Proof.
  unfold num_or. destruct x as [n|]; [|reflexivity].
  destruct n; simpl; try reflexivity. destruct (Qeq_bool q 0); reflexivity.
Qed.

Lemma str_or_nonempty (x : option string) (d : string) :
  d <> EmptyString -> str_or x d <> EmptyString.
Proof.
  intros Hd. unfold str_or. destruct x as [s|]; [|exact Hd].
  destruct (String.eqb_spec s EmptyString); assumption.
Qed.

Lemma volatility_or_zero_not_nan (md : MarketData) field :
  isNaN (volatility_or_zero md field) = false.
Proof.
  unfold volatility_or_zero. destruct (md_volatility md); [|reflexivity].
  apply num_or_zero_not_nan.
Qed.

Lemma assemble_well_formed (md : MarketData) (ai : AiAnalysis) :
  well_formed (assemble md ai).
Proof.
  unfold well_formed, assemble. cbv zeta. simpl.
  repeat split;
    try apply num_or_zero_not_nan; try apply volatility_or_zero_not_nan;
    try (apply str_or_nonempty; discriminate).
  unfold riskLevel_of. destruct (ai_riskLevel ai) as [r|]; [|simpl; auto].
  destruct (String.eqb_spec r "LOW") as [->|_]; [simpl; auto|].
  destruct (String.eqb_spec r "HIGH") as [->|_]; simpl; auto.
Qed.

(** X9: whatever the market feed and the AI return, the analysis that
    [analyzeMarket] hands on is well formed: its risk level is one of LOW,
    MEDIUM, HIGH; its confidence and every number among its metrics is a
    number (never NaN, since missing and NaN fields default to 0); the
    metrics carry the same confidence as the analysis; action and sentiment
    are non-empty. *)
Theorem analyzeMarket_output_well_formed (w : W) :
  let a := fst (fst (analyzeMarket trading_getMarketData ai_analyzeMarket
                       tokenAddress w)) in
  In (riskLevel a) ["LOW"; "MEDIUM"; "HIGH"] /\
  isNaN (confidence a) = false /\
  m_confidence (metrics a) = confidence a /\
  action a <> EmptyString /\ sentiment a <> EmptyString /\
  isNaN (Agent.price (metrics a)) = false /\
  isNaN (Agent.volume24h (metrics a)) = false /\
  isNaN (Agent.marketCap (metrics a)) = false /\
  isNaN (volatility (metrics a)) = false /\
  isNaN (momentum (metrics a)) = false /\
  isNaN (strength (metrics a)) = false.
Proof.
  cbv zeta. change (well_formed (fst (fst (analyzeMarket trading_getMarketData
                                             ai_analyzeMarket tokenAddress w)))).
  assert (Hfb : well_formed fallback).
  { unfold well_formed, fallback. simpl.
    repeat split; try reflexivity; try discriminate. auto. }
  unfold analyzeMarket, caught.
  destruct (trading_getMarketData tokenAddress w) as [[[md|]|e] w1];
    try exact Hfb.
  destruct (ai_analyzeMarket md w1) as [[[ai|]|e] w2]; try exact Hfb.
  apply assemble_well_formed.
Qed.


End AnalysisOutput.


Section CommandHandling.
Import JS Commands.
Context {W : Type}.
Variable getTokenPrice : W -> completion number * W.
Variable getMarketData : W -> completion (option Stats) * W.
Variable generateResponse : string -> string -> string -> W -> completion string * W.
Variable sendMessage : string -> string -> string -> W -> completion unit * W.
Variable analyzeSentiment : string -> W -> completion number * W.
Variable reply : string -> string -> W -> completion unit * W.
Variable number_text : number -> string.

Local Abbreviation respond :=
  (generateCommandResponse getTokenPrice getMarketData generateResponse
                           number_text).
Local Abbreviation handle :=
  (handleCommand getTokenPrice getMarketData generateResponse sendMessage
                 number_text).

(** X11: [handleCommand] always answers on the platform and message the
    command came from, with one message or two.  If no response could be
    produced the only message is the apology; a second message is sent only
    when sending the response failed, and it is the apology; the call
    throws only when sending the apology failed; and with a sink that never
    rejects it returns after exactly one message. *)
Theorem handleCommand_always_answers
    (command : AgentCommand) (context : CommandContext) (w : W) :
  let r := handle command context w in
  let tr := snd (fst r) in
  let sent text := SendMessage (platform context) (messageId context) text in
  ((exists text, sends tr = [sent text]) \/
   (exists response, sends tr = [sent response; sent apology])) /\
  (returned (fst (respond command context w)) = false ->
     sends tr = [sent apology]) /\
  (returned (fst (fst r)) = false ->
     exists tr', tr = tr' ++ [sent apology]) /\
  ((forall pf mid text w0, returned (fst (sendMessage pf mid text w0)) = true) ->
     returned (fst (fst r)) = true /\ length (sends tr) = 1).
Proof.
  cbv zeta. unfold handleCommand, apologise.
  destruct (respond command context w) as [[response|e] w1]; simpl.
  - pose proof (fun H : forall pf mid text w0,
                    returned (fst (sendMessage pf mid text w0)) = true =>
                  H (platform context) (messageId context) response w1)
      as Hfirst.
    destruct (sendMessage (platform context) (messageId context) response w1)
      as [[[]|e] w2]; simpl in *.
    + split; [left; eauto|]. split; [discriminate|].
      split; [discriminate|]. intros _. split; reflexivity.
    + assert (Hsecond :
        (exists response0,
            [SendMessage (platform context) (messageId context) response;
             SendMessage (platform context) (messageId context) apology]
            = [SendMessage (platform context) (messageId context) response0;
               SendMessage (platform context) (messageId context) apology]))
        by eauto.
      destruct (sendMessage (platform context) (messageId context) apology w2)
        as [[[]|e'] w3]; simpl.
      * split; [right; exact Hsecond|]. split; [discriminate|].
        split; [discriminate|]. intros H. specialize (Hfirst H). discriminate.
      * split; [right; exact Hsecond|]. split; [discriminate|]. split.
        -- intros _.
           exists [SendMessage (platform context) (messageId context) response;
                   LogError "Command handling error:" e].
           reflexivity.
        -- intros H. specialize (Hfirst H). discriminate.
  - pose proof (fun H : forall pf mid text w0,
                    returned (fst (sendMessage pf mid text w0)) = true =>
                  H (platform context) (messageId context) apology w1)
      as Hfirst.
    destruct (sendMessage (platform context) (messageId context) apology w1)
      as [[[]|e'] w2]; simpl in *.
    + split; [left; eauto|]. split; [reflexivity|].
      split; [discriminate|]. intros _. split; reflexivity.
    + split; [left; eauto|]. split; [reflexivity|]. split.
      * intros _. exists [LogError "Command handling error:" e]. reflexivity.
      * intros H. specialize (Hfirst H). discriminate.
Qed.

Local Abbreviation listen :=
  (onTweet generateResponse analyzeSentiment reply).

(** X12: the mention listener replies at most once per tweet and only
    when the sentiment analysis resolved to a number above 0.5; a sentiment
    of 0.5 or less, or NaN, ends the handling without generating or sending
    anything. *)
Theorem onTweet_replies_only_above_half
    (text tweetId : string) (author_id : option string) (w : W) :
  let tr := fst (listen text tweetId author_id w) in
  length (replies tr) <= 1 /\
  (replies tr <> [] ->
     exists sentiment w1,
       analyzeSentiment text w = (Returns sentiment, w1) /\
       gt sentiment (Fin (1 # 2)) = true) /\
  (forall sentiment w1,
      analyzeSentiment text w = (Returns sentiment, w1) ->
      gt sentiment (Fin (1 # 2)) = false ->
      listen text tweetId author_id w = ([], w1)).
Proof.
  cbv zeta. unfold onTweet.
  destruct (analyzeSentiment text w) as [[sentiment|e] w1].
  - destruct (gt sentiment (Fin (1 # 2))) eqn:Egt.
    + destruct (generateResponse text "twitter" (str_or author_id "unknown") w1)
        as [[response|e] w2].
      * destruct (reply response tweetId w2) as [[[]|e] w3]; simpl;
          (split; [lia|]); (split; [eauto|]);
          intros s w0 [= <- <-] H; congruence.
      * simpl. split; [lia|]. split; [congruence|].
        intros s w0 [= <- <-] H; congruence.
    + simpl. split; [lia|]. split; [congruence|].
      intros s w0 [= <- <-] _. reflexivity.
  - simpl. split; [lia|]. split; [congruence|]. intros s w0 H. discriminate H.
Qed.

End CommandHandling.

Lemma handleCommand_always_answers_witness :
  Commands.sends
    (snd (fst (Commands.handleCommand Commands.price_down Commands.no_stats
                 Commands.echo Commands.send_ok (fun _ => "0")
                 {| Commands.c_type := "price"; Commands.c_raw := "!price" |}
                 Commands.discord tt)))
  = [Commands.SendMessage "discord" "m1"
       "Sorry, there was an error processing your command."].
Proof.
  pose proof (handleCommand_always_answers
                Commands.price_down Commands.no_stats Commands.echo
                Commands.send_ok (fun _ => "0")
                {| Commands.c_type := "price"; Commands.c_raw := "!price" |}
                Commands.discord tt) as [_ [H _]].
  exact (H eq_refl).
Defined.

Lemma onTweet_replies_only_above_half_witness :
  Commands.onTweet Commands.echo (Commands.sentiment_is (JS.Fin (1 # 2)))
    Commands.reply_ok "gm" "t1" None tt = ([], tt) /\
  Commands.onTweet Commands.echo (Commands.sentiment_is JS.NaN)
    Commands.reply_ok "gm" "t1" None tt = ([], tt).
Proof.
  split.
  - pose proof (onTweet_replies_only_above_half
                  Commands.echo (Commands.sentiment_is (JS.Fin (1 # 2)))
                  Commands.reply_ok "gm" "t1" None tt) as [_ [_ H]].
    exact (H _ _ eq_refl eq_refl).
  - pose proof (onTweet_replies_only_above_half
                  Commands.echo (Commands.sentiment_is JS.NaN)
                  Commands.reply_ok "gm" "t1" None tt) as [_ [_ H]].
    exact (H _ _ eq_refl eq_refl).
Defined.

(* ===================================================================== *)
(** ** The price service: cache keys and token info                       *)
(* ===================================================================== *)

Section CacheKeys.
Import JS Jupiter Metrics.
Context {W : Type}.
Variable cache_get : string -> W -> completion cached * W.
Variable cache_set : string -> string -> Z -> W -> completion unit * W.
Variable getProcessedTokenData : W -> completion TokenData * W.
Variable tokenCodex : TokenData -> option TokenCodex.
Variable JSON_stringify : json -> string.
Variable JSON_parse : string -> option json.
Variable stringify_metrics : MarketMetrics -> string.
Variable parse_metrics : string -> option MarketMetrics.
Variable stringify_info : TokenInfo -> string.
Variable parse_info : string -> option (option TokenInfo).

Local Abbreviation marketData' :=
  (getMarketData cache_get cache_set getProcessedTokenData
                 JSON_stringify JSON_parse).
Local Abbreviation marketMetrics' :=
  (getMarketMetrics cache_get cache_set getProcessedTokenData
                    stringify_metrics parse_metrics).
Local Abbreviation tokenInfo' :=
  (getTokenInfo cache_get cache_set getProcessedTokenData tokenCodex
                stringify_info parse_info).

Lemma string_app_inj (p a b : string) :
  (p ++ a = p ++ b)%string -> a = b.
Proof.
  induction p as [|c p IH]; intros H; [exact H|].
  apply IH. change (String c (p ++ a)%string = String c (p ++ b)%string) in H.
  injection H as H. exact H.
Qed.

Local Ltac walk :=
  repeat match goal with
         | |- context [match ?x with _ => _ end] => destruct x
         end;
  simpl; repeat constructor.

(** X13: each getter of the price service reads and writes the cache under
    one key only, its own prefix followed by the symbol.  The three
    prefixes never produce the same key, and under one prefix different
    symbols give different keys: no call can be served, or overwrite, an
    entry of another getter or of another symbol. *)
Theorem cache_keys_private_to_getter_and_symbol (symbol : string) (w : W) :
  Forall (eq ("marketData:" ++ symbol)%string)
         (keys (snd (fst (marketData' symbol w)))) /\
  Forall (eq ("metrics:" ++ symbol)%string)
         (keys (snd (fst (marketMetrics' symbol w)))) /\
  Forall (eq ("tokenInfo:" ++ symbol)%string)
         (keys (snd (fst (tokenInfo' symbol w)))) /\
  (forall s s' : string,
      ("marketData:" ++ s <> "metrics:" ++ s')%string /\
      ("marketData:" ++ s <> "tokenInfo:" ++ s')%string /\
      ("metrics:" ++ s <> "tokenInfo:" ++ s')%string) /\
  (forall s s' : string,
      (("marketData:" ++ s = "marketData:" ++ s')%string -> s = s') /\
      (("metrics:" ++ s = "metrics:" ++ s')%string -> s = s') /\
      (("tokenInfo:" ++ s = "tokenInfo:" ++ s')%string -> s = s')).
Proof.
  split; [|split; [|split; [|split]]].
  - unfold getMarketData, Jupiter.rethrow. cbv zeta. walk.
  - unfold getMarketMetrics, rethrow. cbv zeta. walk.
  - unfold getTokenInfo, rethrow. cbv zeta. walk.
  - intros s s'. repeat split; discriminate.
  - intros s s'. repeat split; apply string_app_inj.
Qed.


End CacheKeys.

(* ===================================================================== *)
(** ** ChatService: history, pause and resume, terminal input             *)
(* ===================================================================== *)

Section AutoModeHistory.
Import JS Chat ChatInvariants.

Lemma resume_results_match (c : nat) (v : settled) (s : state) :
  results_match s -> results_match (resume c v s).
Proof.
  intros H. unfold resume, caught, finish, executeAutoAction, recordMessage.
  destruct (inflight s !! c) as [st|] eqn:E; [|exact H].
  repeat case_match; subst; try exact H;
    intros c' a' r' Hc'; simpl in Hc';
    first [ apply lookup_delete_Some in Hc'; destruct Hc' as [_ Hc'];
            exact (H c' a' r' Hc')
          | apply lookup_insert_Some in Hc';
            destruct Hc' as [[_ Hc']|[_ Hc']];
            [ first [discriminate Hc' | injection Hc' as <- <-; reflexivity]
            | exact (H c' a' r' Hc') ] ].
Qed.

Lemma step_results_match (s : state) (ev : event) :
  results_match s -> results_match (step s ev).
Proof.
  intros H. unfold step. destruct (exited s); [exact H|].
  destruct ev as [newMode|t|c v| | |].
  - unfold onModeChanged, startAutoMode, clearAutoInterval.
    repeat case_match; exact H.
  - case_bool_decide; [|exact H].
    intros c a r Hc. unfold tick in Hc. simpl in Hc.
    apply lookup_insert_Some in Hc. destruct Hc as [[_ Hc]|[_ Hc]];
      [discriminate Hc|exact (H c a r Hc)].
  - apply resume_results_match, H.
  - unfold pause, clearAutoInterval. repeat case_match; exact H.
  - unfold resumeCommand, startAutoMode, clearAutoInterval.
    repeat case_match; exact H.
  - unfold stop, clearAutoInterval. repeat case_match; exact H.
Qed.

Lemma run_results_match (evs : list event) (s : state) :
  results_match s -> results_match (run s evs).
Proof.
  revert s. induction evs as [|ev evs IH]; intros s H; [exact H|].
  simpl. apply IH, step_results_match, H.
Qed.

Lemma init_results_match : results_match init.
Proof. intros c a r H. simpl in H. rewrite lookup_empty in H. discriminate. Qed.

(** Among the events of the auto loop, only the last resumption of a cycle
    changes the history: it appends the two messages of its analysis. *)
Lemma step_history_auto (s : state) (ev : event) :
  results_match s ->
  history (step s ev) = history s \/
  exists c a r,
    ev = Settles c ActionSettled /\
    inflight s !! c = Some (AwaitAction a r) /\
    inflight (step s ev) !! c = None /\
    history (step s ev) = history s ++ cycle_messages a.
Proof.
  intros Hres.
  unfold step. destruct (exited s); [left; reflexivity|].
  destruct ev as [newMode|t|c v| | |].
  - left. unfold onModeChanged, startAutoMode, clearAutoInterval.
    repeat case_match; reflexivity.
  - left. case_bool_decide; reflexivity.
  - unfold resume, caught, finish, executeAutoAction.
    destruct (inflight s !! c) as [st|] eqn:E; [|left; reflexivity].
    destruct st as [| |a r].
    + left. repeat case_match; reflexivity.
    + left. repeat case_match; reflexivity.
    + destruct v as [r0|r0|]; [left; reflexivity|left; reflexivity|].
      right. exists c, a, r. split; [reflexivity|]. split; [exact E|].
      split; [simpl; apply lookup_delete_eq|].
      simpl. rewrite (Hres c a r E), <- app_assoc. reflexivity.
  - left. unfold pause, clearAutoInterval. repeat case_match; reflexivity.
  - left. unfold resumeCommand, startAutoMode, clearAutoInterval.
    repeat case_match; reflexivity.
  - left. unfold stop, clearAutoInterval. repeat case_match; reflexivity.
Qed.

(** X16: the 'pause' command leaves no timer armed, so no further cycle
    starts, and it touches neither the cycles in flight nor the history;
    pausing twice is the same as pausing once.  The 'resume' command after
    a pause arms exactly one new timer; while a timer is armed it changes
    nothing but the console. *)
Theorem pause_and_resume (evs : list event) :
  let s := run init evs in
  exited s = false ->
  let p := step s Pause in
  (timers p = ∅ /\ autoModeInterval p = None /\
   inflight p = inflight s /\ history p = history s /\
   forall t, step p (TimerFires t) = p) /\
  (timers (step p Pause) = timers p /\
   autoModeInterval (step p Pause) = autoModeInterval p) /\
  (exists t, timers (step p Resume) = {[ t ]} /\
             autoModeInterval (step p Resume) = Some t) /\
  (forall t, autoModeInterval s = Some t ->
     timers (step s Resume) = timers s /\
     autoModeInterval (step s Resume) = Some t /\
     inflight (step s Resume) = inflight s).
Proof.
  cbv zeta. intros Hex.
  destruct init_invariant as [Ht0 Hf0].
  destruct (run_invariant evs init Ht0 Hf0) as [Ht _].
  set (s := run init evs) in *.
  assert (Hp : timers (step s Pause) = ∅ /\
               autoModeInterval (step s Pause) = None /\
               inflight (step s Pause) = inflight s /\
               history (step s Pause) = history s /\
               exited (step s Pause) = false /\
               fresh_timer (step s Pause) = fresh_timer s).
  { unfold step. rewrite Hex. unfold pause, clearAutoInterval.
    unfold timers_tracked in Ht.
    destruct (autoModeInterval s) as [t|] eqn:E; simpl.
    - rewrite Ht. split; [apply difference_diag_L|].
      repeat split; first [exact Hex|reflexivity].
    - rewrite E. split; [exact Ht|].
      repeat split; first [exact Hex|reflexivity]. }
  destruct Hp as [Hpt [Hpi [Hpf [Hph [Hpe Hpn]]]]].
  split; [|split; [|split]].
  - repeat split; try assumption.
    intros t. unfold step at 1. rewrite Hpe, Hpt.
    rewrite bool_decide_eq_false_2; [reflexivity|]. apply not_elem_of_empty.
  - assert (Hpp : step (step s Pause) Pause
                  = log (Console "Auto mode was not running") (step s Pause)).
    { unfold step at 1. rewrite Hpe. unfold pause. rewrite Hpi. reflexivity. }
    rewrite Hpp. split; reflexivity.
  - assert (Hpr : step (step s Pause) Resume
                  = log (Console "Autonomous operations resumed")
                        (startAutoMode (step s Pause))).
    { unfold step at 1. rewrite Hpe. unfold resumeCommand. rewrite Hpi.
      reflexivity. }
    exists (fresh_timer s). rewrite Hpr.
    unfold startAutoMode, clearAutoInterval. cbv zeta. simpl.
    rewrite Hpi. simpl. rewrite Hpt, Hpn.
    split; [apply (left_id_L ∅ (∪))|reflexivity].
  - intros t Hsome. unfold step. rewrite Hex. unfold resumeCommand.
    rewrite Hsome. simpl. rewrite Hsome. repeat split; reflexivity.
Qed.

End AutoModeHistory.

Lemma pause_and_resume_witness :
  let s := Chat.run Chat.init [Chat.ModeChanged "auto"; Chat.TimerFires 0] in
  Chat.timers (Chat.step s Chat.Pause) = ∅ /\
  Chat.inflight (Chat.step s Chat.Pause) = Chat.inflight s /\
  exists t, Chat.timers (Chat.step (Chat.step s Chat.Pause) Chat.Resume)
            = {[ t ]}.
Proof.
  cbv zeta.
  destruct (pause_and_resume [Chat.ModeChanged "auto"; Chat.TimerFires 0]
              eq_refl) as [[H1 [_ [H3 _]]] [_ [[t [Ht _]] _]]].
  split; [exact H1|]. split; [exact H3|]. exists t. exact Ht.
Defined.

Section SessionHistory.
Import JS Chat ChatInvariants.

Lemma results_match_inflight (c c' : Chat.state) :
  inflight c' = inflight c -> results_match c -> results_match c'.
Proof. intros E H id a r Hid. rewrite E in Hid. exact (H id a r Hid). Qed.

Lemma recordMessage_inflight (r c : string) (s : Chat.state) :
  inflight (recordMessage r c s) = inflight s.
Proof. unfold recordMessage. destruct (String.eqb r "system"); reflexivity. Qed.

Lemma stop_history_inflight (c : Chat.state) :
  history (stop c) = history c /\ inflight (stop c) = inflight c.
Proof.
  unfold stop, clearAutoInterval. destruct (autoModeInterval c); split; reflexivity.
Qed.

(** An invocation of the listener records nothing; it stops the service or
    suspends on the command handler with the trimmed line. *)
Lemma listener_spec (input : string) (s : ChatSession.state) :
  let s' := ChatSession.listener input s in
  history (ChatSession.service s') = history (ChatSession.service s) /\
  inflight (ChatSession.service s') = inflight (ChatSession.service s) /\
  forall id st, ChatSession.lines s' !! id = Some st ->
    ChatSession.lines s !! id = Some st \/
    st = ChatSession.AwaitCommand (trim input).
Proof.
  cbv zeta. unfold ChatSession.listener.
  destruct (exited (ChatSession.service s)); [auto|].
  destruct (isRunning (ChatSession.service s)); simpl negb; cbv iota; [|auto].
  cbv zeta. destruct (String.eqb _ "exit"); simpl.
  - destruct (stop_history_inflight (ChatSession.service s)) as [H1 H2]. auto.
  - split; [reflexivity|]. split; [reflexivity|].
    intros id st H. apply lookup_insert_Some in H.
    destruct H as [[_ <-]|[_ H]]; auto.
Qed.

Lemma listeners_spec (n : nat) (input : string) (s : ChatSession.state) :
  let s' := Nat.iter n (ChatSession.listener input) s in
  history (ChatSession.service s') = history (ChatSession.service s) /\
  inflight (ChatSession.service s') = inflight (ChatSession.service s) /\
  forall id st, ChatSession.lines s' !! id = Some st ->
    ChatSession.lines s !! id = Some st \/
    st = ChatSession.AwaitCommand (trim input).
Proof.
  cbv zeta. induction n as [|n [IH1 [IH2 IH3]]]; [simpl; auto|].
  simpl.
  destruct (listener_spec input (Nat.iter n (ChatSession.listener input) s))
    as [H1 [H2 H3]].
  split; [congruence|]. split; [congruence|].
  intros id st H. destruct (H3 id st H) as [H'|H']; auto.
Qed.

Lemma lines_traced_later (evs : list ChatSession.event)
    (ev : ChatSession.event) (s s' : ChatSession.state) :
  ChatSession.lines_traced evs s ->
  (forall id st, ChatSession.lines s' !! id = Some st ->
     (exists id' st', ChatSession.lines s !! id' = Some st' /\
                      ChatSession.stage_input st = ChatSession.stage_input st')
     \/ exists raw, ev = ChatSession.Line raw /\
                    ChatSession.stage_input st = trim raw) ->
  ChatSession.lines_traced (evs ++ [ev]) s'.
Proof.
  intros Htr H id st Hid.
  destruct (H id st Hid) as [[id' [st' [H1 H2]]]|[raw [-> H2]]].
  - destruct (Htr id' st' H1) as [raw [Hin Hraw]]. exists raw.
    split; [apply in_or_app; left; exact Hin|congruence].
  - exists raw. split; [apply in_or_app; right; left; reflexivity|exact H2].
Qed.

Local Ltac same_lines :=
  let id := fresh "id" in
  let st := fresh "st" in
  let H := fresh "H" in
  intros id st H; simpl in H;
  first [ left; exists id, st; split; [exact H|reflexivity]
        | apply lookup_delete_Some in H; destruct H as [_ H];
          left; exists id, st; split; [exact H|reflexivity]
        | apply lookup_insert_Some in H;
          destruct H as [[<- <-]|[_ H]];
          [ left; eexists _, _; split; [eassumption|reflexivity]
          | left; exists id, st; split; [exact H|reflexivity] ] ].

Lemma step_session_inv (evs : list ChatSession.event)
    (s : ChatSession.state) (ev : ChatSession.event) :
  ChatSession.session_inv evs s ->
  ChatSession.session_inv (evs ++ [ev]) (ChatSession.step s ev).
Proof.
  intros [Hres Htr]. unfold ChatSession.step.
  destruct (exited (ChatSession.service s)) eqn:Eex.
  { split; [exact Hres|]. apply (lines_traced_later evs ev s s Htr). same_lines. }
  destruct ev as [ev'|welcome|input|id v].
  - split; [simpl; apply step_results_match, Hres|].
    apply (lines_traced_later _ _ s _ Htr). same_lines.
  - split.
    + simpl. eapply results_match_inflight; [|exact Hres].
      destruct welcome as [msg|]; [destruct (String.eqb msg EmptyString)|];
        reflexivity.
    + apply (lines_traced_later _ _ s _ Htr). same_lines.
  - destruct (listeners_spec (ChatSession.listeners s) input s) as [_ [H2 H3]].
    split; [eapply results_match_inflight; [exact H2|exact Hres]|].
    apply (lines_traced_later _ _ s _ Htr). intros id st H.
    destruct (H3 id st H) as [H'| ->].
    + left. exists id, st. split; [exact H'|reflexivity].
    + right. exists input. split; reflexivity.
  - unfold ChatSession.resumeLine, ChatSession.failed, ChatSession.finish.
    destruct (ChatSession.lines s !! id) as [st0|] eqn:E.
    2:{ split; [exact Hres|]. apply (lines_traced_later _ _ s _ Htr). same_lines. }
    destruct st0 as [input|input], v as [[[]|e]|[response|e]];
      try destruct (String.eqb response EmptyString);
      (split;
       [ eapply results_match_inflight; [|exact Hres]; simpl;
         rewrite ?recordMessage_inflight; reflexivity
       | apply (lines_traced_later _ _ s _ Htr); same_lines ]).
Qed.

Lemma run_snoc (evs : list ChatSession.event) (ev : ChatSession.event) :
  ChatSession.run ChatSession.init (evs ++ [ev])
  = ChatSession.step (ChatSession.run ChatSession.init evs) ev.
Proof. unfold ChatSession.run. rewrite List.fold_left_app. reflexivity. Qed.

Lemma run_session_inv (evs : list ChatSession.event) :
  ChatSession.session_inv evs (ChatSession.run ChatSession.init evs).
Proof.
  induction evs as [|ev evs IH] using List.rev_ind.
  - split; [exact init_results_match|].
    intros id st H. simpl in H. rewrite lookup_empty in H. discriminate H.
  - rewrite run_snoc. apply step_session_inv, IH.
Qed.

(** X15: with the terminal delivering lines of ASCII text, the history of
    the service changes in three ways only.  The last resumption of an auto
    cycle appends the two assistant messages of its analysis, the action
    and the result text.  A line whose command handler resolved to [false]
    is appended, trimmed, as a user message; a non-empty AI response to
    such a line is appended as an assistant message.  Mode changes, timer
    ticks, pause, resume, stop, start, the arrival of a line, a line handled
    as a command and every cycle or line that ends early record nothing. *)
Theorem history_changes_only_by_cycle_or_line
    (evs : list ChatSession.event) (ev : ChatSession.event)
    (Hascii : Forall (fun e => ChatSession.ascii_event e = true) (evs ++ [ev])) :
  let s := ChatSession.run ChatSession.init evs in
  let s' := ChatSession.step s ev in
  let h := history (ChatSession.service s) in
  let h' := history (ChatSession.service s') in
  h' = h \/
  (exists c a r,
     ev = ChatSession.Loop (Settles c ActionSettled) /\
     inflight (ChatSession.service s) !! c = Some (AwaitAction a r) /\
     inflight (ChatSession.service s') !! c = None /\
     h' = h ++ cycle_messages a) \/
  (exists id raw,
     ev = ChatSession.LineSettles id
            (ChatSession.CommandSettled (Returns false)) /\
     In (ChatSession.Line raw) evs /\
     ChatSession.lines s !! id = Some (ChatSession.AwaitCommand (trim raw)) /\
     ChatSession.lines s' !! id = Some (ChatSession.AwaitResponse (trim raw)) /\
     h' = h ++ [ {| role := "user"; content := trim raw |} ]) \/
  (exists id raw response,
     ev = ChatSession.LineSettles id
            (ChatSession.ResponseSettled (Returns response)) /\
     response <> EmptyString /\
     In (ChatSession.Line raw) evs /\
     ChatSession.lines s !! id = Some (ChatSession.AwaitResponse (trim raw)) /\
     ChatSession.lines s' !! id = None /\
     h' = h ++ [ {| role := "assistant"; content := response |} ]).
Proof.
  clear Hascii. cbv zeta.
  destruct (run_session_inv evs) as [Hres Htr].
  set (s := ChatSession.run ChatSession.init evs) in *.
  unfold ChatSession.step.
  destruct (exited (ChatSession.service s)) eqn:Eex; [left; reflexivity|].
  destruct ev as [ev'|welcome|input|id v].
  - simpl. destruct (step_history_auto (ChatSession.service s) ev' Hres)
      as [H|[c [a [r [-> [H1 [H2 H3]]]]]]]; [left; exact H|].
    right. left. exists c, a, r. auto.
  - left. simpl.
    destruct welcome as [msg|]; [destruct (String.eqb msg EmptyString)|];
      reflexivity.
  - left. exact (proj1 (listeners_spec (ChatSession.listeners s) input s)).
  - unfold ChatSession.resumeLine, ChatSession.failed, ChatSession.finish.
    destruct (ChatSession.lines s !! id) as [st0|] eqn:E; [|left; reflexivity].
    destruct (Htr id st0 E) as [raw [Hin Hraw]].
    destruct st0 as [input|input]; simpl in Hraw; subst input.
    + destruct v as [[[]|e]|r]; try (left; reflexivity).
      right. right. left. exists id, raw.
      split; [reflexivity|]. split; [exact Hin|]. split; [exact E|].
      split; [simpl; apply lookup_insert_eq|reflexivity].
    + destruct v as [r|[response|e]]; try (left; reflexivity).
      destruct (String.eqb_spec response EmptyString) as [->|Hne];
        [left; reflexivity|].
      right. right. right. exists id, raw, response.
      split; [reflexivity|]. split; [exact Hne|]. split; [exact Hin|].
      split; [exact E|]. split; [simpl; apply lookup_delete_eq|reflexivity].
Qed.

End SessionHistory.

Lemma history_changes_only_by_cycle_or_line_witness :
  let evs :=
    [ChatSession.Start (Some "Welcome"); ChatSession.Loop (Chat.ModeChanged "auto");
     ChatSession.Loop (Chat.TimerFires 0); ChatSession.Line " hello ";
     ChatSession.Loop (Chat.Settles 0 Chat.metrics_ok);
     ChatSession.LineSettles 0 (ChatSession.CommandSettled (JS.Returns false));
     ChatSession.Loop (Chat.Settles 0 Chat.analysis_ok)] in
  let s := ChatSession.run ChatSession.init evs in
  Chat.history (ChatSession.service s)
  = [ {| Chat.role := "user"; Chat.content := "hello" |} ] /\
  Chat.history
    (ChatSession.service
       (ChatSession.step s (ChatSession.Loop (Chat.Settles 0 Chat.ActionSettled))))
  = Chat.history (ChatSession.service s)
      ++ ChatInvariants.cycle_messages Chat.buy.
Proof.
  cbv zeta. split; [reflexivity|].
  destruct (history_changes_only_by_cycle_or_line
              [ChatSession.Start (Some "Welcome");
               ChatSession.Loop (Chat.ModeChanged "auto");
               ChatSession.Loop (Chat.TimerFires 0); ChatSession.Line " hello ";
               ChatSession.Loop (Chat.Settles 0 Chat.metrics_ok);
               ChatSession.LineSettles 0
                 (ChatSession.CommandSettled (JS.Returns false));
               ChatSession.Loop (Chat.Settles 0 Chat.analysis_ok)]
              (ChatSession.Loop (Chat.Settles 0 Chat.ActionSettled))
              ltac:(repeat constructor))
    as [H|[[c [a [r [Hev [Hin [_ Hh]]]]]]|[[id [raw [Hev _]]]|[id [raw [response [Hev _]]]]]]].
  - vm_compute in H. discriminate H.
  - injection Hev as <-. vm_compute in Hin. injection Hin as <- _. exact Hh.
  - discriminate Hev.
  - discriminate Hev.
Defined.

Section TerminalInput.
Import JS ChatInput.
Context {W : Type}.
Variable handleCommand : string -> W -> completion bool * W.
Variable generateResponse : string -> W -> completion string * W.
Variable tokenProvider :
  option ((string -> W -> W) * (W -> completion Jupiter.TokenData * W)).
Variable getMarketMetrics :
  string -> W -> completion Metrics.MarketMetrics * list Jupiter.io * W.
Variable generateMarketTweet_ai : TweetData -> W -> completion string * W.
Variable postTweetWithRetry : string -> W -> completion unit * W.
Variable number_text : number -> string.

Local Abbreviation line := (onLine handleCommand generateResponse).

(** X17: a line of ASCII text typed at the terminal is ignored while the
    service is not running; a line that is [exit] up to case and
    surrounding white space stops the service and is neither handled as a
    command nor recorded.
    Any other line is recorded, trimmed, as a user message exactly when the
    command handler resolved to [false]; an assistant message follows only
    if the AI returned a non-empty response, so one line adds at most two
    messages, user first. *)
Theorem onLine_records_user_then_assistant
    (isRunning : bool) (input : string) (w : W)
    (Hascii : ascii_only input = true) :
  let tr := fst (line isRunning input w) in
  (isRunning = false -> line isRunning input w = ([], w)) /\
  (isRunning = true -> Startup.toLowerCase (trim input) = "exit" ->
     line isRunning input w = ([StopService], w)) /\
  (recorded tr = [] \/
   recorded tr = [AddMessage "user" (trim input)] \/
   exists response,
     response <> EmptyString /\
     recorded tr = [AddMessage "user" (trim input);
                    AddMessage "assistant" response]) /\
  (recorded tr <> [] <->
     isRunning = true /\ Startup.toLowerCase (trim input) <> "exit" /\
     exists w1, handleCommand (trim input) w = (Returns false, w1)).
Proof.
  cbv zeta. unfold onLine. destruct isRunning; simpl negb; cbv iota.
  2:{ split; [reflexivity|]. split; [discriminate|]. split; [left; reflexivity|].
      split; [intros H; contradiction|]. intros [H _]. discriminate H. }
  cbv zeta.
  destruct (String.eqb_spec (Startup.toLowerCase (trim input)) "exit") as [Hexit|Hexit].
  { split; [discriminate|]. split; [reflexivity|]. split; [left; reflexivity|].
    split; [intros H; contradiction|]. intros [_ [H _]]. contradiction. }
  split; [discriminate|]. split; [intros _ H; contradiction|].
  unfold processInput. cbv zeta.
  destruct (handleCommand (trim input) w) as [[[]|e] w1].
  - simpl. split; [left; reflexivity|].
    split; [intros H; contradiction|]. intros [_ [_ [w0 H]]]. discriminate H.
  - assert (Hiff : forall l : list effect,
               l <> [] ->
               (l <> [] <->
                true = true /\ Startup.toLowerCase (trim input) <> "exit" /\
                exists w0, (Returns false, w1) = (Returns false, w0))).
    { intros l Hl. split; [intros _|intros _; exact Hl].
      repeat split; [exact Hexit|eauto]. }
    destruct (generateResponse (trim input) w1) as [[response|e] w2].
    + destruct (String.eqb_spec response EmptyString) as [->|Hne]; simpl.
      * split; [right; left; reflexivity|]. apply Hiff. discriminate.
      * split; [right; right; exists response; split; [exact Hne|reflexivity]|].
        apply Hiff. discriminate.
    + simpl. split; [right; left; reflexivity|]. apply Hiff. discriminate.
  - simpl. split; [left; reflexivity|].
    split; [intros H; contradiction|]. intros [_ [_ [w0 H]]]. discriminate H.
Qed.

Local Abbreviation tweet' :=
  (tweetCommand tokenProvider getMarketMetrics generateMarketTweet_ai
                postTweetWithRetry number_text).

Lemma posts_app (a b : list effect) : posts (a ++ b) = posts a ++ posts b.
Proof. unfold posts. apply List.filter_app. Qed.

Lemma posts_map_service (tr : list Jupiter.io) : posts (List.map Service tr) = [].
Proof. induction tr as [|x tr IH]; [reflexivity|exact IH]. Qed.

Lemma post_not_in_service (c : string) (tr : list Jupiter.io) :
  ~ In (PostTweet c) (List.map Service tr).
Proof.
  intros H. apply List.in_map_iff in H. destruct H as [x [H _]]. discriminate H.
Qed.

(** X18: given a symbol of ASCII text, the chat command 'tweet' hands at
    most one text to the poster.  A text it posts is the one the AI
    generated for the upper-cased symbol and the price, volume and price
    change of the metrics fetched for that symbol, after the token provider
    was set to the symbol and asked first; the post is the last thing the
    command does before it reports.  Without an argument, or in a service
    built without a token provider, it prints a message and posts
    nothing. *)
Theorem tweetCommand_posts_generated_content_once (args : list string) (w : W)
    (Hascii : Forall (fun arg => ascii_only arg = true) args) :
  let tr := fst (tweet' args w) in
  length (posts tr) <= 1 /\
  (forall content, In (PostTweet content) tr ->
     exists arg rest setTokenAddress getProcessedTokenData tokenData w1
            marketMetrics io w2 w3 report,
       args = arg :: rest /\
       tokenProvider = Some (setTokenAddress, getProcessedTokenData) /\
       getProcessedTokenData (setTokenAddress (Startup.toUpperCase arg) w)
       = (Returns tokenData, w1) /\
       getMarketMetrics (Startup.toUpperCase arg) w1
       = (Returns marketMetrics, io, w2) /\
       generateMarketTweet_ai
         {| topic := Startup.toUpperCase arg;
            price_text := number_text (Metrics.price marketMetrics);
            volume_text := number_text (Metrics.volume24h marketMetrics);
            priceChange_text :=
              str_or (Some (number_text (Metrics.priceChange24h marketMetrics)))
                     "0" |} w2
       = (Returns content, w3) /\
       tr = ProviderFetch :: List.map Service io
              ++ [PostTweet content; Print report]) /\
  (args = [] -> tweet' args w = ([Print "Please provide a token symbol"], w)) /\
  (tokenProvider = None -> posts tr = []).
Proof.
  clear Hascii. cbv zeta. unfold tweetCommand.
  destruct args as [|arg rest].
  { simpl. split; [lia|]. split; [intros c [H|[]]; discriminate H|].
    split; reflexivity. }
  cbv zeta.
  destruct (String.eqb (Startup.toUpperCase arg) EmptyString).
  { simpl. split; [lia|]. split; [intros c [H|[]]; discriminate H|].
    split; [discriminate|reflexivity]. }
  unfold generateMarketDataTweet, generateMarketTweet, getMarketData.
  cbv zeta.
  assert (Hquiet : forall (tr : list Jupiter.io) (tail : list effect),
             posts tail = [] ->
             (forall c, ~ In (PostTweet c) tail) ->
             length (posts (ProviderFetch :: List.map Service tr ++ tail)) <= 1 /\
             (forall c, ~ In (PostTweet c)
                          (ProviderFetch :: List.map Service tr ++ tail))).
  { intros tr tail Hp Hn. split.
    - change (ProviderFetch :: List.map Service tr ++ tail)
        with ([ProviderFetch] ++ List.map Service tr ++ tail).
      rewrite !posts_app, posts_map_service, Hp. simpl. lia.
    - intros c [H|H]; [discriminate H|]. apply in_app_or in H.
      destruct H as [H|H]; [exact (post_not_in_service c tr H)|exact (Hn c H)]. }
  destruct tokenProvider as [[setTokenAddress getProcessedTokenData]|].
  2:{ simpl. split; [lia|].
      split; [intros c [H|[H|[]]]; discriminate H|].
      split; [discriminate|reflexivity]. }
  destruct (getProcessedTokenData
              (setTokenAddress (Startup.toUpperCase arg) w))
    as [[tokenData|e] w1] eqn:Eget.
  2:{ simpl. split; [lia|].
      split; [intros c [H|[H|[H|[]]]]; discriminate H|].
      split; discriminate. }
  destruct (getMarketMetrics (Startup.toUpperCase arg) w1)
    as [[[marketMetrics|e] io] w2] eqn:Emm.
  2:{ simpl fst. rewrite <- app_assoc. simpl app.
      destruct (Hquiet io
                  [LogError ("Failed to fetch market data for "
                               ++ Startup.toUpperCase arg ++ ":")%string e;
                   Print "Failed to generate tweet content"])
        as [H1 H2]; [reflexivity|intros c [H|[H|[]]]; discriminate H|].
      split; [exact H1|]. split; [intros c Hin; destruct (H2 c Hin)|].
      split; discriminate. }
  simpl price. simpl volume24h. simpl priceChange24h.
  destruct (generateMarketTweet_ai _ w2) as [[content|e] w3] eqn:Eai.
  2:{ simpl fst. rewrite <- !app_assoc. simpl app.
      destruct (Hquiet io
                  [LogError "Error generating market tweet:" e;
                   Print "Failed to generate tweet content"])
        as [H1 H2]; [reflexivity|intros c [H|[H|[]]]; discriminate H|].
      split; [exact H1|]. split; [intros c Hin; destruct (H2 c Hin)|].
      split; discriminate. }
  assert (Hposted : forall report,
    let tr := ((ProviderFetch :: List.map Service io) ++ [])
                ++ [PostTweet content; Print report] in
    length (posts tr) <= 1 /\
    (forall c, In (PostTweet c) tr ->
       exists arg0 rest0 set0 get0 tokenData0 w10 marketMetrics0 io0 w20 w30
              report0,
         arg :: rest = arg0 :: rest0 /\
         Some (setTokenAddress, getProcessedTokenData) = Some (set0, get0) /\
         get0 (set0 (Startup.toUpperCase arg0) w) = (Returns tokenData0, w10) /\
         getMarketMetrics (Startup.toUpperCase arg0) w10
         = (Returns marketMetrics0, io0, w20) /\
         generateMarketTweet_ai
           {| topic := Startup.toUpperCase arg0;
              price_text := number_text (Metrics.price marketMetrics0);
              volume_text := number_text (Metrics.volume24h marketMetrics0);
              priceChange_text :=
                str_or (Some (number_text (Metrics.priceChange24h marketMetrics0)))
                       "0" |} w20
         = (Returns c, w30) /\
         tr = ProviderFetch :: List.map Service io0
                ++ [PostTweet c; Print report0])).
  { intros report. cbv zeta. rewrite app_nil_r. split.
    - change ((ProviderFetch :: List.map Service io)
                ++ [PostTweet content; Print report])
        with ([ProviderFetch] ++ List.map Service io
                ++ [PostTweet content; Print report]).
      rewrite !posts_app, posts_map_service. simpl. lia.
    - intros c [H|H]; [discriminate H|]. apply in_app_or in H.
      destruct H as [H|[H|[H|[]]]];
        [destruct (post_not_in_service c io H)| |discriminate H].
      injection H as <-.
      exists arg, rest, setTokenAddress, getProcessedTokenData, tokenData, w1,
             marketMetrics, io, w2, w3, report.
      repeat split; assumption. }
  destruct (postTweetWithRetry content w3) as [[[]|e] w4]; simpl fst.
  - destruct (Hposted "Tweet posted successfully!") as [H1 H2].
    split; [exact H1|]. split; [exact H2|]. split; discriminate.
  - destruct (Hposted "Error posting tweet") as [H1 H2].
    split; [exact H1|]. split; [exact H2|]. split; discriminate.
Qed.

End TerminalInput.

Lemma cache_keys_private_to_getter_and_symbol_witness :
  Metrics.keys
    (snd (fst (Jupiter.getMarketData_on_store "ELONA" Jupiter.cold_world)))
  = ["marketData:ELONA"; "marketData:ELONA"] /\
  "marketData:ELONA" <> "metrics:ELONA".
Proof.
  pose proof (cache_keys_private_to_getter_and_symbol
                Jupiter.store_get Jupiter.store_set Jupiter.provider
                (fun _ => None) Jupiter.toy_stringify Jupiter.toy_parse
                (fun _ => "m") (fun _ => None) (fun _ => "i") (fun _ => None)
                "ELONA" Jupiter.cold_world) as [_ [_ [_ [Hne _]]]].
  split; [reflexivity|]. exact (proj1 (Hne "ELONA" "ELONA")).
Defined.


Lemma onLine_records_user_then_assistant_witness :
  ChatInput.onLine ChatInput.not_a_command (ChatInput.answer "gm")
    true "  EXIT " tt = ([ChatInput.StopService], tt) /\
  ChatInput.recorded
    (fst (ChatInput.onLine ChatInput.not_a_command (ChatInput.answer "gm")
            true " hello " tt))
  <> [].
Proof.
  pose proof (onLine_records_user_then_assistant
                ChatInput.not_a_command (ChatInput.answer "gm")
                true "  EXIT " tt eq_refl) as [_ [H _]].
  pose proof (onLine_records_user_then_assistant
                ChatInput.not_a_command (ChatInput.answer "gm")
                true " hello " tt eq_refl) as [_ [_ [_ H']]].
  split; [exact (H eq_refl eq_refl)|].
  apply H'. split; [reflexivity|]. split; [discriminate|].
  exists tt. reflexivity.
Defined.

Lemma tweetCommand_posts_generated_content_once_witness :
  let run := ChatInput.tweetCommand (Some ChatInput.provider_ok)
               ChatInput.metrics_cached ChatInput.tweet_ai ChatInput.poster_ok
               (fun _ => "0") in
  (exists io report,
     fst (run ["elona"] tt)
     = ChatInput.ProviderFetch :: List.map ChatInput.Service io
         ++ [ChatInput.PostTweet "ELONA"; ChatInput.Print report]) /\
  ChatInput.posts
    (fst (ChatInput.tweetCommand None ChatInput.metrics_down ChatInput.tweet_ai
            ChatInput.poster_ok (fun _ => "0") ["elona"] tt)) = [] /\
  run [] tt = ([ChatInput.Print "Please provide a token symbol"], tt).
Proof.
  cbv zeta.
  assert (Hascii : Forall (fun arg => JS.ascii_only arg = true) ["elona"])
    by (constructor; [reflexivity|constructor]).
  pose proof (tweetCommand_posts_generated_content_once
                (Some ChatInput.provider_ok) ChatInput.metrics_cached
                ChatInput.tweet_ai ChatInput.poster_ok (fun _ => "0")
                ["elona"] tt Hascii) as [_ [Hposted _]].
  pose proof (tweetCommand_posts_generated_content_once
                None ChatInput.metrics_down ChatInput.tweet_ai
                ChatInput.poster_ok (fun _ => "0") ["elona"] tt Hascii)
    as [_ [_ [_ Hnone]]].
  pose proof (tweetCommand_posts_generated_content_once
                (Some ChatInput.provider_ok) ChatInput.metrics_cached
                ChatInput.tweet_ai ChatInput.poster_ok (fun _ => "0")
                [] tt ltac:(constructor)) as [_ [_ [Hempty _]]].
  split; [|split; [exact (Hnone eq_refl)|exact (Hempty eq_refl)]].
  destruct (Hposted "ELONA") as
    [arg [rest [set0 [get0 [td [w1 [mm [io [w2 [w3 [report H]]]]]]]]]]].
  - right. right. left. reflexivity.
  - exists io, report. exact (proj2 (proj2 (proj2 (proj2 (proj2 H))))).
Defined.

(* ===================================================================== *)
(** ** Twitter set-up, posting with media, the tweet scheduler            *)
(* ===================================================================== *)

Section Credentials.
Import JS Startup Media.

Lemma checkCredentials_from_spec (keys : list (string * string))
    (env : gmap string string) :
  (checkCredentials_from keys env = Returns tt <->
   forall key var, In (key, var) keys -> is_set env var = true) /\
  (checkCredentials_from keys env <> Returns tt ->
   exists before key var after,
     keys = before ++ (key, var) :: after /\
     (forall k v, In (k, v) before -> is_set env v = true) /\
     is_set env var = false /\
     checkCredentials_from keys env
     = Throws (Error ("Failed to initialize Twitter: "
                        ++ "Missing required Twitter credential: " ++ key))).
Proof.
  induction keys as [|[key var] keys [IH1 IH2]]; simpl.
  - split; [split; [intros _ k v []|reflexivity]|]. intros H. contradiction.
  - destruct (is_set env var) eqn:E.
    + split.
      * rewrite IH1. split.
        -- intros H k v [[= <- <-]|Hin]; [exact E|eauto].
        -- intros H k v Hin. apply (H k v). right. exact Hin.
      * intros Hne. destruct (IH2 Hne) as [b [k [v [a [-> [Hb [Hv Hthrow]]]]]]].
        exists ((key, var) :: b), k, v, a.
        split; [reflexivity|]. split; [|split; [exact Hv|exact Hthrow]].
        intros k0 v0 [[= <- <-]|Hin]; [exact E|eauto].
    + split.
      * split; [discriminate|]. intros H.
        specialize (H key var (or_introl eq_refl)). congruence.
      * intros _. exists [], key, var, keys.
        split; [reflexivity|]. split; [intros k v []|]. split; [exact E|reflexivity].
Qed.

(** X19: the credential check of [verifyAndInitialize] passes exactly when
    all eight Twitter credentials are set; otherwise it throws an error
    naming the first missing credential in the declared order.  An environment accepted by [validateEnvironment] can
    still fail it, but only for the user name, the password or the e-mail
    address, which [validateEnvironment] does not require. *)
Theorem checkCredentials_first_missing (env : gmap string string) :
  (checkCredentials env = Returns tt <->
   forall key var, In (key, var) requiredCredentials -> is_set env var = true) /\
  (checkCredentials env <> Returns tt ->
   exists before key var after,
     requiredCredentials = before ++ (key, var) :: after /\
     (forall k v, In (k, v) before -> is_set env v = true) /\
     is_set env var = false /\
     checkCredentials env
     = Throws (Error ("Failed to initialize Twitter: "
                        ++ "Missing required Twitter credential: " ++ key))) /\
  (validateEnvironment env = Returns tt ->
   (checkCredentials env = Returns tt <->
    is_set env "TWITTER_USERNAME" = true /\
    is_set env "TWITTER_PASSWORD" = true /\
    is_set env "TWITTER_EMAIL" = true)).
Proof.
  destruct (checkCredentials_from_spec requiredCredentials env) as [H1 H2].
  split; [exact H1|]. split; [exact H2|].
  intros Hvalid. unfold checkCredentials in *. rewrite H1.
  assert (Hreq : forall key, In key requiredEnvVars -> is_set env key = true).
  { intros key Hin. destruct (is_set env key) eqn:E; [reflexivity|].
    assert (Hm : In key (missing env)).
    { unfold missing. apply List.filter_In. split; [exact Hin|].
      rewrite E. reflexivity. }
    unfold validateEnvironment in Hvalid.
    destruct (missing env); [destruct Hm|discriminate Hvalid]. }
  split.
  - intros H. repeat split; eapply H; simpl; eauto 10.
  - intros [Hu [Hp He]] key var Hin. simpl in Hin.
    repeat (destruct Hin as [[= <- <-]|Hin]; [first [assumption|apply Hreq; simpl; auto 12]|]).
    destruct Hin.
Qed.

End Credentials.

Lemma checkCredentials_first_missing_witness :
  let env : gmap string string :=
    list_to_map
      (List.map (fun k => (k, "x"))
         ("TWITTER_USERNAME" :: "TWITTER_EMAIL" :: Startup.requiredEnvVars)) in
  Startup.validateEnvironment env = JS.Returns tt /\
  Media.checkCredentials env
  = JS.Throws (JS.Error "Failed to initialize Twitter: Missing required Twitter credential: password").
Proof.
  cbv zeta.
  set (env := list_to_map
                (List.map (fun k => (k, "x"))
                   ("TWITTER_USERNAME" :: "TWITTER_EMAIL"
                      :: Startup.requiredEnvVars)) : gmap string string).
  assert (Hvalid : Startup.validateEnvironment env = JS.Returns tt)
    by (vm_compute; reflexivity).
  split; [exact Hvalid|].
  destruct (checkCredentials_first_missing env) as [_ [Hthrow Hiff]].
  destruct (Media.checkCredentials env) as [[]|e] eqn:E.
  - destruct (proj1 (Hiff Hvalid) eq_refl) as [_ [Hp _]].
    vm_compute in Hp. discriminate Hp.
  - vm_compute in E. injection E as <-. reflexivity.
Defined.

Section PostingMedia.
Import JS Media.
Context {W : Type}.
Variable uploadMedia : string -> W -> completion string * W.
Variable tweet : string -> option (list string) -> W -> completion string * W.
Variable first_rejected : list exn -> exn.

Lemma uploadAll_length (urls : list string) (w : W) :
  length (resolved (fst (fst (uploadAll uploadMedia urls w))))
  + length (rejected (fst (fst (uploadAll uploadMedia urls w))))
  = length urls.
Proof.
  revert w. induction urls as [|url urls IH]; intros w; [reflexivity|].
  simpl. destruct (uploadMedia url w) as [c w1]. specialize (IH w1).
  destruct (uploadAll uploadMedia urls w1) as [[cs tr] w2].
  destruct c; simpl in *; lia.
Qed.

(** One call of [uploadMedia] per URL, in the order of the URLs, each on
    the state the call before it left, and nothing else. *)
Lemma uploadAll_calls (urls : list string) (w : W) :
  snd (fst (uploadAll uploadMedia urls w)) = List.map UploadMedia urls /\
  forall before url after,
    urls = before ++ url :: after ->
    nth_error (fst (fst (uploadAll uploadMedia urls w))) (length before)
    = Some (fst (uploadMedia url
                   (snd (uploadAll uploadMedia before w)))).
Proof.
  revert w. induction urls as [|u urls IH]; intros w.
  { split; [reflexivity|]. intros [|? ?] ? ? H; discriminate H. }
  simpl. destruct (uploadMedia u w) as [c w1] eqn:Eu.
  destruct (IH w1) as [IH1 IH2].
  destruct (uploadAll uploadMedia urls w1) as [[cs tr] w2] eqn:Eall.
  simpl in *. split; [f_equal; exact IH1|].
  intros [|b before] url after H; simpl in H; injection H as -> ->.
  - simpl. rewrite Eu. reflexivity.
  - simpl. rewrite Eu.
    destruct (uploadAll uploadMedia before w1) as [[cs' tr'] w'] eqn:Eb.
    simpl. specialize (IH2 before url after eq_refl).
    rewrite Eb in IH2. exact IH2.
Qed.

Lemma uploads_start (started tail : list event) :
  (forall x, In x started -> is_upload x = true) ->
  (forall x, In x tail -> is_upload x = false) ->
  uploads (LogInfo "Preparing to post tweet..." :: started ++ tail) = started.
Proof.
  intros Hstarted Htail. unfold uploads. simpl. rewrite List.filter_app.
  replace (List.filter is_upload tail) with (@nil event).
  - rewrite app_nil_r. induction started as [|u started IH]; [reflexivity|].
    simpl. rewrite (Hstarted u (or_introl eq_refl)). f_equal.
    apply IH. intros y Hy. apply Hstarted. right. exact Hy.
  - symmetry. induction tail as [|x tail IH]; [reflexivity|].
    simpl. rewrite (Htail x (or_introl eq_refl)). apply IH.
    intros y Hy. apply Htail. right. exact Hy.
Qed.

Lemma tweets_start (started tail : list event) :
  (forall x, In x started -> is_upload x = true) ->
  tweets (LogInfo "Preparing to post tweet..." :: started ++ tail)
  = tweets tail.
Proof.
  intros Hstarted. unfold tweets. simpl. rewrite List.filter_app.
  replace (List.filter is_tweet started) with (@nil event); [reflexivity|].
  symmetry. induction started as [|u started IH]; [reflexivity|].
  simpl. pose proof (Hstarted u (or_introl eq_refl)) as Hu.
  destruct u; try discriminate Hu. simpl. apply IH.
  intros y Hy. apply Hstarted. right. exact Hy.
Qed.

(** X20: [postTweet] calls [uploadMedia] once for every media URL, in
    order, whether or not another upload fails.  If any upload is rejected
    no tweet is sent and the call throws.  Otherwise exactly one tweet is
    sent with the given text; it carries the ids of the first four uploads,
    in order, and never more than four; it carries no media at all exactly
    when no URL was given. *)
Theorem postTweet_attaches_at_most_four_media
    (content : string) (mediaUrls : option (list string)) (w : W) :
  let urls := list_or_nil mediaUrls in
  let cs := fst (fst (uploadAll uploadMedia urls w)) in
  let r := postTweet uploadMedia tweet first_rejected content mediaUrls w in
  let tr := snd (fst r) in
  uploads tr = List.map UploadMedia urls /\
  length cs = length urls /\
  (forall before url after,
     urls = before ++ url :: after ->
     nth_error cs (length before)
     = Some (fst (uploadMedia url (snd (uploadAll uploadMedia before w))))) /\
  (rejected cs <> [] ->
     tweets tr = [] /\ fst (fst r) = Throws (first_rejected (rejected cs))) /\
  (rejected cs = [] ->
     exists media,
       tweets tr = [TweetV2 content media] /\
       (media = None <-> urls = []) /\
       (forall ids, media = Some ids ->
          ids = firstn 4 (resolved cs) /\
          length ids = Nat.min 4 (length urls))).
Proof.
  cbv zeta. unfold postTweet. cbv zeta.
  pose proof (uploadAll_length (list_or_nil mediaUrls) w) as Hlen.
  destruct (uploadAll_calls (list_or_nil mediaUrls) w) as [Htr Hcalls].
  destruct (uploadAll uploadMedia (list_or_nil mediaUrls) w)
    as [[cs uploading] w1].
  simpl fst in *. simpl snd in Htr. subst uploading.
  assert (Hup : forall x, In x (List.map UploadMedia (list_or_nil mediaUrls)) ->
                          is_upload x = true).
  { intros x Hx. apply List.in_map_iff in Hx. destruct Hx as [u [<- _]].
    reflexivity. }
  assert (Hcs : length cs = length (list_or_nil mediaUrls)).
  { rewrite <- Hlen. clear. induction cs as [|[i|e] cs IH]; simpl; lia. }
  destruct (rejected cs) as [|e es] eqn:Erej.
  - assert (Hmedia :
      (match resolved cs with [] => None | _ :: _ => Some (firstn 4 (resolved cs)) end
       = None <-> list_or_nil mediaUrls = []) /\
      (forall ids,
          match resolved cs with [] => None | _ :: _ => Some (firstn 4 (resolved cs)) end
          = Some ids ->
          ids = firstn 4 (resolved cs) /\
          length ids = Nat.min 4 (length (list_or_nil mediaUrls)))).
    { simpl in Hlen. rewrite Nat.add_0_r in Hlen. rewrite <- Hlen. split.
      - destruct (resolved cs) as [|i more] eqn:Eres.
        + split; [intros _|reflexivity].
          destruct (list_or_nil mediaUrls); [reflexivity|discriminate Hlen].
        + split; [discriminate|]. intros H. rewrite H in Hlen. discriminate Hlen.
      - intros ids. destruct (resolved cs) as [|i more] eqn:Eres; [discriminate|].
        intros [= <-]. split; [reflexivity|].
        change (length (firstn 4 (i :: more)) = Nat.min 4 (length (i :: more))).
        apply length_take. }
    destruct (tweet content _ w1) as [[tweetId|e] w2]; simpl snd; simpl fst.
    + split; [apply uploads_start;
              [exact Hup|intros x [<-|[<-|[]]]; reflexivity]|].
      split; [exact Hcs|]. split; [exact Hcalls|].
      split; [intros H; contradiction|]. intros _.
      eexists. split; [rewrite (tweets_start _ _ Hup); reflexivity|]. exact Hmedia.
    + split; [apply uploads_start;
              [exact Hup|intros x [<-|[<-|[]]]; reflexivity]|].
      split; [exact Hcs|]. split; [exact Hcalls|].
      split; [intros H; contradiction|]. intros _.
      eexists. split; [rewrite (tweets_start _ _ Hup); reflexivity|]. exact Hmedia.
  - simpl snd; simpl fst.
    split; [apply uploads_start; [exact Hup|intros x [<-|[]]; reflexivity]|].
    split; [exact Hcs|]. split; [exact Hcalls|].
    split; [|discriminate]. intros _.
    split; [rewrite (tweets_start _ _ Hup); reflexivity|reflexivity].
Qed.

End PostingMedia.

Lemma postTweet_attaches_at_most_four_media_witness :
  let five := Some ["a"; "b"; "c"; "d"; "e"] in
  Media.tweets
    (snd (fst (Media.postTweet Media.upload_ok Media.tweet_ok
                 Media.head_or_undefined "gm" five tt)))
  = [Media.TweetV2 "gm" (Some ["id:a"; "id:b"; "id:c"; "id:d"])] /\
  Media.tweets
    (snd (fst (Media.postTweet (Media.upload_unless "b") Media.tweet_ok
                 Media.head_or_undefined "gm" five tt))) = [] /\
  length
    (Media.uploads
       (snd (fst (Media.postTweet (Media.upload_unless "b") Media.tweet_ok
                    Media.head_or_undefined "gm" five tt)))) = 5.
Proof.
  cbv zeta.
  pose proof (postTweet_attaches_at_most_four_media
                Media.upload_ok Media.tweet_ok Media.head_or_undefined
                "gm" (Some ["a"; "b"; "c"; "d"; "e"]) tt) as [_ [_ [_ [_ Hok]]]].
  pose proof (postTweet_attaches_at_most_four_media
                (Media.upload_unless "b") Media.tweet_ok Media.head_or_undefined
                "gm" (Some ["a"; "b"; "c"; "d"; "e"]) tt)
    as [Hup [_ [_ [Hbad _]]]].
  split; [|split].
  - destruct (Hok eq_refl) as [media [Ht [_ Hids]]].
    rewrite Ht. destruct media as [ids|].
    + destruct (Hids ids eq_refl) as [-> _]. reflexivity.
    + vm_compute in Ht. discriminate Ht.
  - exact (proj1 (Hbad ltac:(discriminate))).
  - rewrite Hup. reflexivity.
Defined.

Section SchedulerBudget.
Import JS Twitter.
Context {W : Type}.
Variable tweet : string -> W -> completion unit * W.
Variable llm_chat : W -> completion string * W.
Variable getMarketData : W -> completion MarketData * W.

Lemma attempts_app (a b : list event) :
  attempts (a ++ b) = attempts a + attempts b.
Proof. unfold attempts. rewrite List.filter_app, List.length_app. reflexivity. Qed.

Lemma postAITweet_attempts (w : W) :
  attempts (trace (postAITweet tweet llm_chat w)) <= default_retries.
Proof.
  unfold postAITweet.
  pose proof (generateTweetContent_trace_no_tweet llm_chat w) as Hg.
  destruct (generateTweetContent llm_chat w) as [[[content|e] tr1] w1];
    unfold trace in Hg; simpl in Hg.
  - pose proof (retry_from_attempts tweet default_retries 0 content Undefined w1)
      as Hr.
    unfold postTweetWithRetry.
    destruct (retry_from tweet default_retries 0 content Undefined w1)
      as [[[[]|e] tr2] w2];
      unfold trace in *; simpl in *;
      change (attempts (tr1 ++ tr2 ++ [LogSuccess "AI tweet posted successfully"])
              <= default_retries)
        || change (attempts (tr1 ++ tr2 ++ [LogError "Failed to post AI tweet:" e])
                   <= default_retries);
      rewrite !attempts_app, Hg; simpl; unfold attempts at 2; simpl; lia.
  - unfold trace. simpl.
    change (attempts (tr1 ++ [LogError "Failed to post AI tweet:" e])
            <= default_retries).
    rewrite attempts_app, Hg. unfold attempts, default_retries. simpl. lia.
Qed.

Lemma scheduleTweets_tick_attempts (w : W) :
  attempts (trace (scheduleTweets_tick tweet llm_chat getMarketData w))
  <= default_retries.
Proof.
  unfold scheduleTweets_tick.
  destruct (getMarketData w) as [[md|e] w1];
    [|unfold trace, attempts, default_retries; simpl; lia].
  destruct (price md), (volume24h md);
    try (unfold trace, attempts, default_retries; simpl; lia).
  pose proof (postAITweet_attempts w1) as Hp.
  destruct (postAITweet tweet llm_chat w1) as [[[[]|e] tr] w2];
    unfold trace in *; simpl in *; [exact Hp|].
  rewrite attempts_app. unfold attempts at 2. simpl. lia.
Qed.

(** X21: the tweet scheduler makes at most three tweet attempts per tick,
    so [ticks] firings of its timer make at most [3 * ticks] attempts, and
    none of them leaves a rejection unhandled. *)
Theorem scheduleTweets_run_attempts_bounded (ticks : nat) (w : W) :
  attempts (fst (scheduleTweets_run tweet llm_chat getMarketData ticks w))
  <= 3 * ticks /\
  crashed (fst (scheduleTweets_run tweet llm_chat getMarketData ticks w)) = false.
Proof.
  split; [|apply scheduleTweets_run_not_crashed].
  revert w. induction ticks as [|k IH]; intros w; simpl.
  - unfold attempts. simpl. lia.
  - pose proof (scheduleTweets_tick_attempts w) as Ht.
    destruct (scheduleTweets_tick_returns tweet llm_chat getMarketData w)
      as [tr [w' Etick]].
    rewrite Etick in *. specialize (IH w').
    destruct (scheduleTweets_run tweet llm_chat getMarketData k w') as [rest w''].
    unfold trace in Ht. simpl in *. rewrite attempts_app.
    unfold default_retries in Ht. lia.
Qed.

End SchedulerBudget.

Lemma postTweetWithRetry_attempts_and_total_delay_witness :
  let r := Twitter.postTweetWithRetry (Twitter.fails_first 1) "gm" 3 0 in
  Twitter.outcome r = JS.Returns tt /\
  Twitter.attempts (Twitter.trace r) = 2 /\
  Backoff.total_delay (Twitter.trace r) = 5000%Z.
Proof.
  cbv zeta.
  pose proof (postTweetWithRetry_attempts_and_total_delay
                (Twitter.fails_first 1) "gm" 3 0) as H.
  cbv zeta in H.
  change (Backoff.failures_before_success (Twitter.fails_first 1) 3 "gm" 0)
    with (Some 1) in H.
  destruct H as [_ [Hout [Hatt Hdelay]]].
  split; [exact Hout|]. split; [exact Hatt|]. lia.
Defined.
